(** * Conversation controller of the insurance bot: a shallow embedding

    The development follows the TypeScript sources file by file:

    - [JsString]: the string methods the handlers rely on
      ([endsWith], [replace], [trim], [toLowerCase], ...);
    - [UserSession] and [SessionStorage]: [session/UserSession.ts] and
      [session/SessionStorage.ts];
    - the collaborators (chat transport, extraction service, agent runner,
      PDF renderer) are black boxes: a record [Collab] of functions gives
      the outcome of each of their calls, [None]/[false] standing for a
      rejected promise;
    - handlers are written in a state-and-exception monad [M] over a
      [World]: the session map together with the ordered list of calls and
      console lines the handlers produced.

    A JavaScript string is modelled as the [string] of the UTF-8 code
    units of its text.  The patterns the handlers search for ([endsWith],
    [replace]) are Basic Latin, so they match at the same places in either
    encoding; [trim] and [toLowerCase] read the multi-byte characters they
    act on. *)

From Stdlib Require Import Ascii String.
From stdpp Require Import gmap strings list pretty.

Local Open Scope string_scope.
Local Open Scope list_scope.

(* ================================================================== *)
(** ** JavaScript string methods *)
(* ================================================================== *)

Module JsString.

Definition nl : string := String (ascii_of_nat 10) "".
Definition dq : string := String (ascii_of_nat 34) "".

(** [s.endsWith(x)]: some tail of [s] is [x]. *)
Fixpoint endsWith (s x : string) : bool :=
  String.eqb s x ||
  match s with
  | EmptyString => false
  | String _ s' => endsWith s' x
  end.

Fixpoint skip (n : nat) (s : string) : string :=
  match n, s with
  | O, _ => s
  | S n', String _ s' => skip n' s'
  | S _, EmptyString => EmptyString
  end.

(** [s.replace(pat, rep)] with a string pattern: only the FIRST
    occurrence of [pat] is replaced. *)
Fixpoint replace (pat rep s : string) : string :=
  if String.prefix pat s then rep +:+ skip (String.length pat) s
  else match s with
       | EmptyString => EmptyString
       | String c s' => String c (replace pat rep s')
       end.

(** White space of [trim]: the code points [WhiteSpace] and
    [LineTerminator] of ECMAScript, as their UTF-8 code units.

    One code unit: TAB, LF, VT, FF, CR (9 to 13) and SPACE (32). *)
Definition space1 (a : ascii) : bool :=
  let n := nat_of_ascii a in
  ((9 <=? n) && (n <=? 13) || (n =? 32))%nat.

(** Two code units: U+00A0 (C2 A0). *)
Definition space2 (a b : ascii) : bool :=
  ((nat_of_ascii a =? 194) && (nat_of_ascii b =? 160))%nat.

(** Three code units: U+1680 (E1 9A 80), U+2000 to U+200A (E2 80 80 to
    E2 80 8A), U+2028 and U+2029 (E2 80 A8, E2 80 A9), U+202F (E2 80 AF),
    U+205F (E2 81 9F), U+3000 (E3 80 80) and U+FEFF (EF BB BF). *)
Definition space3 (a b c : ascii) : bool :=
  let x := nat_of_ascii a in
  let y := nat_of_ascii b in
  let z := nat_of_ascii c in
  ((x =? 225) && (y =? 154) && (z =? 128)
   || (x =? 226) && (y =? 128)
        && ((128 <=? z) && (z <=? 138) || (z =? 168) || (z =? 169) || (z =? 175))
   || (x =? 226) && (y =? 129) && (z =? 159)
   || (x =? 227) && (y =? 128) && (z =? 128)
   || (x =? 239) && (y =? 187) && (z =? 191))%nat.

Fixpoint trimStart (s : string) : string :=
  match s with
  | EmptyString => EmptyString
  | String a s1 =>
      if space1 a then trimStart s1
      else match s1 with
           | EmptyString => s
           | String b s2 =>
               if space2 a b then trimStart s2
               else match s2 with
                    | EmptyString => s
                    | String c s3 => if space3 a b c then trimStart s3 else s
                    end
           end
  end.

(** The white space at the end goes: whatever is left of [s] from a
    position on is dropped when it is white space only. *)
Fixpoint trimEnd (s : string) : string :=
  match s with
  | EmptyString => EmptyString
  | String a s1 =>
      match trimStart s with
      | EmptyString => EmptyString
      | _ => String a (trimEnd s1)
      end
  end.

Definition trim (s : string) : string := trimEnd (trimStart s).

(** [s.toLowerCase()], exact on the characters whose lower case holds a
    Basic Latin letter: the letters A to Z, U+0130 (C4 B0, which becomes
    [i] followed by U+0307) and the Kelvin sign U+212A (E2 84 AA, which
    becomes [k]).  The other characters are copied; the handlers compare
    the result with [yes] and [no] only, and a text with a copied
    character equals neither before or after its case is folded. *)
Definition upper_letter (a : ascii) : bool :=
  let n := nat_of_ascii a in ((65 <=? n) && (n <=? 90))%nat.

Definition lower_char (a : ascii) : ascii :=
  if upper_letter a then ascii_of_nat (nat_of_ascii a + 32) else a.

Fixpoint toLowerCase (s : string) : string :=
  match s with
  | EmptyString => EmptyString
  | String a s1 =>
      if upper_letter a then String (lower_char a) (toLowerCase s1)
      else match s1 with
           | EmptyString => s
           | String b s2 =>
               if ((nat_of_ascii a =? 196) && (nat_of_ascii b =? 176))%nat
               then String "i" (String (ascii_of_nat 204)
                                  (String (ascii_of_nat 135) (toLowerCase s2)))
               else match s2 with
                    | EmptyString => String a (toLowerCase s1)
                    | String c s3 =>
                        if ((nat_of_ascii a =? 226) && (nat_of_ascii b =? 132)
                            && (nat_of_ascii c =? 170))%nat
                        then String "k" (toLowerCase s3)
                        else String a (toLowerCase s1)
                    end
           end
  end.

(** [c.toUpperCase()] for a Basic Latin character. *)
Definition upper_char (c : ascii) : ascii :=
  let n := nat_of_ascii c in
  if ((97 <=? n) && (n <=? 122))%nat then ascii_of_nat (n - 32) else c.

(** [s.charAt(0).toUpperCase() + s.slice(1)], applied to the two names
    of [documentType]. *)
Definition capitalize (s : string) : string :=
  match s with
  | EmptyString => EmptyString
  | String c s' => String (upper_char c) s'
  end.

(** [xs.join(sep)] *)
Fixpoint join (sep : string) (xs : list string) : string :=
  match xs with
  | [] => ""
  | [x] => x
  | x :: rest => x +:+ sep +:+ join sep rest
  end.

(** Truthiness of a string: non-empty. *)
Definition truthy (s : string) : bool := negb (String.eqb s "").

End JsString.
Import JsString.

(* ================================================================== *)
(** ** Data model *)
(* ================================================================== *)

(** [UserSession.STEPS] *)
Inductive StepName : Set :=
| start
| awaiting_passport
| confirming_passport
| awaiting_driversId
| confirming_driversId
| confirming_price
| sending_policy
| completed.

#[global] Instance StepName_eq_dec : EqDecision StepName.
Proof. solve_decision. Defined.

Definition STEPS : list StepName :=
  [ start; awaiting_passport; confirming_passport; awaiting_driversId;
    confirming_driversId; confirming_price; sending_policy; completed ].

Definition step_string (st : StepName) : string :=
  match st with
  | start => "start"
  | awaiting_passport => "awaiting_passport"
  | confirming_passport => "confirming_passport"
  | awaiting_driversId => "awaiting_driversId"
  | confirming_driversId => "confirming_driversId"
  | confirming_price => "confirming_price"
  | sending_policy => "sending_policy"
  | completed => "completed"
  end.

(** ["passport" | "driver's license"] *)
Inductive DocumentType : Set := passport | drivers_license.

#[global] Instance DocumentType_eq_dec : EqDecision DocumentType.
Proof. solve_decision. Defined.

Definition documentType_string (ty : DocumentType) : string :=
  match ty with
  | passport => "passport"
  | drivers_license => "driver's license"
  end.

(** [PassportData | DriversLicenseData]: an object of named text fields,
    in insertion order. *)
Definition Fields : Type := list (string * string).

(** A document field of the session:
    [PassportData | string | undefined], and [null] after a reset. *)
Inductive DocData : Type :=
| Undefined
| Null
| Structured (fields : Fields)
| RawText (s : string).

#[global] Instance DocData_eq_dec : EqDecision DocData.
Proof. unfold Fields. solve_decision. Defined.

Definition present (d : DocData) : bool :=
  match d with
  | Structured _ | RawText _ => true
  | Undefined | Null => false
  end.

(** [AgentInputItem]: the role-tagged messages built by [user(..)] and
    [assistant(..)], and whatever else a run leaves in its history. *)
Inductive AgentInputItem : Type :=
| user (content : string)
| assistant (content : string)
| run_item (payload : string).

Inductive AgentRole : Set := RoleUser | RoleAssistant.

(** [TelegramMessageContent] *)
Inductive TelegramMessageContent : Set :=
| CText | CCommand | CPhoto | CDocument | CUnsupported.

#[global] Instance TelegramMessageContent_eq_dec :
  EqDecision TelegramMessageContent.
Proof. solve_decision. Defined.

Definition content_string (c : TelegramMessageContent) : string :=
  match c with
  | CText => "text"
  | CCommand => "command"
  | CPhoto => "photo"
  | CDocument => "document"
  | CUnsupported => "unsupported"
  end.

Record PhotoSize := { ph_file_id : string; ph_file_size : Z }.
Record DocumentFile :=
  { doc_mime_type : string; doc_file_id : string; doc_file_size : Z }.

(** [TelegramMessage] *)
Record TelegramMessage := {
  from_id : Z;
  text : option string;
  entities : option (list string);   (* the [type] of each entity *)
  document : option DocumentFile;
  photo : option (list PhotoSize)
}.

(* ================================================================== *)
(** ** session/UserSession.ts *)
(* ================================================================== *)

Record UserSession := {
  _stepIndex : nat;
  _conversation : list AgentInputItem;
  _passportData : DocData;
  _driversIdData : DocData;
  awaitingManualInput : option bool
}.

Module Session.

(** [constructor()] *)
Definition new : UserSession :=
  {| _stepIndex := 0;
     _conversation := [];
     _passportData := Undefined;
     _driversIdData := Undefined;
     awaitingManualInput := None |}.

(** [get step()]: [UserSession.STEPS[this._stepIndex]] *)
Definition step (s : UserSession) : option StepName :=
  STEPS !! _stepIndex s.

Definition addToConversationHistory
    (item : string) (role : AgentRole) (s : UserSession) : UserSession :=
  let message :=
    match role with RoleUser => user item | RoleAssistant => assistant item end in
  {| _stepIndex := _stepIndex s;
     _conversation := _conversation s ++ [message];
     _passportData := _passportData s;
     _driversIdData := _driversIdData s;
     awaitingManualInput := awaitingManualInput s |}.

Definition setConversation
    (history : list AgentInputItem) (s : UserSession) : UserSession :=
  {| _stepIndex := _stepIndex s;
     _conversation := history;
     _passportData := _passportData s;
     _driversIdData := _driversIdData s;
     awaitingManualInput := awaitingManualInput s |}.

Definition nextStep (s : UserSession) : UserSession :=
  if (_stepIndex s <? length STEPS - 1)%nat
  then {| _stepIndex := (_stepIndex s + 1)%nat;
          _conversation := _conversation s;
          _passportData := _passportData s;
          _driversIdData := _driversIdData s;
          awaitingManualInput := awaitingManualInput s |}
  else s.

Definition prevStep (s : UserSession) : UserSession :=
  if (0 <? _stepIndex s)%nat
  then {| _stepIndex := (_stepIndex s - 1)%nat;
          _conversation := _conversation s;
          _passportData := _passportData s;
          _driversIdData := _driversIdData s;
          awaitingManualInput := awaitingManualInput s |}
  else s.

Definition setDocumentData
    (documentType : DocumentType) (data : DocData) (s : UserSession)
  : UserSession :=
  match documentType with
  | passport =>
      {| _stepIndex := _stepIndex s;
         _conversation := _conversation s;
         _passportData := data;
         _driversIdData := _driversIdData s;
         awaitingManualInput := awaitingManualInput s |}
  | drivers_license =>
      {| _stepIndex := _stepIndex s;
         _conversation := _conversation s;
         _passportData := _passportData s;
         _driversIdData := data;
         awaitingManualInput := awaitingManualInput s |}
  end.

(** [userState.awaitingManualInput = b] *)
Definition setAwaitingManualInput (b : bool) (s : UserSession) : UserSession :=
  {| _stepIndex := _stepIndex s;
     _conversation := _conversation s;
     _passportData := _passportData s;
     _driversIdData := _driversIdData s;
     awaitingManualInput := Some b |}.

(** Truthiness of the optional flag. *)
Definition manualInputPending (s : UserSession) : bool :=
  match awaitingManualInput s with Some true => true | _ => false end.

Definition documentData (ty : DocumentType) (s : UserSession) : DocData :=
  match ty with
  | passport => _passportData s
  | drivers_license => _driversIdData s
  end.

(** The sessions that the class can ever hold: what the constructor
    builds, closed under the mutating members. *)
Inductive reachable : UserSession -> Prop :=
| reach_new : reachable new
| reach_nextStep s : reachable s -> reachable (nextStep s)
| reach_prevStep s : reachable s -> reachable (prevStep s)
| reach_add s item role :
    reachable s -> reachable (addToConversationHistory item role s)
| reach_setConversation s h :
    reachable s -> reachable (setConversation h s)
| reach_setDocumentData s ty d :
    reachable s -> reachable (setDocumentData ty d s)
| reach_flag s b :
    reachable s -> reachable (setAwaitingManualInput b s).

End Session.

(* ================================================================== *)
(** ** Collaborators, world and the handler monad *)
(* ================================================================== *)

(** One invocation of a tool of the agent ([parse_passport] or
    [parse_drivers_licence]) with the input the agent chose. *)
Record ToolCall := {
  tc_tool : DocumentType;
  tc_url : string;
  tc_chat_id : Z
}.

(** What [run(agent, items)] resolves to. *)
Record RunResult := {
  finalOutput : option string;       (* [None]: absent or not a string *)
  history : list AgentInputItem
}.

(** A run of the agent: the tools it invoked, in order, and its result
    ([None]: the run rejects). *)
Record RunOutcome := {
  tool_calls : list ToolCall;
  final : option RunResult
}.

(** The black boxes.  [false] and [None] stand for a call that raises. *)
Record Collab := {
  tg_sendMessage : Z -> string -> bool;
  tg_sendDocument : Z -> string -> string -> bool;
  tg_getFile : string -> option string;
  mindee_extractData : string -> DocumentType -> option Fields;
  agent_run : list AgentInputItem -> RunOutcome;
  policy_pdf : UserSession -> option string
}.

(** What the handlers did, in order. *)
Inductive Event : Type :=
| SendMessage (chat_id : Z) (message : string) (delivered : bool)
| SendDocument (chat_id : Z) (caption : string) (delivered : bool)
| RunAgent (chat_id : Z) (userMessage : string)
| ExtractData (url : string) (ty : DocumentType)
| ConsoleLog (line : string)
| ConsoleLogData (d : DocData)
| ConsoleError (line : string)
| LogError.

#[global] Instance Event_eq_dec : EqDecision Event.
Proof. solve_decision. Defined.

Record World := {
  sessions : gmap Z UserSession;     (* [SessionStorage.map] *)
  events : list Event
}.

Inductive Res (A : Type) : Type :=
| Ret (a : A)
| Throw.
Arguments Ret {A} a.
Arguments Throw {A}.

(** A computation may mutate the world and then return or raise; the
    mutations made before an exception stay. *)
Definition M (A : Type) : Type := World -> Res A * World.

Definition ret {A} (a : A) : M A := fun w => (Ret a, w).
Definition throw {A} : M A := fun w => (Throw, w).
Definition bind {A B} (m : M A) (k : A -> M B) : M B :=
  fun w => match m w with
           | (Ret a, w') => k a w'
           | (Throw, w') => (Throw, w')
           end.
(** [try { m } catch { h }] *)
Definition try_catch {A} (m : M A) (h : M A) : M A :=
  fun w => match m w with
           | (Ret a, w') => (Ret a, w')
           | (Throw, w') => h w'
           end.

Notation "'do' x <- m ; k" := (bind m (fun x => k))
  (at level 10, x name, m at level 100, k at level 200).
Notation "m >> k" := (bind m (fun _ => k))
  (at level 100, k at level 200, right associativity).

Definition emit (e : Event) : M unit :=
  fun w => (Ret tt, {| sessions := sessions w; events := events w ++ [e] |}).

(** Reading [userState]: the object stored under [chat_id]. *)
Definition session_of (chat_id : Z) (w : World) : UserSession :=
  default Session.new (sessions w !! chat_id).

Definition readSession (chat_id : Z) : M UserSession :=
  fun w => (Ret (session_of chat_id w), w).

(** A mutating member called on [userState]. *)
Definition updateSession (chat_id : Z) (f : UserSession -> UserSession) : M unit :=
  fun w => (Ret tt, {| sessions := alter f chat_id (sessions w);
                       events := events w |}).

(** [sessionStorage.get(chat_id)]: the existing session or a new one,
    stored on the way. *)
Definition sessionStorage_get (chat_id : Z) : M unit :=
  fun w => match sessions w !! chat_id with
           | Some _ => (Ret tt, w)
           | None => (Ret tt, {| sessions := <[chat_id := Session.new]> (sessions w);
                                 events := events w |})
           end.

Definition step_text (s : UserSession) : string :=
  match Session.step s with
  | Some st => step_string st
  | None => "undefined"
  end.

(** [message.text!].  The handlers read it for text and command
    messages; a command that carries entities but no text reads as the
    empty string here. *)
Definition text_of (message : TelegramMessage) : string :=
  default "" (text message).

Section Handlers.

Variable env : Collab.

(** *** services/telegram/api.ts *)

Definition sendMessage (chat_id : Z) (message : string) : M unit :=
  let ok := tg_sendMessage env chat_id message in
  emit (SendMessage chat_id message ok) >>
  if ok then ret tt else throw.

(** The [filename] argument (built from [Date.now()]) is left out. *)
Definition sendDocument (chat_id : Z) (buffer caption : string) : M unit :=
  let ok := tg_sendDocument env chat_id buffer caption in
  emit (SendDocument chat_id caption ok) >>
  if ok then ret tt else throw.

Definition logError : M unit := emit LogError.

(** *** services/agent/agent.ts: the two tools

    A tool extracts the data and stores it in the session of the chat id
    the agent passed, creating that session when there is none. *)

Definition execute_tool (tc : ToolCall) : M unit :=
  match mindee_extractData env (tc_url tc) (tc_tool tc) with
  | None => ret tt                 (* the tool raised: nothing is stored *)
  | Some data =>
      sessionStorage_get (tc_chat_id tc) >>
      updateSession (tc_chat_id tc)
        (Session.setDocumentData (tc_tool tc) (Structured data))
  end.

Fixpoint execute_tools (tcs : list ToolCall) : M unit :=
  match tcs with
  | [] => ret tt
  | tc :: rest => execute_tool tc >> execute_tools rest
  end.

(** *** services/agent/promptAgent.ts *)

Definition contextualMessage
    (chat_id : Z) (userMessage : string) (s : UserSession)
    (instruction : option string) : string :=
  join (nl +:+ nl)
    (("# Context" +:+ nl +:+ "Current step: " +:+ step_text s +:+ nl
        +:+ "User_id=" +:+ pretty chat_id)
     :: match instruction with
        | Some i => if truthy i then ["# Instruction" +:+ nl +:+ i] else []
        | None => []
        end
     ++ ["# User Message" +:+ nl +:+ userMessage]).

Definition promptAgent
    (chat_id : Z) (userMessage : string) (instruction : option string)
  : M string :=
  do s <- readSession chat_id;
  emit (RunAgent chat_id userMessage) >>
  let result :=
    agent_run env
      (_conversation s
         ++ [user (contextualMessage chat_id userMessage s instruction)]) in
  execute_tools (tool_calls result) >>
  match final result with
  | None => throw
  | Some r =>
      match finalOutput r with
      | None => throw
      | Some out =>
          if truthy out
          then updateSession chat_id (Session.setConversation (history r)) >>
               ret out
          else throw
      end
  end.

(** *** services/telegram/helpers/get_file_url.ts *)

Inductive GetUrlResult : Type :=
| UrlSuccess (fileUrl : string)
| UrlFailure (errorMessage : string).

Definition MAX_FILE_SIZE : Z := 10485760.

Definition MINDEE_SUPPORTED_MIME_TYPES : list string :=
  [ "image/jpeg"; "image/png"; "image/webp"; "image/tiff"; "image/heic";
    "application/pdf" ].

Definition fetchFileUrl (file_id : string) (file_size : Z) (kind : string)
  : M GetUrlResult :=
  if (MAX_FILE_SIZE <? file_size)%Z
  then ret (UrlFailure
              "Sorry, your file exceeds the *10 MB* limit. Please upload a smaller one.")
  else match tg_getFile env file_id with
       | Some fileUrl => ret (UrlSuccess fileUrl)
       | None =>
           logError >>
           ret (UrlFailure
                  ("Oh, crap, something went wrong. Please, send your "
                     +:+ kind +:+ " again"))
       end.

(** [fileType] is ["document"] or ["photo"]. *)
Definition getFileUrl (message : TelegramMessage) (fileType : TelegramMessageContent)
  : M GetUrlResult :=
  if decide (fileType = CPhoto)
  then match photo message with
       | None => throw                       (* [message.photo!.length] *)
       | Some photos =>
           match last photos with
           | None => throw                   (* [undefined.file_id] *)
           | Some fullsizePhoto =>
               fetchFileUrl (ph_file_id fullsizePhoto)
                 (ph_file_size fullsizePhoto) "photo"
           end
       end
  else match document message with
       | None => throw                       (* [document!.file_id] *)
       | Some d =>
           if bool_decide (doc_mime_type d ∈ MINDEE_SUPPORTED_MIME_TYPES)
           then fetchFileUrl (doc_file_id d) (doc_file_size d) "document"
           else ret (UrlFailure
                       "Sorry, unsupported file format. Please send a PDF, JPEG, PNG, WEBP, TIFF, or HEIC file.")
       end.

(** *** handlers/utils/doc_summary.ts *)

Definition createDocumentSummary (data : Fields) (documentType : DocumentType)
  : string :=
  let summary :=
    join nl (map (fun kv => "*" +:+ fst kv +:+ ":* " +:+ snd kv) data) in
  "✅ I've extracted your " +:+ documentType_string documentType
    +:+ " data:" +:+ nl +:+ nl +:+ summary +:+ nl +:+ nl
    +:+ "Is this correct?" +:+ nl +:+ "Please reply with " +:+ dq +:+ "yes"
    +:+ dq +:+ " or " +:+ dq +:+ "no" +:+ dq +:+ ".".

(** *** handlers/send_policy.ts *)

Definition policy_successMessage : string :=
  "Here is your insurance policy document." +:+ nl +:+ nl
    +:+ "Thank you for choosing our service! 💛💙".
Definition policy_errorMessage : string :=
  "Sorry, there was an error with your policy. Please try again later.".

Definition sendPolicy (chat_id : Z) : M unit :=
  try_catch
    (do s <- readSession chat_id;
     match policy_pdf env s with
     | None => throw
     | Some pdfBuffer =>
         sendDocument chat_id pdfBuffer policy_successMessage >>
         updateSession chat_id Session.nextStep
     end)
    (logError >> sendMessage chat_id policy_errorMessage).

(** *** handlers/types.ts *)

Definition Handler : Type :=
  Z -> TelegramMessageContent -> TelegramMessage -> M unit.

Definition Callback : Type := Z -> M unit.

Record DocumentStepConfig := {
  documentType : DocumentType
}.

Record ConfirmationStepConfig := {
  onAccept : option Callback;
  onReject : option Callback
}.

(** *** handlers/process_document.ts *)

Definition processingMessage : string :=
  "*Processing your document 👀*" +:+ nl +:+ nl
    +:+ "This may take a moment. I'll reply as soon as it's complete!".

Definition FAILED_INSTRUCTION : string :=
  "If data extracting fails add [FAILED] at the very end of your response.".

Definition agentPrompt (ty : DocumentType) (fileUrl : string) : string :=
  match ty with
  | passport => "Here's a photo of my passport: " +:+ fileUrl
  | drivers_license => "Here's a photo of my driver's license: " +:+ fileUrl
  end.

Definition manualInputPrompt (ty : DocumentType) : string :=
  "Please type your passport information manually:" +:+ nl +:+ nl
    +:+ "- Full name" +:+ nl
    +:+ "- " +:+ capitalize (documentType_string ty) +:+ " number" +:+ nl
    +:+ "- Date of birth".

Definition apologyMsg (ty : DocumentType) : string :=
  "Sorry, I couldn't process your " +:+ documentType_string ty +:+ ". "
    +:+ manualInputPrompt ty.

Definition manualConfirmationMsg (ty : DocumentType) (txt : string) : string :=
  "Thank you! I've recorded your " +:+ documentType_string ty
    +:+ " information:" +:+ nl +:+ nl +:+ txt +:+ nl +:+ nl
    +:+ "Is this correct?".

Definition agentFailedLine (s : UserSession) : string :=
  "Agent failed during " +:+ step_text s.
Definition mindeeFailedLine (s : UserSession) : string :=
  "Mindee fallback also failed during " +:+ step_text s.

Definition handleManualInput
    (chat_id : Z) (message : TelegramMessage) (config : DocumentStepConfig)
  : M unit :=
  let txt := text_of message in
  updateSession chat_id
    (Session.setDocumentData (documentType config) (RawText txt)) >>
  updateSession chat_id (Session.setAwaitingManualInput false) >>
  let confirmationMsg := manualConfirmationMsg (documentType config) txt in
  sendMessage chat_id confirmationMsg >>
  updateSession chat_id
    (Session.addToConversationHistory confirmationMsg RoleAssistant) >>
  updateSession chat_id Session.nextStep.

(** Step 3 of [processDocument]: the agent drives the turn.  [Ret true]
    stands for the [return] inside the [try] block, [Ret false] for
    leaving the [catch] block. *)
Definition tier1_agent
    (chat_id : Z) (config : DocumentStepConfig) (fileUrl : string) : M bool :=
  try_catch
    (do agentResponse <-
        promptAgent chat_id (agentPrompt (documentType config) fileUrl)
          (Some FAILED_INSTRUCTION);
     if endsWith agentResponse "[FAILED]"
     then sendMessage chat_id (trim (replace "[FAILED]" "" agentResponse)) >>
          ret true
     else sendMessage chat_id agentResponse >>
          updateSession chat_id Session.nextStep >>
          ret true)
    (do s <- readSession chat_id;
     emit (ConsoleError (agentFailedLine s)) >>
     logError >>
     ret false).

(** The fallback: Mindee is called directly.  [extractData] resolves to
    an object or rejects, so the [if (!documentData) throw] that follows the
    call adds no case of its own. *)
Definition tier2_mindee
    (chat_id : Z) (config : DocumentStepConfig) (fileUrl : string) : M bool :=
  try_catch
    (emit (ExtractData fileUrl (documentType config)) >>
     match mindee_extractData env fileUrl (documentType config) with
     | None => throw
     | Some documentData =>
         updateSession chat_id
           (Session.setDocumentData (documentType config)
              (Structured documentData)) >>
         let confirmationMsg :=
           createDocumentSummary documentData (documentType config) in
         sendMessage chat_id confirmationMsg >>
         updateSession chat_id
           (Session.addToConversationHistory confirmationMsg RoleAssistant) >>
         updateSession chat_id Session.nextStep >>
         ret true
     end)
    (do s <- readSession chat_id;
     emit (ConsoleError (mindeeFailedLine s)) >>
     logError >>
     ret false).

(** The final fallback: ask for manual input. *)
Definition tier3_manual (chat_id : Z) (config : DocumentStepConfig) : M unit :=
  sendMessage chat_id (apologyMsg (documentType config)) >>
  updateSession chat_id
    (Session.addToConversationHistory (apologyMsg (documentType config))
       RoleAssistant) >>
  updateSession chat_id (Session.setAwaitingManualInput true).

Definition processDocument
    (chat_id : Z) (contentType : TelegramMessageContent)
    (message : TelegramMessage) (config : DocumentStepConfig) : M unit :=
  do s <- readSession chat_id;
  if Session.manualInputPending s && bool_decide (contentType = CText)
  then handleManualInput chat_id message config
  else
    do result <-
       getFileUrl message
         (if decide (contentType = CDocument) then CDocument else CPhoto);
    match result with
    | UrlFailure errorMessage => sendMessage chat_id errorMessage
    | UrlSuccess fileUrl =>
        sendMessage chat_id processingMessage >>
        do done1 <- tier1_agent chat_id config fileUrl;
        if done1 : bool then ret tt
        else
          do done2 <- tier2_mindee chat_id config fileUrl;
          if done2 : bool then ret tt
          else tier3_manual chat_id config
    end.

(** *** handlers/confirm_data.ts *)

Definition AI_CONFIRMATION_INSTRUCTION : string :=
  "Analyze the user's message. If user comfirms the data is correct craft a natural acknowledgment message, then add '[CONFIRMED]' at the very end. If a user's rejecting, craft a natural message asking them to retry, then add '[REJECTED]' at the very end. If user's asking a question or commenting, answer normally without any markers.".

Inductive ManualConfirmation : Set := yes | no | unparseable.

Inductive Decision : Set := DecYes | DecNo.

Inductive FailureReason : Set := agentUnavailable | messageNeedsAnswer.

Inductive AIConfirmationResult : Type :=
| AISuccess (decision : Decision) (message : string)
| AIFailure (reason : FailureReason) (message : option string).

Definition guessDecision (txt : string) : ManualConfirmation :=
  let normalized := trim (toLowerCase txt) in
  if String.eqb normalized "yes" then yes
  else if String.eqb normalized "no" then no
  else unparseable.

Record StepMessages := { retryMessage : string; successMessage : string }.

Definition getMessagesForStep (st : option StepName) : M StepMessages :=
  match st with
  | Some confirming_passport =>
      ret {| retryMessage :=
               "Sorry about that! Could you try taking another photo of your passport?"
                 +:+ nl +:+ nl
                 +:+ "Make sure it's clear and well-lit so we can help you faster. Thanks! üôåüèº";
             successMessage := "Great! Now please upload your driver's license." |}
  | Some confirming_driversId =>
      ret {| retryMessage :=
               "Sorry about that! Could you try taking another photo of your driver's license?"
                 +:+ nl +:+ nl
                 +:+ "Make sure it's clear and well-lit so we can help you faster. Thanks! üôåüèº";
             successMessage :=
               "Thank you for providing your information." +:+ nl +:+ nl
                 +:+ "Our standard insurance rate is $100 USD per policy. Would you like to proceed?" |}
  | Some confirming_price =>
      ret {| retryMessage :=
               "We apologize, but $100 is the only available price for this insurance."
                 +:+ nl +:+ nl
                 +:+ "Please respond with 'yes' to continue or 'no' if you don't want to proceed.";
             successMessage := "Great! We'll send you your insurance shortly." |}
  | _ => throw
  end.

Definition getAIConfirmation (userMessage : string) (chat_id : Z)
  : M AIConfirmationResult :=
  try_catch
    (do agentResponse <-
        promptAgent chat_id userMessage (Some AI_CONFIRMATION_INSTRUCTION);
     if endsWith agentResponse "[CONFIRMED]"
     then ret (AISuccess DecYes (trim (replace "[CONFIRMED]" "" agentResponse)))
     else if endsWith agentResponse "[REJECTED]"
     then ret (AISuccess DecNo (trim (replace "[REJECTED]" "" agentResponse)))
     else ret (AIFailure messageNeedsAnswer (Some agentResponse)))
    (emit (ConsoleError "AI confirmation failed, falling back to manual parsing") >>
     ret (AIFailure agentUnavailable None)).

(** [if (config.onAccept) await config.onAccept(..) else userState.nextStep()] *)
Definition acceptPath (config : ConfirmationStepConfig) (chat_id : Z) : M unit :=
  match onAccept config with
  | Some callback => callback chat_id
  | None => updateSession chat_id Session.nextStep
  end.

(** [if (config.onReject) config.onReject(..) else userState.prevStep()] *)
Definition rejectPath (config : ConfirmationStepConfig) (chat_id : Z) : M unit :=
  match onReject config with
  | Some callback => callback chat_id
  | None => updateSession chat_id Session.prevStep
  end.

Definition manualReprompt : string :=
  "Please reply " +:+ dq +:+ "yes" +:+ dq +:+ " to confirm or "
    +:+ dq +:+ "no" +:+ dq +:+ " to retry.".

Definition manualFallbackLine : string := "Using manual confirmation fallback".

Definition handleConfirmation
    (chat_id : Z) (contentType : TelegramMessageContent)
    (message : TelegramMessage) (config : ConfirmationStepConfig) : M unit :=
  let userMessage := text_of message in
  do result <- getAIConfirmation userMessage chat_id;
  match result with
  | AISuccess decision reply =>
      sendMessage chat_id reply >>
      updateSession chat_id
        (Session.addToConversationHistory reply RoleAssistant) >>
      match decision with
      | DecYes => acceptPath config chat_id
      | DecNo => rejectPath config chat_id
      end
  | AIFailure messageNeedsAnswer reply =>
      sendMessage chat_id (default "" reply) >>
      updateSession chat_id
        (Session.addToConversationHistory (default "" reply) RoleAssistant)
  | AIFailure agentUnavailable _ =>
      emit (ConsoleLog manualFallbackLine) >>
      match guessDecision userMessage with
      | unparseable => sendMessage chat_id manualReprompt
      | yes =>
          do s <- readSession chat_id;
          do messages <- getMessagesForStep (Session.step s);
          sendMessage chat_id (successMessage messages) >>
          updateSession chat_id
            (Session.addToConversationHistory (successMessage messages)
               RoleAssistant) >>
          acceptPath config chat_id
      | no =>
          do s <- readSession chat_id;
          do messages <- getMessagesForStep (Session.step s);
          sendMessage chat_id (retryMessage messages) >>
          updateSession chat_id
            (Session.addToConversationHistory (retryMessage messages)
               RoleAssistant) >>
          rejectPath config chat_id
      end
  end.

(** *** handlers/step_configs.ts *)

Record StepConfig := {
  handler : Handler;
  expectsContent : list TelegramMessageContent;
  expectedAction : string
}.

Definition welcomeMessage : string :=
  "*Hey there!* 👋" +:+ nl +:+ nl
    +:+ "Let's get your *insurance policy* set up quickly." +:+ nl +:+ nl
    +:+ "First send me a clear photo of your passport and I'll take care of the rest!"
    +:+ nl +:+ nl +:+ "*Supported formats:*" +:+ nl
    +:+ "📄 PDF" +:+ nl +:+ "📷 JPG, PNG, HEIC, TIFF, WebP".

Definition awaiting_passport_config : DocumentStepConfig :=
  {| documentType := passport |}.
Definition awaiting_driversId_config : DocumentStepConfig :=
  {| documentType := drivers_license |}.

Definition confirming_passport_config : ConfirmationStepConfig :=
  {| onAccept := None;
     onReject := Some (fun chat_id =>
       updateSession chat_id (Session.setDocumentData passport Null) >>
       updateSession chat_id Session.prevStep) |}.

Definition confirming_driversId_config : ConfirmationStepConfig :=
  {| onAccept := None;
     onReject := Some (fun chat_id =>
       updateSession chat_id (Session.setDocumentData drivers_license Null) >>
       updateSession chat_id Session.prevStep) |}.

Definition confirming_price_config : ConfirmationStepConfig :=
  {| onAccept := Some (fun chat_id =>
       updateSession chat_id Session.nextStep >>
       sendPolicy chat_id);
     onReject := Some (fun _ => ret tt) (* User must agree to proceed *) |}.

Definition stepConfigs (st : StepName) : StepConfig :=
  match st with
  | start =>
      {| handler := fun chat_id _ _ =>
           sendMessage chat_id welcomeMessage >>
           updateSession chat_id Session.nextStep;
         expectsContent := [CCommand];
         expectedAction := "use a /start command first" |}
  | awaiting_passport =>
      {| handler := fun chat_id contentType message =>
           processDocument chat_id contentType message awaiting_passport_config;
         expectsContent := [CDocument; CPhoto];
         expectedAction := "send your passport photo" |}
  | confirming_passport =>
      {| handler := fun chat_id contentType message =>
           handleConfirmation chat_id contentType message
             confirming_passport_config;
         expectsContent := [CText];
         expectedAction := "confirm your passport data" |}
  | awaiting_driversId =>
      {| handler := fun chat_id contentType message =>
           processDocument chat_id contentType message awaiting_driversId_config;
         expectsContent := [CDocument; CPhoto];
         expectedAction := "send your driver's license photo" |}
  | confirming_driversId =>
      {| handler := fun chat_id contentType message =>
           handleConfirmation chat_id contentType message
             confirming_driversId_config;
         expectsContent := [CText];
         expectedAction := "confirm your driver's license data" |}
  | confirming_price =>
      {| handler := fun chat_id contentType message =>
           handleConfirmation chat_id contentType message
             confirming_price_config;
         expectsContent := [CText];
         expectedAction := "confirm or reject our offer" |}
  | sending_policy =>
      {| handler := fun chat_id _ _ => sendPolicy chat_id;
         expectsContent := [CText];
         expectedAction := "" |}
  | completed =>
      {| handler := fun chat_id _ _ =>
           sendMessage chat_id "Thanks for using our service!";
         expectsContent := [CText; CCommand];
         expectedAction := "enjoy your newly issued policy" |}
  end.

(** *** routes/webhook.ts *)

Definition getContentType (message : TelegramMessage) : TelegramMessageContent :=
  if bool_decide (is_Some (photo message)) then CPhoto
  else if bool_decide (is_Some (document message)) then CDocument
  else if match entities message with
          | Some (ty :: _) => String.eqb ty "bot_command"
          | _ => false
          end then CCommand
  else if match text message with
          | Some t => truthy t
          | None => false
          end then CText
  else CUnsupported.

Definition fallbackMessage (cfg : StepConfig) : string :=
  "Sorry, I can't process that." +:+ nl +:+ nl
    +:+ "Please, " +:+ expectedAction cfg.

Definition retryPrompt (cfg : StepConfig) : string :=
  "Please, send: " +:+ join " or " (map content_string (expectsContent cfg)).

Definition UNEXPECTED_INSTRUCTION : string :=
  "User sent unexpected message. Try to figure out user intent and help them.".

(** The body of the outer [try] block of the route handler. *)
Definition routeMessage (message : TelegramMessage) : M unit :=
  let chat_id := from_id message in
  let contentType := getContentType message in
  sessionStorage_get chat_id >>
  do userState <- readSession chat_id;
  emit (ConsoleLogData (_driversIdData userState)) >>
  emit (ConsoleLog "pp") >>
  emit (ConsoleLogData (_passportData userState)) >>
  match Session.step userState with
  | None => throw                     (* a property of [stepConfigs[undefined]] *)
  | Some st =>
      let stepConfig := stepConfigs st in
      if bool_decide (contentType = CUnsupported)
      then sendMessage chat_id (fallbackMessage stepConfig)
      else
        let isManualInput :=
          Session.manualInputPending userState
            && bool_decide (contentType = CText) in
        let isExpectedContent :=
          bool_decide (contentType ∈ expectsContent stepConfig)
            || isManualInput in
        if isExpectedContent
        then try_catch
               (handler stepConfig chat_id contentType message)
               (logError >> sendMessage chat_id (retryPrompt stepConfig))
        else if bool_decide (contentType = CText)
                || bool_decide (contentType = CCommand)
        then
          updateSession chat_id
            (Session.addToConversationHistory (text_of message) RoleUser) >>
          try_catch
            (do agentResponse <-
                promptAgent chat_id (text_of message)
                  (Some UNEXPECTED_INSTRUCTION);
             sendMessage chat_id agentResponse >>
             updateSession chat_id
               (Session.addToConversationHistory agentResponse RoleAssistant))
            (logError >> sendMessage chat_id (fallbackMessage stepConfig))
        else
          (* unexpected photo or document *)
          sendMessage chat_id (fallbackMessage stepConfig)
  end.

(** The route handler: whatever escapes is logged and dropped. *)
Definition handleWebhook (message : TelegramMessage) : M unit :=
  try_catch (routeMessage message) logError.

End Handlers.

(** Handling a sequence of updates, each under the behaviour the
    collaborators show while it is handled. *)
Fixpoint handleAll (updates : list (Collab * TelegramMessage)) (w : World) : World :=
  match updates with
  | [] => w
  | (env, message) :: rest => handleAll rest (snd (handleWebhook env message w))
  end.

Definition emptyWorld : World := {| sessions := ∅; events := [] |}.


(* ================================================================== *)
(** ** Notions used in the statements *)
(* ================================================================== *)

Definition add_event (e : Event) (w : World) : World :=
  {| sessions := sessions w; events := events w ++ [e] |}.

Definition upd (chat_id : Z) (f : UserSession -> UserSession) (w : World) : World :=
  {| sessions := alter f chat_id (sessions w); events := events w |}.

(** The run that [promptAgent] starts for a session in state [s]. *)
Definition agentCall
    (env : Collab) (chat_id : Z) (userMessage : string)
    (instruction : option string) (s : UserSession) : RunOutcome :=
  agent_run env
    (_conversation s ++ [user (contextualMessage chat_id userMessage s instruction)]).

(** What [promptAgent] makes of a run: the reply and the new history, or
    [None] when the call raises (the run rejected, or its final output is
    missing or empty). *)
Definition agentReply (out : RunOutcome) : option (string * list AgentInputItem) :=
  match final out with
  | Some r =>
      match finalOutput r with
      | Some o => if truthy o then Some (o, history r) else None
      | None => None
      end
  | None => None
  end.

(** The world once the tools of a run have executed. *)
Definition after_tools (env : Collab) (tcs : list ToolCall) (w : World) : World :=
  snd (execute_tools env tcs w).

(** The chat transport delivers whatever it is given. *)
Definition transport_up (env : Collab) : Prop :=
  forall chat_id message, tg_sendMessage env chat_id message = true.

(** The messages that reached a user, in order. *)
Definition delivered_to (chat_id : Z) (evs : list Event) : list string :=
  omap (fun e => match e with
                 | SendMessage c m true =>
                     if decide (c = chat_id) then Some m else None
                 | _ => None
                 end) evs.

(** The document a step waits for, or asks to confirm. *)
Definition awaited_document (st : StepName) : option DocumentType :=
  match st with
  | awaiting_passport => Some passport
  | awaiting_driversId => Some drivers_license
  | _ => None
  end.

Definition confirmed_document (st : StepName) : option DocumentType :=
  match st with
  | confirming_passport => Some passport
  | confirming_driversId => Some drivers_license
  | _ => None
  end.

(** The configuration [stepConfigs] hands to [handleConfirmation]. *)
Definition confirmation_config (env : Collab) (st : StepName)
  : option (ConfirmationStepConfig) :=
  match st with
  | confirming_passport => Some (confirming_passport_config)
  | confirming_driversId => Some (confirming_driversId_config)
  | confirming_price => Some (confirming_price_config env)
  | _ => None
  end.

(** What a run may change in a session: the tools write extracted
    records into the document fields and touch nothing else. *)
Definition session_frame (s s' : UserSession) : Prop :=
  _stepIndex s' = _stepIndex s
  /\ _conversation s' = _conversation s
  /\ awaitingManualInput s' = awaitingManualInput s
  /\ forall ty, Session.documentData ty s' = Session.documentData ty s
                \/ exists fields, Session.documentData ty s' = Structured fields.

Definition tools_frame (w w' : World) : Prop :=
  events w' = events w
  /\ forall k,
       (forall s, sessions w !! k = Some s ->
                  exists s', sessions w' !! k = Some s' /\ session_frame s s')
       /\ (sessions w !! k = None ->
           sessions w' !! k = None
           \/ exists s', sessions w' !! k = Some s' /\ session_frame Session.new s').

(** Every stored session is one the class can hold. *)
Definition sessions_ok (w : World) : Prop :=
  map_Forall (fun _ s => Session.reachable s) (sessions w).

(** A computation keeps the stored sessions within what the class can hold. *)
Definition preserves {A} (m : M A) : Prop :=
  forall w, sessions_ok w -> sessions_ok (snd (m w)).

(** *** Stubs and messages for the scenarios *)

Definition stub
    (delivers : bool) (run : RunOutcome) (extract : option Fields) : Collab :=
  {| tg_sendMessage := fun _ _ => delivers;
     tg_sendDocument := fun _ _ _ => delivers;
     tg_getFile := fun file_id => Some ("https://files/" +:+ file_id);
     mindee_extractData := fun _ _ => extract;
     agent_run := fun _ => run;
     policy_pdf := fun _ => Some "%PDF" |}.

Definition agent_down : RunOutcome := {| tool_calls := []; final := None |}.

Definition agent_says (reply : string) : RunOutcome :=
  {| tool_calls := [];
     final := Some {| finalOutput := Some reply; history := [assistant reply] |} |}.

Definition startCommand (chat_id : Z) : TelegramMessage :=
  {| from_id := chat_id; text := Some "/start"; entities := Some ["bot_command"];
     document := None; photo := None |}.

Definition photoMessage (chat_id : Z) : TelegramMessage :=
  {| from_id := chat_id; text := None; entities := None; document := None;
     photo := Some [ {| ph_file_id := "small"; ph_file_size := 1000 |};
                     {| ph_file_id := "large"; ph_file_size := 90000 |} ] |}.

Definition textMessage (chat_id : Z) (txt : string) : TelegramMessage :=
  {| from_id := chat_id; text := Some txt; entities := None;
     document := None; photo := None |}.

Definition samplePassport : Fields :=
  [ ("Name", "Ada"); ("Surname", "Lovelace"); ("Passport Number", "X123") ].

(** The URL [getFileUrl] resolves for a message, if it does. *)
Definition fileUrlOf
    (env : Collab) (message : TelegramMessage) (fileType : TelegramMessageContent)
  : option string :=
  match fst (getFileUrl env message fileType emptyWorld) with
  | Ret (UrlSuccess url) => Some url
  | _ => None
  end.

(** [contentType === "document" ? "document" : "photo"] *)
Definition fileTypeOf (contentType : TelegramMessageContent) : TelegramMessageContent :=
  if decide (contentType = CDocument) then CDocument else CPhoto.

(** The three debugging lines the route handler prints first. *)
Definition console_logged (s : UserSession) (w : World) : World :=
  add_event (ConsoleLogData (_passportData s))
    (add_event (ConsoleLog "pp")
       (add_event (ConsoleLogData (_driversIdData s)) w)).

(** The world once [promptAgent] has run the agent and its tools. *)
Definition agent_world
    (env : Collab) (chat_id : Z) (userMessage : string)
    (instruction : option string) (w : World) : World :=
  after_tools env
    (tool_calls (agentCall env chat_id userMessage instruction
                   (session_of chat_id w)))
    (add_event (RunAgent chat_id userMessage) w).

(** The result of [sendMessage] on a world. *)
Definition sent (env : Collab) (chat_id : Z) (message : string) (w : World) : World :=
  add_event (SendMessage chat_id message (tg_sendMessage env chat_id message)) w.

(** The [catch] blocks of [processDocument]. *)
Definition caught_agent (chat_id : Z) (w : World) : World :=
  add_event LogError
    (add_event (ConsoleError (agentFailedLine (session_of chat_id w))) w).

Definition caught_mindee (chat_id : Z) (w : World) : World :=
  add_event LogError
    (add_event (ConsoleError (mindeeFailedLine (session_of chat_id w))) w).

(** The pipeline past the shortcut and the file lookup. *)
Definition tiers (env : Collab) (chat_id : Z) (config : DocumentStepConfig)
    (url : string) (w : World) : Res unit * World :=
  let w0 := sent env chat_id processingMessage w in
  if tg_sendMessage env chat_id processingMessage
  then match tier1_agent env chat_id config url w0 with
       | (Ret true, w1) => (Ret tt, w1)
       | (Ret false, w1) =>
           match tier2_mindee env chat_id config url w1 with
           | (Ret true, w2) => (Ret tt, w2)
           | (Ret false, w2) => tier3_manual env chat_id config w2
           | (Throw, w2) => (Throw, w2)
           end
       | (Throw, w1) => (Throw, w1)
       end
  else (Throw, w0).


(** The position of a step in [STEPS]. *)
Definition step_index (st : StepName) : nat :=
  match st with
  | start => 0
  | awaiting_passport => 1
  | confirming_passport => 2
  | awaiting_driversId => 3
  | confirming_driversId => 4
  | confirming_price => 5
  | sending_policy => 6
  | completed => 7
  end.

(** *** Which tiers an invocation ran *)

(** The events a handling added to the world. *)
Definition new_events (w w' : World) : list Event :=
  drop (length (events w)) (events w').

(** Tier 2 ran: [extractData] was called directly by the pipeline. *)
Definition tier2_ran (evs : list Event) : bool :=
  existsb (fun e => match e with ExtractData _ _ => true | _ => false end) evs.

(** Tier 3 ran: the pipeline left the [catch] block of the direct
    extraction for the manual prompt. *)
Definition tier3_ran (evs : list Event) : bool :=
  existsb (fun e => match e with
                    | ConsoleError line =>
                        String.prefix "Mindee fallback also failed" line
                    | _ => false
                    end) evs.

(** What tier 1 sends to the user for a reply of the agent. *)
Definition relayed (reply : string) : string :=
  if endsWith reply "[FAILED]" then trim (replace "[FAILED]" "" reply) else reply.

(** Tier 1 raised: the agent call raised, or the relay of its reply did. *)
Definition tier1_raised
    (env : Collab) (chat_id : Z) (ty : DocumentType) (url : string)
    (s : UserSession) : Prop :=
  match agentReply (agentCall env chat_id (agentPrompt ty url)
                      (Some FAILED_INSTRUCTION) s) with
  | None => True
  | Some (reply, _) => tg_sendMessage env chat_id (relayed reply) = false
  end.

(** Tier 2 raised: the extraction raised, or the sending of its summary. *)
Definition tier2_raised
    (env : Collab) (chat_id : Z) (ty : DocumentType) (url : string) : Prop :=
  match mindee_extractData env url ty with
  | None => True
  | Some data => tg_sendMessage env chat_id (createDocumentSummary data ty) = false
  end.

(** An agent that answers, and a transport that loses exactly that answer. *)
Definition relay_lost : Collab :=
  {| tg_sendMessage := fun _ m => negb (String.eqb m "Passport received.");
     tg_sendDocument := fun _ _ _ => true;
     tg_getFile := fun file_id => Some ("https://files/" +:+ file_id);
     mindee_extractData := fun _ _ => Some samplePassport;
     agent_run := fun _ => agent_says "Passport received.";
     policy_pdf := fun _ => Some "%PDF" |}.

(** User 7 has sent [/start] and is asked for the passport. *)
Definition world_awaiting_passport : World :=
  handleAll [ (stub true agent_down None, startCommand 7) ] emptyWorld.

(** *** The confirmation resolver *)

Definition AI_FAILED_LINE : string :=
  "AI confirmation failed, falling back to manual parsing".

(** The templated messages of a step, when it has them. *)
Definition messagesFor (st : option StepName) : option StepMessages :=
  match fst (getMessagesForStep st emptyWorld) with
  | Ret messages => Some messages
  | Throw => None
  end.

(** A decision is acted upon: the message goes out, is appended to the
    transcript, and the accept or the reject path runs. *)
Definition resolve_decision
    (env : Collab) (config : ConfirmationStepConfig) (chat_id : Z)
    (decision : Decision) (message : string) (w : World) : Res unit * World :=
  if tg_sendMessage env chat_id message
  then match decision with
       | DecYes => acceptPath config chat_id
       | DecNo => rejectPath config chat_id
       end (upd chat_id (Session.addToConversationHistory message RoleAssistant)
              (sent env chat_id message w))
  else (Throw, sent env chat_id message w).

(** The world in which the manual tier starts. *)
Definition manual_world (env : Collab) (chat_id : Z) (txt : string) (w : World)
  : World :=
  add_event (ConsoleLog manualFallbackLine)
    (add_event (ConsoleError AI_FAILED_LINE)
       (agent_world env chat_id txt (Some AI_CONFIRMATION_INSTRUCTION) w)).

(** The manual tier ran. *)
Definition manual_tier_ran (evs : list Event) : bool :=
  bool_decide (ConsoleLog manualFallbackLine ∈ evs).

(** The [catch] block of [sendPolicy]. *)
Definition policy_failed (env : Collab) (chat_id : Z) (w : World)
  : Res unit * World :=
  (if tg_sendMessage env chat_id policy_errorMessage then Ret tt else Throw,
   sent env chat_id policy_errorMessage (add_event LogError w)).

(** User 7 has sent [/start] and a passport photo; the agent was down and
    the direct extraction stored the record. *)
Definition world_confirming_passport : World :=
  handleAll [ (stub true agent_down (Some samplePassport), photoMessage 7) ]
    world_awaiting_passport.

(** A reply that quotes the marker before appending it. *)
Definition quoting_reply : string :=
  "You typed [CONFIRMED], noted. [CONFIRMED]".

(** *** Relating the sessions before and after a computation *)

(** How one entry of the session map may change: a stored session stays
    stored, related by [R]; a session that appears was created by
    [sessionStorage.get] and then changed as [R] allows. *)
Definition entry_related
    (R : UserSession -> UserSession -> Prop) (o o' : option UserSession) : Prop :=
  match o, o' with
  | Some s, Some s' => R s s'
  | Some _, None => False
  | None, Some s' => R Session.new s'
  | None, None => True
  end.

(** [R k] relates, for every user [k], the session before and after. *)
Definition relates_at (R : Z -> UserSession -> UserSession -> Prop)
    {A} (m : M A) : Prop :=
  forall w k, entry_related (R k) (sessions w !! k) (sessions (snd (m w)) !! k).

Definition relates (R : UserSession -> UserSession -> Prop) {A} (m : M A) : Prop :=
  relates_at (fun _ => R) m.

(** A document field is kept, or overwritten by an extracted record. *)
Definition doc_kept (d d' : DocData) : Prop :=
  d' = d \/ exists fields, d' = Structured fields.

(** The step does not move; the flag stays; the documents are kept. *)
Definition same_step (s s' : UserSession) : Prop :=
  _stepIndex s' = _stepIndex s
  /\ awaitingManualInput s' = awaitingManualInput s
  /\ forall ty, doc_kept (Session.documentData ty s) (Session.documentData ty s').

(** The step does not move backwards. *)
Definition not_backwards (s s' : UserSession) : Prop :=
  (_stepIndex s <= _stepIndex s')%nat.

(** The decision the resolver reaches for a text, by the agent's marker
    or, when the agent call raises, by the manual matching. *)
Definition decision_of
    (env : Collab) (chat_id : Z) (txt : string) (s : UserSession)
  : option Decision :=
  match agentReply (agentCall env chat_id txt
                      (Some AI_CONFIRMATION_INSTRUCTION) s) with
  | Some (reply, _) =>
      if endsWith reply "[CONFIRMED]" then Some DecYes
      else if endsWith reply "[REJECTED]" then Some DecNo
      else None
  | None =>
      match guessDecision txt with
      | yes => Some DecYes
      | no => Some DecNo
      | unparseable => None
      end
  end.

(** User 7 has confirmed both documents and is asked to accept the price. *)
Definition world_confirming_price : World :=
  handleAll
    [ (stub true agent_down None, textMessage 7 "yes");
      (stub true agent_down (Some samplePassport), photoMessage 7);
      (stub true agent_down None, textMessage 7 "yes") ]
    world_confirming_passport.

(** One document field is kept. *)
Definition keeps_document (ty : DocumentType) (s s' : UserSession) : Prop :=
  doc_kept (Session.documentData ty s) (Session.documentData ty s').

(** [reject; resubmit; confirm] in the degraded mode, from
    [world_confirming_passport]. *)
Definition round_trip_updates : list (Collab * TelegramMessage) :=
  [ (stub true agent_down None, textMessage 7 "no");
    (stub true agent_down (Some samplePassport), photoMessage 7);
    (stub true agent_down None, textMessage 7 "yes") ].

(** *** The documents at the confirmation steps *)

(** At a document-confirmation step the document it confirms is there. *)
Definition document_present (s : UserSession) : Prop :=
  forall st ty,
    Session.step s = Some st ->
    confirmed_document st = Some ty ->
    present (Session.documentData ty s) = true.

Definition documents_present (w : World) : Prop :=
  forall k s, sessions w !! k = Some s -> document_present s.

(** The agent keeps its side of the pipeline for a user: whenever it
    answers a document submission of that user without raising and
    without the failure marker, its run has invoked the extraction tool
    of that document for that user, and the extraction succeeded. *)
Definition agent_stores (env : Collab) (chat_id : Z) : Prop :=
  forall ty url s reply h,
    let out := agentCall env chat_id (agentPrompt ty url)
                 (Some FAILED_INSTRUCTION) s in
    agentReply out = Some (reply, h) ->
    endsWith reply "[FAILED]" = false ->
    exists tc,
      tc ∈ tool_calls out
      /\ tc_chat_id tc = chat_id
      /\ tc_tool tc = ty
      /\ is_Some (mindee_extractData env (tc_url tc) ty).

(** An agent that answers without ever invoking a tool. *)
Definition chatty_agent : Collab :=
  stub true (agent_says "Thank you, I have your passport.") None.

(** Others' sessions are touched by the tools only. *)
Definition others_same_step (chat_id k : Z) (s s' : UserSession) : Prop :=
  k = chat_id \/ same_step s s'.

(** An agent that runs both extraction tools for user 7 on every turn. *)
Definition diligent_agent : Collab :=
  {| tg_sendMessage := fun _ _ => true;
     tg_sendDocument := fun _ _ _ => true;
     tg_getFile := fun file_id => Some ("https://files/" +:+ file_id);
     mindee_extractData := fun _ _ => Some samplePassport;
     agent_run := fun _ =>
       {| tool_calls :=
            [ {| tc_tool := passport; tc_url := "https://files/large";
                 tc_chat_id := 7 |};
              {| tc_tool := drivers_license; tc_url := "https://files/large";
                 tc_chat_id := 7 |} ];
          final := Some {| finalOutput := Some "I have read your document.";
                           history := [assistant "I have read your document."] |} |};
     policy_pdf := fun _ => Some "%PDF" |}.

(** The session map with a fresh session stored for a user. *)
Definition created (chat_id : Z) (w : World) : World :=
  {| sessions := <[chat_id := Session.new]> (sessions w); events := events w |}.

(* ================================================================== *)
(** ** Notions for the properties of the handlers *)
(* ================================================================== *)

(** Whether [sendPolicy] gets the policy document through for a session:
    the PDF is rendered and the transport takes it. *)
Definition policy_delivered (env : Collab) (chat_id : Z) (s : UserSession) : bool :=
  match policy_pdf env s with
  | Some pdfBuffer => tg_sendDocument env chat_id pdfBuffer policy_successMessage
  | None => false
  end.

(** The record of a policy document that reached a user. *)
Definition policy_event (chat_id : Z) : Event :=
  SendDocument chat_id policy_successMessage true.

(** A computation only adds to the record of events. *)
Definition appends {A} (m : M A) : Prop :=
  forall w, exists l, events (snd (m w)) = events w ++ l.

(** The lowest index a session can come back to from index [i]: a
    rejection leads from a document confirmation to the awaiting step
    before it, and nothing leads further back. *)
Definition floor_index (i : nat) : nat :=
  match i with
  | 0 => 0
  | 1 | 2 => 1
  | 3 | 4 => 3
  | _ => i
  end%nat.

(** A whole conversation of user 7 in the degraded mode: the agent is
    down throughout, the direct extraction reads both documents. *)
Definition full_conversation : list (Collab * TelegramMessage) :=
  [ (stub true agent_down None, startCommand 7);
    (stub true agent_down (Some samplePassport), photoMessage 7);
    (stub true agent_down None, textMessage 7 "yes");
    (stub true agent_down (Some samplePassport), photoMessage 7);
    (stub true agent_down None, textMessage 7 "yes");
    (stub true agent_down None, textMessage 7 "yes") ].

(** Collaborators of which only the PDF renderer fails. *)
Definition no_renderer : Collab :=
  {| tg_sendMessage := fun _ _ => true;
     tg_sendDocument := fun _ _ _ => true;
     tg_getFile := fun file_id => Some ("https://files/" +:+ file_id);
     mindee_extractData := fun _ _ => None;
     agent_run := fun _ => agent_down;
     policy_pdf := fun _ => None |}.

(** User 7 has accepted the price while the renderer was failing. *)
Definition world_sending_policy : World :=
  handleAll [ (no_renderer, textMessage 7 "yes") ] world_confirming_price.

(** GATE 2 of the route handler: the content is what the step expects,
    or it is the text of a pending manual input. *)
Definition isExpectedContent
    (env : Collab) (st : StepName) (message : TelegramMessage) (s : UserSession)
  : bool :=
  bool_decide (getContentType message ∈ expectsContent (stepConfigs env st))
  || Session.manualInputPending s
       && bool_decide (getContentType message = CText).

(** The refusal [getFileUrl] answers with for a message, if it refuses. *)
Definition fileRefusal
    (env : Collab) (message : TelegramMessage) (fileType : TelegramMessageContent)
  : option string :=
  match fst (getFileUrl env message fileType emptyWorld) with
  | Ret (UrlFailure errorMessage) => Some errorMessage
  | _ => None
  end.

(** The agent was run. *)
Definition agent_ran (evs : list Event) : bool :=
  existsb (fun e => match e with RunAgent _ _ => true | _ => false end) evs.

(** A photo message whose list of sizes is empty. *)
Definition emptyPhotoMessage (chat_id : Z) : TelegramMessage :=
  {| from_id := chat_id; text := None; entities := None; document := None;
     photo := Some [] |}.

(** The document the step of a session waits for, if it waits for one. *)
Definition awaited_by (s : UserSession) : option DocumentType :=
  match Session.step s with
  | Some st => awaited_document st
  | None => None
  end.

(** The flag is as it was. *)
Definition flag_kept (s s' : UserSession) : Prop :=
  awaitingManualInput s' = awaitingManualInput s.

(** A raised flag stays raised. *)
Definition flag_sticky (s s' : UserSession) : Prop :=
  awaitingManualInput s = Some true -> awaitingManualInput s' = Some true.

(** User 7 has sent a passport photo while the agent and the extraction
    were both down, and is asked to type the data. *)
Definition world_manual_pending : World :=
  handleAll [ (stub true agent_down None, photoMessage 7) ]
    world_awaiting_passport.

(** Others' sessions are touched by the tools only: the session of a
    user other than the sender changes within [session_frame]. *)
Definition others_frame (chat_id k : Z) (s s' : UserSession) : Prop :=
  k = chat_id \/ session_frame s s'.

(** Every tool call of every run of the agent is addressed to the user
    on whose behalf the agent runs. *)
Definition tools_addressed (env : Collab) (chat_id : Z) : Prop :=
  forall items tc, tc ∈ tool_calls (agent_run env items) -> tc_chat_id tc = chat_id.

(** A computation leaves the entry of user [k] in the session map as it
    is. *)
Definition untouched (k : Z) {A} (m : M A) : Prop :=
  forall w, sessions (snd (m w)) !! k = sessions w !! k.

(** No opening bracket occurs in a text. *)
Fixpoint bracket_free (s : string) : bool :=
  match s with
  | EmptyString => true
  | String c s' => negb (Ascii.eqb c "["%char) && bracket_free s'
  end.

(** Both AI services are out of reach: every run of the agent rejects
    at once, and every extraction raises. *)
Definition services_down (env : Collab) : Prop :=
  (forall items, agent_run env items = agent_down)
  /\ (forall url ty, mindee_extractData env url ty = None).

(** The policy can be rendered and delivered. *)
Definition policy_up (env : Collab) : Prop :=
  forall chat_id s, policy_delivered env chat_id s = true.

(** The messages of a conversation in which the user types both
    documents and answers the three confirmations. *)
Definition typed_conversation
    (env : Collab) (chat_id : Z) (t1 y1 t2 y2 y3 : string)
  : list (Collab * TelegramMessage) :=
  [ (env, startCommand chat_id);
    (env, photoMessage chat_id);
    (env, textMessage chat_id t1);
    (env, textMessage chat_id y1);
    (env, photoMessage chat_id);
    (env, textMessage chat_id t2);
    (env, textMessage chat_id y2);
    (env, textMessage chat_id y3) ].

(** An agent that, whoever it runs for, has the passport of user 8 read. *)
Definition misaddressing_agent : Collab :=
  {| tg_sendMessage := fun _ _ => true;
     tg_sendDocument := fun _ _ _ => true;
     tg_getFile := fun file_id => Some ("https://files/" +:+ file_id);
     mindee_extractData := fun _ _ => Some samplePassport;
     agent_run := fun _ =>
       {| tool_calls :=
            [ {| tc_tool := passport; tc_url := "https://files/large";
                 tc_chat_id := 8 |} ];
          final := Some {| finalOutput := Some "Done.";
                           history := [assistant "Done."] |} |};
     policy_pdf := fun _ => Some "%PDF" |}.

(** [message.entities[0]?.type === "bot_command"] *)
Definition leading_command (message : TelegramMessage) : bool :=
  match entities message with
  | Some (ty :: _) => String.eqb ty "bot_command"
  | _ => false
  end.

(** A text of white space only: [trimStart] leaves nothing of it. *)
Definition blank (s : string) : bool := String.eqb (trimStart s) "".

(** The code units a white-space character can start with. *)
Definition ws_lead (a : ascii) : bool :=
  let n := nat_of_ascii a in
  (space1 a || (n =? 194) || (n =? 225) || (n =? 226) || (n =? 227)
   || (n =? 239))%nat.

Definition starts_ws (s : string) : bool :=
  match s with
  | EmptyString => true
  | String a _ => ws_lead a
  end.

(* ================================================================== *)
(** ** services/telegram/api.ts: escaping for MarkdownV2 *)
(* ================================================================== *)

Definition backslash : ascii := ascii_of_nat 92.

(** The character class of the pattern of [escapeForMarkdownV2]:
    underscore, brackets, parentheses, tilde, greater-than, hash, plus,
    equals, bar, braces, dot, exclamation mark, backslash and hyphen. *)
Definition markdown_reserved : list ascii :=
  list_ascii_of_string "_[]()~>#+=|{}.!\-".

Definition is_reserved (c : ascii) : bool :=
  existsb (Ascii.eqb c) markdown_reserved.

(** [text.replace(/([...])/g, "\\$1")]: every reserved character gets a
    backslash in front. *)
Fixpoint escapeForMarkdownV2 (text : string) : string :=
  match text with
  | EmptyString => EmptyString
  | String c rest =>
      if is_reserved c
      then String backslash (String c (escapeForMarkdownV2 rest))
      else String c (escapeForMarkdownV2 rest)
  end.

(** Reading escaped text: a backslash stands for the character after it. *)
Fixpoint unescape (s : string) : string :=
  match s with
  | EmptyString => EmptyString
  | String c rest =>
      if Ascii.eqb c backslash
      then match rest with
           | String d rest' => String d (unescape rest')
           | EmptyString => EmptyString
           end
      else String c (unescape rest)
  end.

(** Escaped text is well formed: a reserved character occurs only right
    after a backslash that escapes it, and no backslash is left dangling. *)
Fixpoint well_escaped (s : string) : bool :=
  match s with
  | EmptyString => true
  | String c rest =>
      if Ascii.eqb c backslash
      then match rest with
           | String d rest' => is_reserved d && well_escaped rest'
           | EmptyString => false
           end
      else negb (is_reserved c) && well_escaped rest
  end.

Fixpoint count_reserved (s : string) : nat :=
  match s with
  | EmptyString => 0
  | String c rest => (if is_reserved c then 1 else 0) + count_reserved rest
  end.

(* ================================================================== *)
(** ** utils.ts *)
(* ================================================================== *)

(** [Object.keys(REQUIRED_ENV)], in the order of the declaration. *)
Definition REQUIRED_ENV : list string :=
  [ "SECRET_TOKEN"; "BOT_TOKEN"; "SERVER_URL"; "PORT"; "MINDEE_API_KEY";
    "MINDEE_DRIVER_LICENCE_MODEL_ID"; "MINDEE_PASSPORT_MODEL_ID" ].

(** [!process.env[key]]: unset, or set to the empty string. *)
Definition env_missing (process_env : gmap string string) (key : string) : bool :=
  match process_env !! key with
  | Some value => negb (truthy value)
  | None => true
  end.

(** [throw_if_missing_env()]: [Some message] is the string it throws,
    [None] a normal return. *)
Definition throw_if_missing_env (process_env : gmap string string)
  : option string :=
  let required := REQUIRED_ENV in
  let missing := List.filter (env_missing process_env) required in
  if (0 <? length missing)%nat
  then Some ("Missing env variables" +:+ nl +:+ join nl missing)
  else None.

Definition SERVER_START_RETRY_DELAY : Z := 1000.

(** What a call of [fn] ends in: it resolves, or rejects with an [Error]
    object (of which the loop reads the [message]) or with another value
    (of which it reads [String(err)]). *)
Inductive Rejection : Type :=
| ErrorObject (message : string)
| OtherValue (rendered : string).

Inductive Attempt : Type :=
| Resolves
| Rejects (err : Rejection).

(** [err instanceof Error ? err.message : String(err)] *)
Definition errorText (err : Rejection) : string :=
  match err with
  | ErrorObject message => message
  | OtherValue rendered => rendered
  end.

(** What the loop does, in order. *)
Inductive RetryEvent : Type :=
| RetryLine (line : string)        (* [console.log] *)
| Sleep (ms : Z)                   (* the awaited [setTimeout] *)
| CallFn                           (* [await fn(...args)] *)
| ErrorLine (err : Rejection).     (* [console.error(err)] *)

Definition retryLine (attempt : nat) : string :=
  "Retrying in " +:+ pretty (SERVER_START_RETRY_DELAY / 1000)%Z
    +:+ "s [Attempt " +:+ pretty attempt +:+ "]".

(** The loop of [retryForever], run against the outcomes of the
    successive calls of [fn].  It returns what it did and whether it has
    returned; when the outcomes are used up before a call resolves, the
    loop is still going. *)
Fixpoint retry_loop (outcomes : list Attempt) (attempt : nat) (lastError : string)
  : list RetryEvent * bool :=
  match outcomes with
  | [] => ([], false)
  | outcome :: rest =>
      let before :=
        [RetryLine (retryLine attempt); Sleep SERVER_START_RETRY_DELAY; CallFn] in
      match outcome with
      | Resolves => (before, true)
      | Rejects err =>
          let currentError := errorText err in
          let logged :=
            if String.eqb currentError lastError then [] else [ErrorLine err] in
          let (later, returned) := retry_loop rest (S attempt) currentError in
          (before ++ logged ++ later, returned)
      end
  end.

(** [retryForever(fn, initialError)]; the default [initialError] is
    [null], that is [OtherValue "null"]. *)
Definition retryForever (outcomes : list Attempt) (initialError : Rejection)
  : list RetryEvent * bool :=
  retry_loop outcomes 1 (errorText initialError).

(** The error lines a run of failures produces: one for each failure
    whose text differs from that of the failure before it. *)
Fixpoint changes (lastError : string) (errs : list Rejection) : list Rejection :=
  match errs with
  | [] => []
  | err :: rest =>
      (if String.eqb (errorText err) lastError then [] else [err])
        ++ changes (errorText err) rest
  end.

Definition error_lines (evs : list RetryEvent) : list Rejection :=
  omap (fun e => match e with ErrorLine err => Some err | _ => None end) evs.

Definition retry_lines (evs : list RetryEvent) : list string :=
  omap (fun e => match e with RetryLine line => Some line | _ => None end) evs.

Definition calls (evs : list RetryEvent) : nat :=
  length (List.filter (fun e => match e with CallFn => true | _ => false end) evs).
(* ================================================================== *)
(** ** The step state machine *)
(* ================================================================== *)

Lemma STEPS_length : length STEPS = 8%nat.
Proof. reflexivity. Qed.

Lemma STEPS_complete (st : StepName) : st ∈ STEPS.
Proof. destruct st; unfold STEPS; set_solver. Qed.

Lemma STEPS_NoDup : NoDup STEPS.
Proof. apply (bool_decide_unpack _). vm_compute. exact I. Qed.

(** The index of a reachable session stays inside [STEPS]. *)
Lemma reachable_index (s : UserSession) :
  Session.reachable s -> (_stepIndex s < length STEPS)%nat.
Proof.
  induction 1 as [ | s _ IH | s _ IH | s i r _ IH | s h _ IH
                 | s ty d _ IH | s b _ IH ]; simpl in *; try lia.
  - unfold Session.nextStep.
    destruct (_stepIndex s <? length STEPS - 1)%nat eqn:E; simpl in *; [| lia].
    apply Nat.ltb_lt in E. simpl in E. lia.
  - unfold Session.prevStep.
    destruct (0 <? _stepIndex s)%nat; simpl in *; lia.
  - destruct ty; simpl; lia.
Qed.

Lemma index_step (s : UserSession) :
  (_stepIndex s < length STEPS)%nat -> exists st, Session.step s = Some st.
Proof.
  intros H. unfold Session.step.
  destruct (STEPS !! _stepIndex s) eqn:E; [eauto |].
  apply lookup_ge_None in E. lia.
Qed.

Lemma step_completed_index (s : UserSession) :
  Session.step s = Some completed -> _stepIndex s = 7%nat.
Proof.
  unfold Session.step. generalize (_stepIndex s). intros n H.
  do 7 (destruct n as [| n]; [discriminate H |]).
  destruct n; [reflexivity | discriminate H].
Qed.

Lemma step_start_index (s : UserSession) :
  Session.step s = Some start -> _stepIndex s = 0%nat.
Proof.
  unfold Session.step. generalize (_stepIndex s). intros n H.
  destruct n as [| n]; [reflexivity |].
  do 7 (destruct n as [| n]; [discriminate H |]).
  discriminate H.
Qed.

Lemma nextStep_at_completed (s : UserSession) :
  Session.step s = Some completed -> Session.nextStep s = s.
Proof.
  intros H. apply step_completed_index in H.
  unfold Session.nextStep. rewrite H. reflexivity.
Qed.

Lemma prevStep_at_start (s : UserSession) :
  Session.step s = Some start -> Session.prevStep s = s.
Proof.
  intros H. apply step_start_index in H.
  unfold Session.prevStep. rewrite H. reflexivity.
Qed.

(** *** Every stored session is one the class can hold *)

Lemma preserves_ret {A} (a : A) : preserves (ret a).
Proof. intros w H. exact H. Qed.

Lemma preserves_throw {A} : preserves (@throw A).
Proof. intros w H. exact H. Qed.

Lemma preserves_bind {A B} (m : M A) (k : A -> M B) :
  preserves m -> (forall a, preserves (k a)) -> preserves (bind m k).
Proof.
  intros Hm Hk w Hw. unfold bind. specialize (Hm w Hw).
  destruct (m w) as [[a |] w']; simpl in *; [apply Hk |]; assumption.
Qed.

Lemma preserves_try_catch {A} (m h : M A) :
  preserves m -> preserves h -> preserves (try_catch m h).
Proof.
  intros Hm Hh w Hw. unfold try_catch. specialize (Hm w Hw).
  destruct (m w) as [[a |] w']; simpl in *; [| apply Hh]; assumption.
Qed.

Lemma preserves_emit (e : Event) : preserves (emit e).
Proof. intros w H. exact H. Qed.

Lemma preserves_readSession (chat_id : Z) : preserves (readSession chat_id).
Proof. intros w H. exact H. Qed.

Lemma preserves_updateSession (chat_id : Z) (f : UserSession -> UserSession) :
  (forall s, Session.reachable s -> Session.reachable (f s)) ->
  preserves (updateSession chat_id f).
Proof.
  intros Hf w Hw k s Hk. simpl in Hk.
  apply lookup_alter_Some in Hk as [(-> & s0 & E0 & ->) | (Hne & E0)].
  - apply Hf, (Hw _ _ E0).
  - apply (Hw _ _ E0).
Qed.

Lemma preserves_sessionStorage_get (chat_id : Z) :
  preserves (sessionStorage_get chat_id).
Proof.
  intros w Hw. unfold sessionStorage_get.
  destruct (sessions w !! chat_id) eqn:E; simpl; [exact Hw |].
  apply map_Forall_insert_2; [constructor | exact Hw].
Qed.

Create HintDb preserves_db.

#[global] Hint Resolve preserves_ret preserves_throw preserves_emit
  preserves_readSession preserves_sessionStorage_get : preserves_db.
#[global] Hint Constructors Session.reachable : preserves_db.

Ltac preserves_step :=
  match goal with
  | |- preserves (bind _ _) => apply preserves_bind; [| intros ?]
  | |- preserves (try_catch _ _) => apply preserves_try_catch
  | |- preserves (updateSession _ _) =>
      apply preserves_updateSession; intros ? ?; auto with preserves_db
  | |- preserves (if ?b then _ else _) => destruct b
  | |- preserves (match ?x with _ => _ end) => destruct x
  | |- preserves _ => solve [auto with preserves_db]
  end.

Lemma preserves_sendMessage env chat_id message :
  preserves (sendMessage env chat_id message).
Proof. unfold sendMessage. repeat preserves_step. Qed.

Lemma preserves_sendDocument env chat_id buffer caption :
  preserves (sendDocument env chat_id buffer caption).
Proof. unfold sendDocument. repeat preserves_step. Qed.

Lemma preserves_logError : preserves logError.
Proof. apply preserves_emit. Qed.

#[global] Hint Resolve preserves_sendMessage preserves_sendDocument
  preserves_logError : preserves_db.

Lemma preserves_execute_tools env tcs : preserves (execute_tools env tcs).
Proof.
  induction tcs as [| tc rest IH]; simpl; [auto with preserves_db |].
  apply preserves_bind; [| intros _; exact IH].
  unfold execute_tool. repeat preserves_step.
Qed.

#[global] Hint Resolve preserves_execute_tools : preserves_db.

Lemma preserves_promptAgent env chat_id userMessage instruction :
  preserves (promptAgent env chat_id userMessage instruction).
Proof. unfold promptAgent. repeat preserves_step. Qed.

Lemma preserves_sendPolicy env chat_id : preserves (sendPolicy env chat_id).
Proof. unfold sendPolicy. repeat preserves_step. Qed.

Lemma preserves_getFileUrl env message fileType :
  preserves (getFileUrl env message fileType).
Proof. unfold getFileUrl, fetchFileUrl. repeat preserves_step. Qed.

#[global] Hint Resolve preserves_promptAgent preserves_sendPolicy
  preserves_getFileUrl : preserves_db.

Lemma preserves_processDocument env chat_id contentType message config :
  preserves (processDocument env chat_id contentType message config).
Proof.
  unfold processDocument, handleManualInput, tier1_agent, tier2_mindee,
    tier3_manual.
  repeat preserves_step.
Qed.

Lemma preserves_getMessagesForStep st : preserves (getMessagesForStep st).
Proof. unfold getMessagesForStep. repeat preserves_step. Qed.

#[global] Hint Resolve preserves_processDocument preserves_getMessagesForStep
  : preserves_db.

Lemma preserves_handleConfirmation env chat_id contentType message config :
  (forall cb, onAccept config = Some cb -> forall c, preserves (cb c)) ->
  (forall cb, onReject config = Some cb -> forall c, preserves (cb c)) ->
  preserves (handleConfirmation env chat_id contentType message config).
Proof.
  intros Ha Hr.
  assert (preserves (acceptPath config chat_id)) as HA.
  { unfold acceptPath. destruct (onAccept config) eqn:E;
      [eapply Ha; reflexivity | repeat preserves_step]. }
  assert (preserves (rejectPath config chat_id)) as HR.
  { unfold rejectPath. destruct (onReject config) eqn:E;
      [eapply Hr; reflexivity | repeat preserves_step]. }
  unfold handleConfirmation, getAIConfirmation.
  repeat first [ assumption | preserves_step ].
Qed.

Lemma preserves_handler env st chat_id contentType message :
  preserves (handler (stepConfigs env st) chat_id contentType message).
Proof.
  destruct st; simpl; try solve [repeat preserves_step].
  all: apply preserves_handleConfirmation; simpl; intros cb [= <-] c;
    repeat preserves_step.
Qed.

#[global] Hint Resolve preserves_handler : preserves_db.

Lemma preserves_handleWebhook env message : preserves (handleWebhook env message).
Proof. unfold handleWebhook, routeMessage. repeat preserves_step. Qed.

Lemma sessions_ok_handleAll updates w :
  sessions_ok w -> sessions_ok (handleAll updates w).
Proof.
  revert w. induction updates as [| [env message] rest IH]; intros w Hw; simpl.
  - exact Hw.
  - apply IH, preserves_handleWebhook, Hw.
Qed.

Lemma sessions_ok_empty : sessions_ok emptyWorld.
Proof. apply map_Forall_empty. Qed.

(** *** Field by field *)

Lemma nextStep_index s :
  _stepIndex (Session.nextStep s)
  = if (_stepIndex s <? 7)%nat then S (_stepIndex s) else _stepIndex s.
Proof.
  unfold Session.nextStep. change (length STEPS - 1)%nat with 7%nat.
  destruct (_stepIndex s <? 7)%nat; simpl; lia.
Qed.

Lemma prevStep_index s :
  _stepIndex (Session.prevStep s) = Nat.pred (_stepIndex s).
Proof.
  unfold Session.prevStep.
  destruct (0 <? _stepIndex s)%nat eqn:E; simpl.
  - apply Nat.ltb_lt in E. lia.
  - apply Nat.ltb_ge in E. lia.
Qed.

Lemma nextStep_conversation s :
  _conversation (Session.nextStep s) = _conversation s.
Proof. unfold Session.nextStep. destruct (_ <? _)%nat; reflexivity. Qed.

Lemma nextStep_flag s :
  awaitingManualInput (Session.nextStep s) = awaitingManualInput s.
Proof. unfold Session.nextStep. destruct (_ <? _)%nat; reflexivity. Qed.

Lemma nextStep_document ty s :
  Session.documentData ty (Session.nextStep s) = Session.documentData ty s.
Proof. unfold Session.nextStep. destruct (_ <? _)%nat, ty; reflexivity. Qed.

Lemma prevStep_conversation s :
  _conversation (Session.prevStep s) = _conversation s.
Proof. unfold Session.prevStep. destruct (_ <? _)%nat; reflexivity. Qed.

Lemma prevStep_flag s :
  awaitingManualInput (Session.prevStep s) = awaitingManualInput s.
Proof. unfold Session.prevStep. destruct (_ <? _)%nat; reflexivity. Qed.

Lemma prevStep_document ty s :
  Session.documentData ty (Session.prevStep s) = Session.documentData ty s.
Proof. unfold Session.prevStep. destruct (_ <? _)%nat, ty; reflexivity. Qed.

Lemma setDocumentData_index ty d s :
  _stepIndex (Session.setDocumentData ty d s) = _stepIndex s.
Proof. destruct ty; reflexivity. Qed.

Lemma setDocumentData_conversation ty d s :
  _conversation (Session.setDocumentData ty d s) = _conversation s.
Proof. destruct ty; reflexivity. Qed.

Lemma setDocumentData_flag ty d s :
  awaitingManualInput (Session.setDocumentData ty d s) = awaitingManualInput s.
Proof. destruct ty; reflexivity. Qed.

Lemma setDocumentData_same ty d s :
  Session.documentData ty (Session.setDocumentData ty d s) = d.
Proof. destruct ty; reflexivity. Qed.

Lemma setDocumentData_other ty ty' d s :
  ty <> ty' ->
  Session.documentData ty' (Session.setDocumentData ty d s)
  = Session.documentData ty' s.
Proof. destruct ty, ty'; intros H; try reflexivity; congruence. Qed.

Lemma addToConversationHistory_index item role s :
  _stepIndex (Session.addToConversationHistory item role s) = _stepIndex s.
Proof. reflexivity. Qed.

Lemma addToConversationHistory_flag item role s :
  awaitingManualInput (Session.addToConversationHistory item role s)
  = awaitingManualInput s.
Proof. reflexivity. Qed.

Lemma addToConversationHistory_document ty item role s :
  Session.documentData ty (Session.addToConversationHistory item role s)
  = Session.documentData ty s.
Proof. destruct ty; reflexivity. Qed.

Lemma setConversation_index h s :
  _stepIndex (Session.setConversation h s) = _stepIndex s.
Proof. reflexivity. Qed.

Lemma setConversation_flag h s :
  awaitingManualInput (Session.setConversation h s) = awaitingManualInput s.
Proof. reflexivity. Qed.

Lemma setConversation_document ty h s :
  Session.documentData ty (Session.setConversation h s)
  = Session.documentData ty s.
Proof. destruct ty; reflexivity. Qed.

Lemma setAwaitingManualInput_index b s :
  _stepIndex (Session.setAwaitingManualInput b s) = _stepIndex s.
Proof. reflexivity. Qed.

Lemma setAwaitingManualInput_flag b s :
  awaitingManualInput (Session.setAwaitingManualInput b s) = Some b.
Proof. reflexivity. Qed.

Lemma setAwaitingManualInput_document ty b s :
  Session.documentData ty (Session.setAwaitingManualInput b s)
  = Session.documentData ty s.
Proof. destruct ty; reflexivity. Qed.

Create Rewrite HintDb session_db.

#[global] Hint Rewrite
  nextStep_index prevStep_index nextStep_conversation nextStep_flag
  nextStep_document prevStep_conversation prevStep_flag prevStep_document
  setDocumentData_index setDocumentData_conversation setDocumentData_flag
  setDocumentData_same addToConversationHistory_index
  addToConversationHistory_flag addToConversationHistory_document
  setConversation_index setConversation_flag setConversation_document
  setAwaitingManualInput_index setAwaitingManualInput_flag
  setAwaitingManualInput_document : session_db.

Lemma step_by_index s s' :
  _stepIndex s' = _stepIndex s -> Session.step s' = Session.step s.
Proof. unfold Session.step. intros ->. reflexivity. Qed.

(** C1. Every session the bot holds, after any sequence of handled
    updates, is at one of the eight named steps; [nextStep] at
    [completed] and [prevStep] at [start] leave the session as it is. *)
Theorem C1_step_always_named
    (updates : list (Collab * TelegramMessage)) (chat_id : Z) (s : UserSession) :
  sessions (handleAll updates emptyWorld) !! chat_id = Some s ->
  (exists st, Session.step s = Some st /\ st ∈ STEPS)
  /\ (Session.step s = Some completed ->
      Session.nextStep s = s
      /\ Session.step (Session.nextStep s) = Some completed)
  /\ (Session.step s = Some start ->
      Session.prevStep s = s
      /\ Session.step (Session.prevStep s) = Some start).
Proof.
  intros H.
  pose proof (sessions_ok_handleAll updates emptyWorld sessions_ok_empty
                chat_id s H) as Hr.
  split; [| split].
  - destruct (index_step s (reachable_index s Hr)) as [st Hst].
    exists st. split; [exact Hst | apply STEPS_complete].
  - intros Hc. rewrite (nextStep_at_completed s Hc). auto.
  - intros Hc. rewrite (prevStep_at_start s Hc). auto.
Qed.

Lemma C1_witness :
  let updates := [ (stub true agent_down None, startCommand 7) ] in
  let s := {| _stepIndex := 1; _conversation := []; _passportData := Undefined;
              _driversIdData := Undefined; awaitingManualInput := None |} in
  sessions (handleAll updates emptyWorld) !! 7%Z = Some s
  /\ (exists st, Session.step s = Some st /\ st ∈ STEPS)
  /\ (Session.step s = Some completed ->
      Session.nextStep s = s
      /\ Session.step (Session.nextStep s) = Some completed)
  /\ (Session.step s = Some start ->
      Session.prevStep s = s
      /\ Session.step (Session.prevStep s) = Some start).
Proof.
  cbv zeta.
  split; [vm_compute; reflexivity |].
  apply (C1_step_always_named
           [ (stub true agent_down None, startCommand 7) ] 7%Z).
  vm_compute. reflexivity.
Defined.

(* ================================================================== *)
(** ** Running the primitives *)
(* ================================================================== *)

Lemma bind_run {A B} (m : M A) (k : A -> M B) w :
  bind m k w = match m w with
               | (Ret a, w') => k a w'
               | (Throw, w') => (Throw, w')
               end.
Proof. reflexivity. Qed.

Lemma bind_Ret {A B} (m : M A) (k : A -> M B) w a w' :
  m w = (Ret a, w') -> bind m k w = k a w'.
Proof. intros H. unfold bind. rewrite H. reflexivity. Qed.

Lemma bind_Throw {A B} (m : M A) (k : A -> M B) w w' :
  m w = (Throw, w') -> bind m k w = (Throw, w').
Proof. intros H. unfold bind. rewrite H. reflexivity. Qed.

Lemma try_Ret {A} (m h : M A) w a w' :
  m w = (Ret a, w') -> try_catch m h w = (Ret a, w').
Proof. intros H. unfold try_catch. rewrite H. reflexivity. Qed.

Lemma try_Throw {A} (m h : M A) w w' :
  m w = (Throw, w') -> try_catch m h w = h w'.
Proof. intros H. unfold try_catch. rewrite H. reflexivity. Qed.

Lemma emit_run e w : emit e w = (Ret tt, add_event e w).
Proof. reflexivity. Qed.

Lemma updateSession_run chat_id f w :
  updateSession chat_id f w = (Ret tt, upd chat_id f w).
Proof. reflexivity. Qed.

Lemma readSession_run chat_id w :
  readSession chat_id w = (Ret (session_of chat_id w), w).
Proof. reflexivity. Qed.

Lemma sendMessage_run env chat_id message w :
  sendMessage env chat_id message w =
  (if tg_sendMessage env chat_id message then Ret tt else Throw,
   add_event (SendMessage chat_id message (tg_sendMessage env chat_id message)) w).
Proof.
  unfold sendMessage, bind. rewrite emit_run.
  destruct (tg_sendMessage env chat_id message); reflexivity.
Qed.

Lemma sendMessage_up env chat_id message w :
  transport_up env ->
  sendMessage env chat_id message w =
  (Ret tt, add_event (SendMessage chat_id message true) w).
Proof. intros H. rewrite sendMessage_run, H. reflexivity. Qed.

Lemma sessions_add_event e w : sessions (add_event e w) = sessions w.
Proof. reflexivity. Qed.

Lemma events_add_event e w : events (add_event e w) = events w ++ [e].
Proof. reflexivity. Qed.

Lemma events_upd chat_id f w : events (upd chat_id f w) = events w.
Proof. reflexivity. Qed.

Lemma session_of_add_event chat_id e w :
  session_of chat_id (add_event e w) = session_of chat_id w.
Proof. reflexivity. Qed.

Lemma lookup_upd_eq chat_id f w :
  sessions (upd chat_id f w) !! chat_id = f <$> sessions w !! chat_id.
Proof. simpl. apply lookup_alter_eq. Qed.

Lemma lookup_upd_ne chat_id k f w :
  chat_id <> k -> sessions (upd chat_id f w) !! k = sessions w !! k.
Proof. intros H. simpl. apply lookup_alter_ne, H. Qed.

Lemma session_of_lookup chat_id w s :
  sessions w !! chat_id = Some s -> session_of chat_id w = s.
Proof. intros H. unfold session_of. rewrite H. reflexivity. Qed.

Lemma sessionStorage_get_present chat_id w s :
  sessions w !! chat_id = Some s -> sessionStorage_get chat_id w = (Ret tt, w).
Proof. intros H. unfold sessionStorage_get. rewrite H. reflexivity. Qed.

(** *** What the tools of a run can do *)

Lemma session_frame_refl s : session_frame s s.
Proof. unfold session_frame. auto. Qed.

Lemma session_frame_trans s1 s2 s3 :
  session_frame s1 s2 -> session_frame s2 s3 -> session_frame s1 s3.
Proof.
  intros (A1 & A2 & A3 & A4) (B1 & B2 & B3 & B4).
  repeat split; try congruence.
  intros ty. destruct (B4 ty) as [E | E]; [| auto].
  rewrite E. apply A4.
Qed.

Lemma session_frame_setDocument ty fields s :
  session_frame s (Session.setDocumentData ty (Structured fields) s).
Proof.
  unfold session_frame. destruct ty; simpl; repeat split; intros []; simpl; eauto.
Qed.

Lemma tools_frame_refl w : tools_frame w w.
Proof.
  split; [reflexivity |]. intros k. split.
  - intros s H. exists s. split; [exact H | apply session_frame_refl].
  - auto.
Qed.

Lemma tools_frame_trans w1 w2 w3 :
  tools_frame w1 w2 -> tools_frame w2 w3 -> tools_frame w1 w3.
Proof.
  intros [E1 F1] [E2 F2]. split; [congruence |].
  intros k. destruct (F1 k) as [P1 N1], (F2 k) as [P2 N2]. split.
  - intros s H. destruct (P1 s H) as (s2 & H2 & Fr2).
    destruct (P2 s2 H2) as (s3 & H3 & Fr3).
    exists s3. split; [exact H3 | eapply session_frame_trans; eassumption].
  - intros H. destruct (N1 H) as [H2 | (s2 & H2 & Fr2)].
    + apply N2, H2.
    + right. destruct (P2 s2 H2) as (s3 & H3 & Fr3).
      exists s3. split; [exact H3 | eapply session_frame_trans; eassumption].
Qed.

Lemma execute_tool_frame env tc w :
  fst (execute_tool env tc w) = Ret tt /\ tools_frame w (snd (execute_tool env tc w)).
Proof.
  unfold execute_tool.
  destruct (mindee_extractData env (tc_url tc) (tc_tool tc)) as [data |];
    [| split; [reflexivity | apply tools_frame_refl]].
  unfold bind, sessionStorage_get.
  destruct (sessions w !! tc_chat_id tc) as [s0 |] eqn:E0; simpl.
  - split; [reflexivity |]. split; [reflexivity |]. intros k. simpl. split.
    + intros s H. destruct (decide (tc_chat_id tc = k)) as [<- | Hne].
      * rewrite lookup_alter_eq, H. simpl. eexists. split; [reflexivity |].
        apply session_frame_setDocument.
      * rewrite lookup_alter_ne by exact Hne. exists s.
        split; [exact H | apply session_frame_refl].
    + intros H. left. destruct (decide (tc_chat_id tc = k)) as [<- | Hne].
      * congruence.
      * rewrite lookup_alter_ne by exact Hne. exact H.
  - split; [reflexivity |]. split; [reflexivity |]. intros k. simpl. split.
    + intros s H. destruct (decide (tc_chat_id tc = k)) as [<- | Hne].
      * congruence.
      * rewrite lookup_alter_ne, lookup_insert_ne by exact Hne.
        exists s. split; [exact H | apply session_frame_refl].
    + intros H. destruct (decide (tc_chat_id tc = k)) as [<- | Hne].
      * right. rewrite lookup_alter_eq, lookup_insert_eq. simpl.
        eexists. split; [reflexivity |]. apply session_frame_setDocument.
      * left. rewrite lookup_alter_ne, lookup_insert_ne by exact Hne. exact H.
Qed.

Lemma execute_tools_run env tcs w :
  execute_tools env tcs w = (Ret tt, after_tools env tcs w).
Proof.
  unfold after_tools. revert w.
  induction tcs as [| tc rest IH]; intros w; simpl; [reflexivity |].
  unfold bind. destruct (execute_tool_frame env tc w) as [E _].
  destruct (execute_tool env tc w) as [r w']. simpl in E. subst r.
  rewrite IH. reflexivity.
Qed.

Lemma after_tools_frame env tcs w : tools_frame w (after_tools env tcs w).
Proof.
  unfold after_tools. revert w.
  induction tcs as [| tc rest IH]; intros w; simpl; [apply tools_frame_refl |].
  unfold bind. destruct (execute_tool_frame env tc w) as [E F].
  destruct (execute_tool env tc w) as [r w']. simpl in E, F. subst r.
  eapply tools_frame_trans; [exact F | apply IH].
Qed.

Lemma after_tools_nil env w : after_tools env [] w = w.
Proof. reflexivity. Qed.

Lemma after_tools_session env tcs w chat_id s :
  sessions w !! chat_id = Some s ->
  exists s', sessions (after_tools env tcs w) !! chat_id = Some s'
             /\ session_frame s s'.
Proof.
  intros H. destruct (after_tools_frame env tcs w) as [_ F].
  destruct (F chat_id) as [P _]. exact (P s H).
Qed.

Lemma after_tools_events env tcs w :
  events (after_tools env tcs w) = events w.
Proof. apply after_tools_frame. Qed.

(** *** [promptAgent] *)

Lemma promptAgent_run env chat_id userMessage instruction w :
  promptAgent env chat_id userMessage instruction w =
  let out := agentCall env chat_id userMessage instruction (session_of chat_id w) in
  let w1 := after_tools env (tool_calls out)
              (add_event (RunAgent chat_id userMessage) w) in
  match agentReply out with
  | Some (reply, h) => (Ret reply, upd chat_id (Session.setConversation h) w1)
  | None => (Throw, w1)
  end.
Proof.
  unfold promptAgent. rewrite bind_run, readSession_run.
  rewrite bind_run, emit_run. fold (agentCall env chat_id userMessage instruction
                                      (session_of chat_id w)).
  cbv zeta. rewrite bind_run, execute_tools_run.
  unfold agentReply.
  destruct (final _) as [r |]; [| reflexivity].
  destruct (finalOutput r) as [o |]; [| reflexivity].
  destruct (truthy o); reflexivity.
Qed.

(* ================================================================== *)
(** ** Running the handlers *)
(* ================================================================== *)

Lemma ret_run {A} (a : A) w : ret a w = (Ret a, w).
Proof. reflexivity. Qed.

Lemma throw_run {A} w : @throw A w = (Throw, w).
Proof. reflexivity. Qed.

Ltac run_step :=
  first
    [ rewrite bind_run
    | rewrite emit_run
    | rewrite updateSession_run
    | rewrite readSession_run
    | rewrite execute_tools_run
    | rewrite promptAgent_run
    | rewrite sendMessage_run
    | rewrite ret_run
    | rewrite throw_run
    | progress cbv beta iota zeta ].

Ltac run := repeat run_step.

Lemma getFileUrl_resolved env message fileType url w :
  fileUrlOf env message fileType = Some url ->
  getFileUrl env message fileType w = (Ret (UrlSuccess url), w).
Proof.
  unfold fileUrlOf, getFileUrl, fetchFileUrl.
  destruct (decide (fileType = CPhoto)).
  - destruct (photo message) as [photos |]; [| discriminate].
    destruct (last photos) as [p |]; [| discriminate].
    destruct (MAX_FILE_SIZE <? ph_file_size p)%Z; [discriminate |].
    destruct (tg_getFile env (ph_file_id p)); [| discriminate].
    simpl. intros [= ->]. reflexivity.
  - destruct (document message) as [d |]; [| discriminate].
    destruct (bool_decide _); [| discriminate].
    destruct (MAX_FILE_SIZE <? doc_file_size d)%Z; [discriminate |].
    destruct (tg_getFile env (doc_file_id d)); [| discriminate].
    simpl. intros [= ->]. reflexivity.
Qed.


Lemma promptAgent_world env chat_id userMessage instruction w :
  promptAgent env chat_id userMessage instruction w =
  match agentReply (agentCall env chat_id userMessage instruction
                      (session_of chat_id w)) with
  | Some (reply, h) =>
      (Ret reply,
       upd chat_id (Session.setConversation h)
         (agent_world env chat_id userMessage instruction w))
  | None => (Throw, agent_world env chat_id userMessage instruction w)
  end.
Proof. rewrite promptAgent_run. reflexivity. Qed.

Lemma tier1_agent_run env chat_id config url w :
  tier1_agent env chat_id config url w =
  let prompt := agentPrompt (documentType config) url in
  let wa := agent_world env chat_id prompt (Some FAILED_INSTRUCTION) w in
  match agentReply (agentCall env chat_id prompt (Some FAILED_INSTRUCTION)
                      (session_of chat_id w)) with
  | None => (Ret false, caught_agent chat_id wa)
  | Some (reply, h) =>
      let wc := upd chat_id (Session.setConversation h) wa in
      let out :=
        if endsWith reply "[FAILED]"
        then trim (replace "[FAILED]" "" reply) else reply in
      if tg_sendMessage env chat_id out
      then (Ret true,
            if endsWith reply "[FAILED]" then sent env chat_id out wc
            else upd chat_id Session.nextStep (sent env chat_id out wc))
      else (Ret false, caught_agent chat_id (sent env chat_id out wc))
  end.
Proof.
  unfold tier1_agent, try_catch. rewrite bind_run, promptAgent_world.
  cbv zeta.
  destruct (agentReply _) as [[reply h] |]; [| reflexivity].
  destruct (endsWith reply "[FAILED]"); unfold logError, sent; run;
    destruct (tg_sendMessage env chat_id _); reflexivity.
Qed.

Lemma tier2_mindee_run env chat_id config url w :
  tier2_mindee env chat_id config url w =
  let ty := documentType config in
  let we := add_event (ExtractData url ty) w in
  match mindee_extractData env url ty with
  | None => (Ret false, caught_mindee chat_id we)
  | Some data =>
      let summary := createDocumentSummary data ty in
      let wd := sent env chat_id summary
                  (upd chat_id (Session.setDocumentData ty (Structured data)) we) in
      if tg_sendMessage env chat_id summary
      then (Ret true,
            upd chat_id Session.nextStep
              (upd chat_id
                 (Session.addToConversationHistory summary RoleAssistant) wd))
      else (Ret false, caught_mindee chat_id wd)
  end.
Proof.
  unfold tier2_mindee, try_catch. cbv zeta. run.
  destruct (mindee_extractData env url (documentType config)) as [data |].
  - unfold logError, sent. run.
    destruct (tg_sendMessage env chat_id _); reflexivity.
  - reflexivity.
Qed.

Lemma tier3_manual_run env chat_id config w :
  tier3_manual env chat_id config w =
  let apology := apologyMsg (documentType config) in
  if tg_sendMessage env chat_id apology
  then (Ret tt,
        upd chat_id (Session.setAwaitingManualInput true)
          (upd chat_id (Session.addToConversationHistory apology RoleAssistant)
             (sent env chat_id apology w)))
  else (Throw, sent env chat_id apology w).
Proof.
  unfold tier3_manual, sent. cbv zeta. run.
  destruct (tg_sendMessage env chat_id _); reflexivity.
Qed.

Lemma handleManualInput_run env chat_id message config w :
  handleManualInput env chat_id message config w =
  let txt := text_of message in
  let ty := documentType config in
  let prompt := manualConfirmationMsg ty txt in
  let w1 := sent env chat_id prompt
              (upd chat_id (Session.setAwaitingManualInput false)
                 (upd chat_id (Session.setDocumentData ty (RawText txt)) w)) in
  if tg_sendMessage env chat_id prompt
  then (Ret tt,
        upd chat_id Session.nextStep
          (upd chat_id (Session.addToConversationHistory prompt RoleAssistant) w1))
  else (Throw, w1).
Proof.
  unfold handleManualInput, sent. cbv zeta. run.
  destruct (tg_sendMessage env chat_id _); reflexivity.
Qed.

Lemma processDocument_run env chat_id contentType message config w url :
  (Session.manualInputPending (session_of chat_id w)
     && bool_decide (contentType = CText) = false) ->
  fileUrlOf env message (fileTypeOf contentType) = Some url ->
  processDocument env chat_id contentType message config w =
  tiers env chat_id config url w.
Proof.
  intros Hshort Hurl. unfold processDocument, tiers. run.
  rewrite Hshort. fold (fileTypeOf contentType). run.
  rewrite (getFileUrl_resolved _ _ _ _ _ Hurl). run. fold (sent env chat_id processingMessage w).
  destruct (tg_sendMessage env chat_id processingMessage); [| reflexivity].
  run.
  destruct (tier1_agent env chat_id config url _) as [[[|] |] w1]; try reflexivity.
  run.
  destruct (tier2_mindee env chat_id config url _) as [[[|] |] w2]; reflexivity.
Qed.

Lemma processDocument_manual env chat_id message config w :
  Session.manualInputPending (session_of chat_id w) = true ->
  processDocument env chat_id CText message config w =
  handleManualInput env chat_id message config w.
Proof.
  intros H. unfold processDocument. run. rewrite H. reflexivity.
Qed.

(** *** The route handler *)

Lemma handleWebhook_dispatch env message w s st :
  sessions w !! from_id message = Some s ->
  Session.step s = Some st ->
  getContentType message <> CUnsupported ->
  bool_decide (getContentType message ∈ expectsContent (stepConfigs env st))
    || Session.manualInputPending s
         && bool_decide (getContentType message = CText) = true ->
  handleWebhook env message w =
  match handler (stepConfigs env st) (from_id message)
          (getContentType message) message (console_logged s w) with
  | (Ret _, w') => (Ret tt, w')
  | (Throw, w') =>
      let w'' := sent env (from_id message) (retryPrompt (stepConfigs env st))
                   (add_event LogError w') in
      if tg_sendMessage env (from_id message) (retryPrompt (stepConfigs env st))
      then (Ret tt, w'') else (Ret tt, add_event LogError w'')
  end.
Proof.
  intros Hs Hst Hsup Hexp.
  unfold handleWebhook, routeMessage, try_catch. cbv zeta. run.
  rewrite (sessionStorage_get_present _ _ _ Hs). run.
  rewrite (session_of_lookup _ _ _ Hs), Hst. run.
  rewrite (bool_decide_eq_false_2 _ Hsup), Hexp.
  fold (console_logged s w).
  destruct (handler _ _ _ _ _) as [[[] |] w']; [reflexivity |].
  unfold logError, sent. run.
  destruct (tg_sendMessage env _ _); reflexivity.
Qed.

(* ================================================================== *)
(** ** The document ingestion pipeline *)
(* ================================================================== *)

Lemma step_index_lookup (st : StepName) : STEPS !! step_index st = Some st.
Proof. destruct st; reflexivity. Qed.

Lemma step_is (s : UserSession) (st : StepName) :
  Session.step s = Some st <-> _stepIndex s = step_index st.
Proof.
  unfold Session.step. split.
  - generalize (_stepIndex s). intros n H.
    do 8 (destruct n as [| n]; [injection H as <-; reflexivity |]).
    discriminate H.
  - intros ->. apply step_index_lookup.
Qed.

Lemma agent_world_session env chat_id userMessage instruction w k s :
  sessions w !! k = Some s ->
  exists s', sessions (agent_world env chat_id userMessage instruction w) !! k
             = Some s'
             /\ session_frame s s'.
Proof. intros H. unfold agent_world. apply after_tools_session. exact H. Qed.

Lemma agent_world_events env chat_id userMessage instruction w :
  events (agent_world env chat_id userMessage instruction w)
  = events w ++ [RunAgent chat_id userMessage].
Proof. unfold agent_world. rewrite after_tools_events. reflexivity. Qed.

Lemma lookup_upd_some chat_id f w s :
  sessions w !! chat_id = Some s ->
  sessions (upd chat_id f w) !! chat_id = Some (f s).
Proof. intros H. rewrite lookup_upd_eq, H. reflexivity. Qed.

Lemma sessions_sent env chat_id message w :
  sessions (sent env chat_id message w) = sessions w.
Proof. reflexivity. Qed.

Lemma sessions_caught_agent chat_id w : sessions (caught_agent chat_id w) = sessions w.
Proof. reflexivity. Qed.

Lemma sessions_caught_mindee chat_id w : sessions (caught_mindee chat_id w) = sessions w.
Proof. reflexivity. Qed.

Lemma sessions_console_logged s w : sessions (console_logged s w) = sessions w.
Proof. reflexivity. Qed.

Ltac lookup_solve :=
  repeat first
    [ eassumption
    | apply lookup_upd_some
    | rewrite sessions_sent
    | rewrite sessions_add_event
    | rewrite sessions_caught_agent
    | rewrite sessions_caught_mindee
    | rewrite sessions_console_logged ].

Ltac world_simpl :=
  cbn [sessions events sent add_event caught_agent caught_mindee upd
       console_logged] in *.

Lemma awaited_expects env st ty ct :
  awaited_document st = Some ty ->
  ct = CPhoto \/ ct = CDocument ->
  bool_decide (ct ∈ expectsContent (stepConfigs env st)) = true
  /\ handler (stepConfigs env st)
     = (fun chat_id contentType message =>
          processDocument env chat_id contentType message
            {| documentType := ty |}).
Proof.
  intros Hst Hct.
  destruct st; try discriminate Hst; injection Hst as <-;
    (split; [destruct Hct as [-> | ->]; reflexivity | reflexivity]).
Qed.

(** C3. A session at a document-awaiting step whose submission meets a
    raising agent and a raising extraction service is left with
    [awaitingManualInput = true] on the same step; the next text message
    of that user clears the flag, is stored verbatim as the document and
    moves the session one step forward.  The chat transport delivers. *)
Theorem C3_manual_fallback env message w s st ty url :
  sessions w !! from_id message = Some s ->
  Session.step s = Some st ->
  awaited_document st = Some ty ->
  getContentType message = CPhoto \/ getContentType message = CDocument ->
  fileUrlOf env message (fileTypeOf (getContentType message)) = Some url ->
  agentReply (agentCall env (from_id message) (agentPrompt ty url)
                (Some FAILED_INSTRUCTION) s) = None ->
  mindee_extractData env url ty = None ->
  transport_up env ->
  let w1 := snd (handleWebhook env message w) in
  (exists s1,
      sessions w1 !! from_id message = Some s1
      /\ awaitingManualInput s1 = Some true
      /\ Session.step s1 = Session.step s)
  /\ forall env2 message2 txt,
       from_id message2 = from_id message ->
       getContentType message2 = CText ->
       text message2 = Some txt ->
       transport_up env2 ->
       exists s2,
         sessions (snd (handleWebhook env2 message2 w1)) !! from_id message
         = Some s2
         /\ awaitingManualInput s2 = Some false
         /\ Session.documentData ty s2 = RawText txt
         /\ _stepIndex s2 = (_stepIndex s + 1)%nat.
Proof.
  intros Hs Hst Hty Hct Hurl Hagent Hex Hup.
  destruct (awaited_expects env st ty _ Hty Hct) as [Hexp Hh].
  assert (getContentType message <> CUnsupported) as Hsup
    by (destruct Hct as [-> | ->]; discriminate).
  assert (getContentType message <> CText) as Htext
    by (destruct Hct as [-> | ->]; discriminate).
  cbv zeta.
  rewrite (handleWebhook_dispatch env message w s st Hs Hst Hsup)
    by (rewrite Hexp; reflexivity).
  rewrite Hh.
  rewrite (processDocument_run _ _ _ _ _ _ url)
    by (first [ rewrite (bool_decide_eq_false_2 _ Htext); apply andb_false_r
              | exact Hurl ]).
  unfold tiers. rewrite (Hup _ processingMessage).
  rewrite tier1_agent_run. cbv zeta.
  replace (session_of (from_id message)
             (sent env (from_id message) processingMessage (console_logged s w)))
    with s by (symmetry; apply session_of_lookup; exact Hs).
  cbn [documentType]. rewrite Hagent.
  rewrite tier2_mindee_run. cbv zeta. cbn [documentType]. rewrite Hex.
  rewrite tier3_manual_run. cbv zeta. rewrite (Hup _ (apologyMsg _)).
  cbn [snd].
  destruct (agent_world_session env (from_id message) (agentPrompt ty url)
              (Some FAILED_INSTRUCTION)
              (sent env (from_id message) processingMessage (console_logged s w))
              (from_id message) s Hs) as (sa & Hsa & Fa).
  destruct Fa as (Fi & Fc & Ff & Fd).
  match goal with |- context [sessions ?W !! _] => set (w1 := W) end.
  assert (sessions w1 !! from_id message
          = Some (Session.setAwaitingManualInput true
                    (Session.addToConversationHistory (apologyMsg ty)
                       RoleAssistant sa))) as Hw1.
  { subst w1. lookup_solve. }
  split.
  - eexists. split; [exact Hw1 |]. split; [reflexivity |].
    apply step_by_index. autorewrite with session_db. exact Fi.
  - intros env2 message2 txt Hfrom Hct2 Htxt Hup2.
    assert (sessions w1 !! from_id message2
            = Some (Session.setAwaitingManualInput true
                      (Session.addToConversationHistory (apologyMsg ty)
                         RoleAssistant sa))) as Hw2
      by (rewrite Hfrom; exact Hw1).
    assert (Session.step
              (Session.setAwaitingManualInput true
                 (Session.addToConversationHistory (apologyMsg ty)
                    RoleAssistant sa)) = Some st) as Hst1.
    { rewrite <- Hst. apply step_by_index.
      autorewrite with session_db. exact Fi. }
    rewrite (handleWebhook_dispatch env2 message2 w1 _ st Hw2 Hst1)
      by (rewrite Hct2; first [ discriminate | apply orb_true_r ]).
    destruct (awaited_expects env2 st ty CPhoto Hty (or_introl eq_refl))
      as [_ Hh2].
    rewrite Hh2, Hct2.
    rewrite processDocument_manual
      by (rewrite (session_of_lookup _ (console_logged _ w1) _ Hw2);
          reflexivity).
    rewrite handleManualInput_run. cbv zeta.
    rewrite (Hup2 _ (manualConfirmationMsg _ _)). cbn [snd documentType].
    rewrite !Hfrom.
    eexists. split.
    { lookup_solve. }
    unfold text_of. rewrite Htxt. cbv [default id].
    apply step_is in Hst. autorewrite with session_db.
    repeat split; try reflexivity.
    rewrite Fi, Hst. destruct st; try discriminate Hty; simpl; lia.
Qed.

Lemma C3_witness :
  let env := stub true agent_down None in
  let w := handleAll [ (env, startCommand 7) ] emptyWorld in
  let w1 := snd (handleWebhook env (photoMessage 7) w) in
  (exists s1,
      sessions w1 !! 7%Z = Some s1
      /\ awaitingManualInput s1 = Some true
      /\ Session.step s1 = Some awaiting_passport)
  /\ forall env2 message2 txt,
       from_id message2 = 7%Z ->
       getContentType message2 = CText ->
       text message2 = Some txt ->
       transport_up env2 ->
       exists s2,
         sessions (snd (handleWebhook env2 message2 w1)) !! 7%Z = Some s2
         /\ awaitingManualInput s2 = Some false
         /\ Session.documentData passport s2 = RawText txt
         /\ _stepIndex s2 = 2%nat.
Proof.
  cbv zeta.
  apply (C3_manual_fallback (stub true agent_down None) (photoMessage 7)
           (handleAll [ (stub true agent_down None, startCommand 7) ] emptyWorld)
           {| _stepIndex := 1; _conversation := []; _passportData := Undefined;
              _driversIdData := Undefined; awaitingManualInput := None |}
           awaiting_passport passport "https://files/large").
  - vm_compute. reflexivity.
  - reflexivity.
  - reflexivity.
  - left. reflexivity.
  - vm_compute. reflexivity.
  - reflexivity.
  - reflexivity.
  - intros ? ?. reflexivity.
Defined.

(** *** The events of a run *)

Lemma events_sent env chat_id message w :
  events (sent env chat_id message w)
  = events w ++ [SendMessage chat_id message (tg_sendMessage env chat_id message)].
Proof. reflexivity. Qed.

Lemma events_caught_agent chat_id w :
  events (caught_agent chat_id w)
  = events w ++ [ConsoleError (agentFailedLine (session_of chat_id w)); LogError].
Proof. unfold caught_agent. simpl. rewrite <- app_assoc. reflexivity. Qed.

Lemma events_caught_mindee chat_id w :
  events (caught_mindee chat_id w)
  = events w ++ [ConsoleError (mindeeFailedLine (session_of chat_id w)); LogError].
Proof. unfold caught_mindee. simpl. rewrite <- app_assoc. reflexivity. Qed.

Lemma events_console_logged s w :
  events (console_logged s w)
  = events w ++ [ConsoleLogData (_driversIdData s); ConsoleLog "pp";
                 ConsoleLogData (_passportData s)].
Proof. unfold console_logged. simpl. rewrite <- !app_assoc. reflexivity. Qed.

Create Rewrite HintDb events_db.

#[global] Hint Rewrite events_sent events_caught_agent events_caught_mindee
  events_console_logged events_add_event events_upd agent_world_events
  : events_db.

Lemma new_events_app w w' l :
  events w' = events w ++ l -> new_events w w' = l.
Proof. intros H. unfold new_events. rewrite H. apply drop_app_length. Qed.

(** Brings [new_events w W], for an explicit world [W] built on [w], to
    the list of what was added. *)
Lemma new_events_refl w : new_events w w = [].
Proof. unfold new_events. apply drop_all. Qed.

Ltac events_norm :=
  cbn [fst snd];
  first
    [ rewrite new_events_refl
    | erewrite new_events_app
        by (autorewrite with events_db; rewrite <- ?app_assoc; simpl app;
            reflexivity) ].

Lemma mindeeFailedLine_prefix s :
  String.prefix "Mindee fallback also failed" (mindeeFailedLine s) = true.
Proof. reflexivity. Qed.

Lemma agentFailedLine_prefix s :
  String.prefix "Mindee fallback also failed" (agentFailedLine s) = false.
Proof. reflexivity. Qed.

Lemma getFileUrl_cases env message fileType w :
  (exists url, fileUrlOf env message fileType = Some url
               /\ getFileUrl env message fileType w = (Ret (UrlSuccess url), w))
  \/ (exists r w', getFileUrl env message fileType w = (r, w')
                   /\ (forall url, r <> Ret (UrlSuccess url))
                   /\ (w' = w \/ w' = add_event LogError w)).
Proof.
  destruct (fileUrlOf env message fileType) as [url |] eqn:E.
  - left. exists url. split; [reflexivity |].
    apply getFileUrl_resolved, E.
  - right. revert E. unfold fileUrlOf, getFileUrl, fetchFileUrl, logError.
    destruct (decide (fileType = CPhoto)).
    + destruct (photo message) as [photos |];
        [| intros _; eexists _, _; split; [reflexivity |]; split;
           [discriminate | auto]].
      destruct (last photos) as [p |];
        [| intros _; eexists _, _; split; [reflexivity |]; split;
           [discriminate | auto]].
      destruct (MAX_FILE_SIZE <? ph_file_size p)%Z;
        [intros _; eexists _, _; split; [reflexivity |]; split;
           [discriminate | auto] |].
      destruct (tg_getFile env (ph_file_id p)); [discriminate |].
      intros _. eexists _, _. split; [reflexivity |]. split;
        [discriminate | auto].
    + destruct (document message) as [d |];
        [| intros _; eexists _, _; split; [reflexivity |]; split;
           [discriminate | auto]].
      destruct (bool_decide _);
        [| intros _; eexists _, _; split; [reflexivity |]; split;
           [discriminate | auto]].
      destruct (MAX_FILE_SIZE <? doc_file_size d)%Z;
        [intros _; eexists _, _; split; [reflexivity |]; split;
           [discriminate | auto] |].
      destruct (tg_getFile env (doc_file_id d)); [discriminate |].
      intros _. eexists _, _. split; [reflexivity |]. split;
        [discriminate | auto].
Qed.

Ltac tiers_cases env chat_id :=
  repeat match goal with
    | |- context [agentReply ?o] =>
        let R := fresh "Hreply" in
        destruct (agentReply o) as [[? ?] |] eqn:R
    | |- context [tg_sendMessage env chat_id ?m] =>
        let S := fresh "Hsend" in
        destruct (tg_sendMessage env chat_id m) eqn:S
    | |- context [mindee_extractData env ?u ?t] =>
        let X := fresh "Hextract" in
        destruct (mindee_extractData env u t) eqn:X
    | |- context [endsWith ?r "[FAILED]"] =>
        let F := fresh "Hfailed" in
        destruct (endsWith r "[FAILED]") eqn:F
    end.

Lemma tiers_order env chat_id config url w :
  let ty := documentType config in
  let evs := new_events w (snd (tiers env chat_id config url w)) in
  (tier2_ran evs = true -> tier1_raised env chat_id ty url (session_of chat_id w))
  /\ (tier3_ran evs = true ->
      tier2_ran evs = true /\ tier2_raised env chat_id ty url).
Proof.
  cbv zeta. unfold tiers, tier1_raised, tier2_raised, relayed.
  rewrite tier1_agent_run. cbv zeta.
  change (session_of chat_id (sent env chat_id processingMessage w))
    with (session_of chat_id w).
  destruct (tg_sendMessage env chat_id processingMessage) eqn:Hproc;
    [| events_norm; split; discriminate].
  destruct (agentReply _) as [[reply h] |] eqn:Hreply.
  - destruct (tg_sendMessage env chat_id
                (if endsWith reply "[FAILED]"
                 then trim (replace "[FAILED]" "" reply) else reply)) eqn:Hrelay.
    + destruct (endsWith reply "[FAILED]"); events_norm; split; discriminate.
    + rewrite tier2_mindee_run. cbv zeta.
      destruct (mindee_extractData env url (documentType config)) as [data |].
      * destruct (tg_sendMessage env chat_id (createDocumentSummary data _))
          eqn:Hsum.
        -- events_norm. split; [reflexivity | discriminate].
        -- rewrite tier3_manual_run. cbv zeta.
           destruct (tg_sendMessage env chat_id (apologyMsg _));
             events_norm; auto.
      * rewrite tier3_manual_run. cbv zeta.
        destruct (tg_sendMessage env chat_id (apologyMsg _));
          events_norm; auto.
  - rewrite tier2_mindee_run. cbv zeta.
    destruct (mindee_extractData env url (documentType config)) as [data |].
    + destruct (tg_sendMessage env chat_id (createDocumentSummary data _))
        eqn:Hsum.
      * events_norm. split; [reflexivity | discriminate].
      * rewrite tier3_manual_run. cbv zeta.
        destruct (tg_sendMessage env chat_id (apologyMsg _));
          events_norm; auto.
    + rewrite tier3_manual_run. cbv zeta.
      destruct (tg_sendMessage env chat_id (apologyMsg _));
        events_norm; auto.
Qed.

Lemma processDocument_cases env chat_id contentType message config w :
  (exists url,
      fileUrlOf env message (fileTypeOf contentType) = Some url
      /\ processDocument env chat_id contentType message config w
         = tiers env chat_id config url w)
  \/ (tier2_ran (new_events w
                   (snd (processDocument env chat_id contentType message config w)))
      = false
      /\ tier3_ran (new_events w
                      (snd (processDocument env chat_id contentType message
                              config w)))
         = false).
Proof.
  destruct (Session.manualInputPending (session_of chat_id w)
              && bool_decide (contentType = CText)) eqn:Hshort.
  - right. unfold processDocument. run. rewrite Hshort.
    rewrite handleManualInput_run. cbv zeta.
    destruct (tg_sendMessage env chat_id _); events_norm; auto.
  - destruct (getFileUrl_cases env message (fileTypeOf contentType) w)
      as [(url & Hurl & _) | (r & w0 & Hget & Hr & Hw0)].
    + left. exists url. split; [exact Hurl |].
      apply processDocument_run; assumption.
    + right. unfold processDocument. run. rewrite Hshort.
      fold (fileTypeOf contentType). run. rewrite Hget.
      destruct r as [[url | msg] |].
      * exfalso. apply (Hr url). reflexivity.
      * rewrite sendMessage_run. fold (sent env chat_id msg w0).
        destruct Hw0 as [-> | ->]; events_norm; auto.
      * destruct Hw0 as [-> | ->]; events_norm; auto.
Qed.




(* ================================================================== *)
(** ** The confirmation resolver *)
(* ================================================================== *)

Lemma getMessagesForStep_run st w :
  getMessagesForStep st w
  = match messagesFor st with
    | Some messages => (Ret messages, w)
    | None => (Throw, w)
    end.
Proof.
  unfold messagesFor, getMessagesForStep.
  destruct st as [[] |]; reflexivity.
Qed.

Lemma getAIConfirmation_run env userMessage chat_id w :
  getAIConfirmation env userMessage chat_id w =
  let wa := agent_world env chat_id userMessage
              (Some AI_CONFIRMATION_INSTRUCTION) w in
  match agentReply (agentCall env chat_id userMessage
                      (Some AI_CONFIRMATION_INSTRUCTION)
                      (session_of chat_id w)) with
  | Some (reply, h) =>
      (Ret (if endsWith reply "[CONFIRMED]"
            then AISuccess DecYes (trim (replace "[CONFIRMED]" "" reply))
            else if endsWith reply "[REJECTED]"
                 then AISuccess DecNo (trim (replace "[REJECTED]" "" reply))
                 else AIFailure messageNeedsAnswer (Some reply)),
       upd chat_id (Session.setConversation h) wa)
  | None =>
      (Ret (AIFailure agentUnavailable None),
       add_event (ConsoleError AI_FAILED_LINE) wa)
  end.
Proof.
  unfold getAIConfirmation, try_catch. rewrite bind_run, promptAgent_world.
  cbv zeta.
  destruct (agentReply _) as [[reply h] |]; [| reflexivity].
  destruct (endsWith reply "[CONFIRMED]"); [reflexivity |].
  destruct (endsWith reply "[REJECTED]"); reflexivity.
Qed.

Lemma handleConfirmation_run env chat_id contentType message config w :
  handleConfirmation env chat_id contentType message config w =
  let txt := text_of message in
  match agentReply (agentCall env chat_id txt
                      (Some AI_CONFIRMATION_INSTRUCTION)
                      (session_of chat_id w)) with
  | Some (reply, h) =>
      let wc := upd chat_id (Session.setConversation h)
                  (agent_world env chat_id txt
                     (Some AI_CONFIRMATION_INSTRUCTION) w) in
      if endsWith reply "[CONFIRMED]"
      then resolve_decision env config chat_id DecYes
             (trim (replace "[CONFIRMED]" "" reply)) wc
      else if endsWith reply "[REJECTED]"
      then resolve_decision env config chat_id DecNo
             (trim (replace "[REJECTED]" "" reply)) wc
      else if tg_sendMessage env chat_id reply
      then (Ret tt,
            upd chat_id (Session.addToConversationHistory reply RoleAssistant)
              (sent env chat_id reply wc))
      else (Throw, sent env chat_id reply wc)
  | None =>
      let wm := manual_world env chat_id txt w in
      match guessDecision txt with
      | unparseable =>
          (if tg_sendMessage env chat_id manualReprompt then Ret tt else Throw,
           sent env chat_id manualReprompt wm)
      | yes =>
          match messagesFor (Session.step (session_of chat_id wm)) with
          | Some messages =>
              resolve_decision env config chat_id DecYes
                (successMessage messages) wm
          | None => (Throw, wm)
          end
      | no =>
          match messagesFor (Session.step (session_of chat_id wm)) with
          | Some messages =>
              resolve_decision env config chat_id DecNo
                (retryMessage messages) wm
          | None => (Throw, wm)
          end
      end
  end.
Proof.
  unfold handleConfirmation. cbv zeta.
  rewrite bind_run, getAIConfirmation_run. cbv zeta.
  unfold resolve_decision, manual_world, sent.
  destruct (agentReply _) as [[reply h] |].
  - destruct (endsWith reply "[CONFIRMED]").
    { run. destruct (tg_sendMessage env chat_id _); reflexivity. }
    destruct (endsWith reply "[REJECTED]").
    { run. destruct (tg_sendMessage env chat_id _); reflexivity. }
    cbv [default]. run. destruct (tg_sendMessage env chat_id _); reflexivity.
  - run. destruct (guessDecision (text_of message)).
    + run. rewrite getMessagesForStep_run.
      destruct (messagesFor _); [| reflexivity].
      run. destruct (tg_sendMessage env chat_id _); reflexivity.
    + run. rewrite getMessagesForStep_run.
      destruct (messagesFor _); [| reflexivity].
      run. destruct (tg_sendMessage env chat_id _); reflexivity.
    + run. reflexivity.
Qed.

Lemma confirmation_expects env st config :
  confirmation_config env st = Some config ->
  expectsContent (stepConfigs env st) = [CText]
  /\ handler (stepConfigs env st)
     = (fun chat_id contentType message =>
          handleConfirmation env chat_id contentType message config).
Proof.
  destruct st; try discriminate; intros [= <-]; split; reflexivity.
Qed.

Lemma confirmation_messages env st config :
  confirmation_config env st = Some config ->
  exists messages, messagesFor (Some st) = Some messages.
Proof.
  destruct st; try discriminate; intros _; eexists; reflexivity.
Qed.

Lemma handleWebhook_confirmation env message w s st config :
  sessions w !! from_id message = Some s ->
  Session.step s = Some st ->
  confirmation_config env st = Some config ->
  getContentType message = CText ->
  handleWebhook env message w =
  match handleConfirmation env (from_id message) CText message config
          (console_logged s w) with
  | (Ret _, w') => (Ret tt, w')
  | (Throw, w') =>
      let w'' := sent env (from_id message) (retryPrompt (stepConfigs env st))
                   (add_event LogError w') in
      if tg_sendMessage env (from_id message) (retryPrompt (stepConfigs env st))
      then (Ret tt, w'') else (Ret tt, add_event LogError w'')
  end.
Proof.
  intros Hs Hst Hcfg Hct.
  destruct (confirmation_expects env st config Hcfg) as [Hexp Hh].
  rewrite (handleWebhook_dispatch env message w s st Hs Hst)
    by (rewrite Hct, ?Hexp; first [discriminate | reflexivity]).
  rewrite Hh, Hct. reflexivity.
Qed.

(** *** The accept and reject paths of the three confirmation steps *)

Lemma sendPolicy_run env chat_id w :
  sendPolicy env chat_id w =
  match policy_pdf env (session_of chat_id w) with
  | Some pdfBuffer =>
      let ok := tg_sendDocument env chat_id pdfBuffer policy_successMessage in
      let wd := add_event (SendDocument chat_id policy_successMessage ok) w in
      if ok then (Ret tt, upd chat_id Session.nextStep wd)
      else policy_failed env chat_id wd
  | None => policy_failed env chat_id w
  end.
Proof.
  unfold sendPolicy, try_catch, logError, policy_failed, sent. run.
  destruct (policy_pdf env _) as [pdfBuffer |].
  - unfold sendDocument. cbv zeta. run.
    destruct (tg_sendDocument env chat_id pdfBuffer policy_successMessage);
      run; reflexivity.
  - run. reflexivity.
Qed.

Lemma sendPolicy_returns env chat_id w :
  transport_up env -> fst (sendPolicy env chat_id w) = Ret tt.
Proof.
  intros Hup. rewrite sendPolicy_run. unfold policy_failed.
  destruct (policy_pdf env _); cbv zeta;
    repeat match goal with
      | |- context [if ?b then _ else _] => destruct b eqn:?
      end; simpl; try reflexivity; rewrite Hup in *; discriminate.
Qed.

Lemma acceptPath_default config chat_id w :
  onAccept config = None ->
  acceptPath config chat_id w = (Ret tt, upd chat_id Session.nextStep w).
Proof. intros H. unfold acceptPath. rewrite H. reflexivity. Qed.

Lemma acceptPath_returns env st config chat_id w :
  confirmation_config env st = Some config ->
  transport_up env ->
  fst (acceptPath config chat_id w) = Ret tt.
Proof.
  intros Hcfg Hup.
  destruct st; try discriminate Hcfg; injection Hcfg as <-;
    unfold acceptPath; simpl; try reflexivity.
  run. apply sendPolicy_returns, Hup.
Qed.

Lemma rejectPath_returns env st config chat_id w :
  confirmation_config env st = Some config ->
  fst (rejectPath config chat_id w) = Ret tt.
Proof.
  intros Hcfg.
  destruct st; try discriminate Hcfg; injection Hcfg as <-; reflexivity.
Qed.

Lemma Ret_eta (r : Res unit * World) : fst r = Ret tt -> r = (Ret tt, snd r).
Proof. destruct r as [[[] |] w]; simpl; [reflexivity | discriminate]. Qed.

Lemma guessDecision_yes txt :
  trim (toLowerCase txt) = "yes" -> guessDecision txt = yes.
Proof. intros H. unfold guessDecision. rewrite H. reflexivity. Qed.

Lemma guessDecision_no txt :
  trim (toLowerCase txt) = "no" -> guessDecision txt = no.
Proof. intros H. unfold guessDecision. rewrite H. reflexivity. Qed.

Lemma guessDecision_other txt :
  trim (toLowerCase txt) <> "yes" -> trim (toLowerCase txt) <> "no" ->
  guessDecision txt = unparseable.
Proof.
  intros Hy Hn. unfold guessDecision.
  destruct (String.eqb_spec (trim (toLowerCase txt)) "yes"); [contradiction |].
  destruct (String.eqb_spec (trim (toLowerCase txt)) "no"); [contradiction |].
  reflexivity.
Qed.

Lemma manual_world_session env chat_id txt w k s :
  sessions w !! k = Some s ->
  exists s', sessions (manual_world env chat_id txt w) !! k = Some s'
             /\ session_frame s s'.
Proof. intros H. unfold manual_world. apply agent_world_session, H. Qed.

Lemma events_manual_world env chat_id txt w :
  events (manual_world env chat_id txt w)
  = events w ++ [RunAgent chat_id txt; ConsoleError AI_FAILED_LINE;
                 ConsoleLog manualFallbackLine].
Proof.
  unfold manual_world. autorewrite with events_db.
  rewrite <- !app_assoc. reflexivity.
Qed.

#[global] Hint Rewrite events_manual_world : events_db.

Lemma sessions_manual_world env chat_id txt w :
  sessions (manual_world env chat_id txt w)
  = sessions (agent_world env chat_id txt (Some AI_CONFIRMATION_INSTRUCTION) w).
Proof. reflexivity. Qed.

Lemma text_of_Some message txt : text message = Some txt -> text_of message = txt.
Proof. intros H. unfold text_of. rewrite H. reflexivity. Qed.

Lemma delivered_to_one chat_id message :
  delivered_to chat_id [SendMessage chat_id message true] = [message].
Proof. unfold delivered_to. simpl. rewrite decide_True by reflexivity. reflexivity. Qed.

(** C6. At a confirmation step whose agent call raises, with the chat
    transport delivering: a text that lower-cases and trims to "yes"
    sends the step's success message and runs the accept path (the
    [onAccept] callback, else one step forward); one that normalises to
    "no" sends the retry message and runs the reject path; any other
    text is answered by the yes/no re-prompt and the session keeps its
    step, transcript and flag. *)
Theorem C6_manual_yes_no env message w s st config txt :
  sessions w !! from_id message = Some s ->
  Session.step s = Some st ->
  confirmation_config env st = Some config ->
  getContentType message = CText ->
  text message = Some txt ->
  agentReply (agentCall env (from_id message) txt
                (Some AI_CONFIRMATION_INSTRUCTION) s) = None ->
  transport_up env ->
  let chat_id := from_id message in
  let wm := manual_world env chat_id txt (console_logged s w) in
  let w' := snd (handleWebhook env message w) in
  exists messages,
    messagesFor (Some st) = Some messages
    /\ (trim (toLowerCase txt) = "yes" ->
        handleWebhook env message w
        = acceptPath config chat_id
            (upd chat_id
               (Session.addToConversationHistory (successMessage messages)
                  RoleAssistant)
               (sent env chat_id (successMessage messages) wm))
        /\ (onAccept config = None ->
            _stepIndex (session_of chat_id w') = S (_stepIndex s)))
    /\ (trim (toLowerCase txt) = "no" ->
        handleWebhook env message w
        = rejectPath config chat_id
            (upd chat_id
               (Session.addToConversationHistory (retryMessage messages)
                  RoleAssistant)
               (sent env chat_id (retryMessage messages) wm)))
    /\ (trim (toLowerCase txt) <> "yes" ->
        trim (toLowerCase txt) <> "no" ->
        delivered_to chat_id (new_events wm w') = [manualReprompt]
        /\ exists s', sessions w' !! chat_id = Some s' /\ session_frame s s').
Proof.
  intros Hs Hst Hcfg Hct Htxt Hagent Hup. cbv zeta.
  destruct (confirmation_messages env st config Hcfg) as [messages Hm].
  exists messages. split; [exact Hm |].
  rewrite (handleWebhook_confirmation env message w s st config Hs Hst Hcfg Hct).
  rewrite handleConfirmation_run. cbv zeta.
  rewrite (text_of_Some _ _ Htxt).
  rewrite (session_of_lookup _ (console_logged s w) _ Hs), Hagent.
  destruct (manual_world_session env (from_id message) txt (console_logged s w)
              (from_id message) s Hs) as (sm & Hsm & Fm).
  assert (Session.step (session_of (from_id message)
                          (manual_world env (from_id message) txt
                             (console_logged s w))) = Some st) as Hstm.
  { rewrite (session_of_lookup _ _ _ Hsm), <- Hst.
    apply step_by_index, Fm. }
  rewrite Hstm, Hm.
  split; [| split].
  - intros Hy. rewrite (guessDecision_yes _ Hy).
    unfold resolve_decision. rewrite Hup.
    rewrite (Ret_eta _ (acceptPath_returns env st config _ _ Hcfg Hup)).
    split; [reflexivity |].
    intros Hdef. rewrite (acceptPath_default _ _ _ Hdef). cbn [snd].
    erewrite (session_of_lookup (from_id message) _ _) by lookup_solve.
    autorewrite with session_db.
    destruct Fm as (Fi & _). rewrite Fi.
    apply step_is in Hst. rewrite Hst.
    destruct st; try discriminate Hcfg; reflexivity.
  - intros Hn. rewrite (guessDecision_no _ Hn).
    unfold resolve_decision. rewrite Hup.
    rewrite (Ret_eta _ (rejectPath_returns env st config _ _ Hcfg)).
    reflexivity.
  - intros Hy Hn. rewrite (guessDecision_other _ Hy Hn).
    rewrite Hup. cbn [snd]. split.
    + events_norm. rewrite Hup. apply delivered_to_one.
    + exists sm. split; [exact Hsm | exact Fm].
Qed.

(** *** Where the manual tier shows in the events *)

Ltac not_in_list :=
  let H := fresh "Hin" in
  intros H;
  repeat (apply elem_of_cons in H as [H | H]; [discriminate H |]);
  apply elem_of_nil in H; exact H.

Lemma sendPolicy_quiet env chat_id w :
  exists l, events (snd (sendPolicy env chat_id w)) = events w ++ l
            /\ ConsoleLog manualFallbackLine ∉ l.
Proof.
  rewrite sendPolicy_run. unfold policy_failed.
  destruct (policy_pdf env _) as [pdfBuffer |]; cbv zeta.
  - destruct (tg_sendDocument env chat_id pdfBuffer policy_successMessage);
      eexists; (split; [cbn [snd]; autorewrite with events_db;
                         rewrite <- ?app_assoc; simpl app; reflexivity
                       | not_in_list]).
  - eexists. split; [cbn [snd]; autorewrite with events_db;
                     rewrite <- ?app_assoc; simpl app; reflexivity
                    | not_in_list].
Qed.

Lemma acceptPath_quiet env st config chat_id w :
  confirmation_config env st = Some config ->
  exists l, events (snd (acceptPath config chat_id w)) = events w ++ l
            /\ ConsoleLog manualFallbackLine ∉ l.
Proof.
  intros Hcfg.
  destruct st; try discriminate Hcfg; injection Hcfg as <-;
    unfold acceptPath; simpl.
  1, 2: exists []; split; [symmetry; apply app_nil_r | apply not_elem_of_nil].
  run. destruct (sendPolicy_quiet env chat_id (upd chat_id Session.nextStep w))
    as (l & El & Nl).
  exists l. split; [exact El | exact Nl].
Qed.

Lemma rejectPath_quiet env st config chat_id w :
  confirmation_config env st = Some config ->
  events (snd (rejectPath config chat_id w)) = events w.
Proof.
  intros Hcfg.
  destruct st; try discriminate Hcfg; injection Hcfg as <-; reflexivity.
Qed.

Lemma resolve_decision_quiet env st config chat_id decision message w :
  confirmation_config env st = Some config ->
  exists l, events (snd (resolve_decision env config chat_id decision message w))
            = events w ++ l
            /\ ConsoleLog manualFallbackLine ∉ l.
Proof.
  intros Hcfg. unfold resolve_decision.
  destruct (tg_sendMessage env chat_id message) eqn:Hsend.
  - destruct decision.
    + destruct (acceptPath_quiet env st config chat_id
                  (upd chat_id
                     (Session.addToConversationHistory message RoleAssistant)
                     (sent env chat_id message w)) Hcfg) as (l & El & Nl).
      eexists. split.
      * rewrite El. autorewrite with events_db. rewrite <- app_assoc.
        reflexivity.
      * simpl. intros Hin. apply elem_of_cons in Hin as [Hin | Hin];
          [discriminate Hin | exact (Nl Hin)].
    + rewrite (rejectPath_quiet env st config _ _ Hcfg).
      eexists. split; [autorewrite with events_db; reflexivity | not_in_list].
  - eexists. split; [cbn [snd]; autorewrite with events_db; reflexivity
                    | not_in_list].
Qed.

Lemma manual_tier_ran_false w w' l :
  events w' = events w ++ l ->
  ConsoleLog manualFallbackLine ∉ l ->
  manual_tier_ran (new_events w w') = false.
Proof.
  intros E N. rewrite (new_events_app _ _ _ E).
  apply bool_decide_eq_false_2, N.
Qed.

(** What the route handler adds when the step handler raised. *)
Lemma handleWebhook_events env message w s st config :
  sessions w !! from_id message = Some s ->
  Session.step s = Some st ->
  confirmation_config env st = Some config ->
  getContentType message = CText ->
  forall l,
    events (snd (handleConfirmation env (from_id message) CText message config
                   (console_logged s w)))
    = events w ++ l ->
    ConsoleLog manualFallbackLine ∉ l ->
    manual_tier_ran (new_events w (snd (handleWebhook env message w))) = false.
Proof.
  intros Hs Hst Hcfg Hct l El Nl.
  rewrite (handleWebhook_confirmation env message w s st config Hs Hst Hcfg Hct).
  destruct (handleConfirmation env _ _ _ _ _) as [[[] |] w0]; cbn [snd] in *.
  - apply (manual_tier_ran_false _ _ l El Nl).
  - cbv zeta. destruct (tg_sendMessage env _ _); cbn [snd].
    + eapply manual_tier_ran_false.
      * autorewrite with events_db. rewrite El, <- !app_assoc. reflexivity.
      * intros Hin. apply elem_of_app in Hin as [Hin | Hin];
          [exact (Nl Hin) | revert Hin; not_in_list].
    + eapply manual_tier_ran_false.
      * autorewrite with events_db. rewrite El, <- !app_assoc. reflexivity.
      * intros Hin. apply elem_of_app in Hin as [Hin | Hin];
          [exact (Nl Hin) | revert Hin; not_in_list].
Qed.

(** C7. At a confirmation step, when the agent call returns a reply that
    ends in neither marker, the reply reaches the user and is appended to
    the transcript, the step stays, and the manual tier is not entered;
    whatever the transport does, the manual tier is entered only when the
    agent call raised. *)
Theorem C7_side_question env message w s st config txt :
  sessions w !! from_id message = Some s ->
  Session.step s = Some st ->
  confirmation_config env st = Some config ->
  getContentType message = CText ->
  text message = Some txt ->
  let chat_id := from_id message in
  let outcome :=
    agentReply (agentCall env chat_id txt (Some AI_CONFIRMATION_INSTRUCTION) s) in
  let w' := snd (handleWebhook env message w) in
  let evs := new_events w w' in
  (forall reply h,
      outcome = Some (reply, h) ->
      endsWith reply "[CONFIRMED]" = false ->
      endsWith reply "[REJECTED]" = false ->
      transport_up env ->
      delivered_to chat_id evs = [reply]
      /\ manual_tier_ran evs = false
      /\ exists s',
           sessions w' !! chat_id = Some s'
           /\ _conversation s' = h ++ [assistant reply]
           /\ Session.step s' = Session.step s
           /\ awaitingManualInput s' = awaitingManualInput s)
  /\ (manual_tier_ran evs = true -> outcome = None).
Proof.
  intros Hs Hst Hcfg Hct Htxt. cbv zeta. split.
  - intros reply h Hreply Hc Hr Hup.
    rewrite (handleWebhook_confirmation env message w s st config Hs Hst Hcfg Hct).
    rewrite handleConfirmation_run. cbv zeta.
    rewrite (text_of_Some _ _ Htxt).
    rewrite (session_of_lookup _ (console_logged s w) _ Hs), Hreply, Hc, Hr, Hup.
    cbn [snd].
    destruct (agent_world_session env (from_id message) txt
                (Some AI_CONFIRMATION_INSTRUCTION) (console_logged s w)
                (from_id message) s Hs) as (sa & Hsa & Fi & Fc & Ff & _).
    split; [| split].
    + events_norm. rewrite Hup. unfold delivered_to. simpl.
      rewrite decide_True by reflexivity. reflexivity.
    + eapply manual_tier_ran_false.
      * autorewrite with events_db. rewrite <- !app_assoc. reflexivity.
      * not_in_list.
    + eexists. split; [lookup_solve |]. simpl.
      split; [reflexivity |]. split; [| exact Ff].
      apply step_by_index. exact Fi.
  - intros Hran.
    destruct (agentReply _) as [[reply h] |] eqn:Hreply; [| reflexivity].
    exfalso.
    assert (manual_tier_ran
              (new_events w (snd (handleWebhook env message w))) = false)
      as Hno; [| congruence].
    pose proof (handleConfirmation_run env (from_id message) CText message
                  config (console_logged s w)) as Hrun.
    cbv zeta in Hrun. rewrite (text_of_Some _ _ Htxt) in Hrun.
    rewrite (session_of_lookup _ (console_logged s w) _ Hs), Hreply in Hrun.
    set (wc := upd (from_id message) (Session.setConversation h)
                 (agent_world env (from_id message) txt
                    (Some AI_CONFIRMATION_INSTRUCTION) (console_logged s w)))
      in *.
    assert (events wc
            = events w ++ [ConsoleLogData (_driversIdData s); ConsoleLog "pp";
                           ConsoleLogData (_passportData s);
                           RunAgent (from_id message) txt]) as Ewc.
    { subst wc. autorewrite with events_db. rewrite <- !app_assoc. reflexivity. }
    assert (forall d m,
               exists l,
                 events (snd (resolve_decision env config (from_id message) d m wc))
                 = events w ++ l
                 /\ ConsoleLog manualFallbackLine ∉ l) as Hres.
    { intros d m.
      destruct (resolve_decision_quiet env st config (from_id message) d m wc
                  Hcfg) as (l & El & Nl).
      eexists. split; [rewrite El, Ewc, <- app_assoc; reflexivity |].
      intros Hin. apply elem_of_app in Hin as [Hin | Hin];
        [revert Hin; not_in_list | exact (Nl Hin)]. }
    destruct (endsWith reply "[CONFIRMED]").
    { destruct (Hres DecYes (trim (replace "[CONFIRMED]" "" reply)))
        as (l & El & Nl).
      rewrite <- Hrun in El.
      exact (handleWebhook_events env message w s st config Hs Hst Hcfg Hct l
               El Nl). }
    destruct (endsWith reply "[REJECTED]").
    { destruct (Hres DecNo (trim (replace "[REJECTED]" "" reply)))
        as (l & El & Nl).
      rewrite <- Hrun in El.
      exact (handleWebhook_events env message w s st config Hs Hst Hcfg Hct l
               El Nl). }
    eapply (handleWebhook_events env message w s st config Hs Hst Hcfg Hct).
    + rewrite Hrun.
      destruct (tg_sendMessage env (from_id message) reply); cbn [snd];
        autorewrite with events_db; rewrite Ewc, <- !app_assoc; simpl app;
        reflexivity.
    + destruct (tg_sendMessage env (from_id message) reply); not_in_list.
Qed.

Lemma C6_witness :
  let env := stub true agent_down None in
  let message := textMessage 7 "  YES " in
  let w := world_confirming_passport in
  let s := session_of 7 w in
  let config := confirming_passport_config in
  let wm := manual_world env 7 "  YES " (console_logged s w) in
  let w' := snd (handleWebhook env message w) in
  trim (toLowerCase "  YES ") = "yes"
  /\ exists messages,
       messagesFor (Some confirming_passport) = Some messages
       /\ handleWebhook env message w
          = acceptPath config 7
              (upd 7
                 (Session.addToConversationHistory (successMessage messages)
                    RoleAssistant)
                 (sent env 7 (successMessage messages) wm))
       /\ _stepIndex (session_of 7 w') = S (_stepIndex s).
Proof.
  cbv zeta. split; [reflexivity |].
  destruct (C6_manual_yes_no (stub true agent_down None)
              (textMessage 7 "  YES ") world_confirming_passport
              (session_of 7 world_confirming_passport)
              confirming_passport confirming_passport_config "  YES ")
    as (messages & Hm & Hyes & _).
  - vm_compute. reflexivity.
  - vm_compute. reflexivity.
  - reflexivity.
  - reflexivity.
  - reflexivity.
  - reflexivity.
  - intros ? ?. reflexivity.
  - exists messages. split; [exact Hm |].
    destruct (Hyes eq_refl) as [Heq Hidx].
    split; [exact Heq | exact (Hidx eq_refl)].
Defined.

Lemma C7_witness :
  let reply := "It is the number printed under your photo." in
  let env := stub true (agent_says reply) None in
  let message := textMessage 7 "which number do you mean?" in
  let w := world_confirming_passport in
  let s := session_of 7 w in
  let w' := snd (handleWebhook env message w) in
  let evs := new_events w w' in
  delivered_to 7 evs = [reply]
  /\ manual_tier_ran evs = false
  /\ exists s',
       sessions w' !! 7%Z = Some s'
       /\ _conversation s' = [assistant reply] ++ [assistant reply]
       /\ Session.step s' = Session.step s
       /\ awaitingManualInput s' = awaitingManualInput s.
Proof.
  cbv zeta.
  destruct (C7_side_question
              (stub true
                 (agent_says "It is the number printed under your photo.") None)
              (textMessage 7 "which number do you mean?")
              world_confirming_passport (session_of 7 world_confirming_passport)
              confirming_passport confirming_passport_config
              "which number do you mean?") as [Hside _].
  - vm_compute. reflexivity.
  - vm_compute. reflexivity.
  - reflexivity.
  - reflexivity.
  - reflexivity.
  - apply (Hside "It is the number printed under your photo."
             [assistant "It is the number printed under your photo."]).
    + reflexivity.
    + reflexivity.
    + reflexivity.
    + intros ? ?. reflexivity.
Defined.

(* ================================================================== *)
(** ** The markers in the replies of the agent *)
(* ================================================================== *)

Lemma prefix_app p suf : String.prefix p (p +:+ suf) = true.
Proof.
  induction p as [| c p IH]; simpl; [destruct suf; reflexivity |].
  destruct (Ascii.ascii_dec c c); [exact IH | contradiction].
Qed.

Lemma prefix_split p s :
  String.prefix p s = true -> exists suf, s = p +:+ suf.
Proof.
  revert s. induction p as [| c p IH]; intros s H.
  - exists s. reflexivity.
  - destruct s as [| d s]; simpl in H; [discriminate |].
    destruct (Ascii.ascii_dec c d) as [-> |]; [| discriminate].
    destruct (IH s H) as [suf ->]. exists suf. reflexivity.
Qed.

Lemma skip_app p s : skip (String.length p) (p +:+ s) = s.
Proof. induction p as [| c p IH]; simpl; [destruct s; reflexivity | exact IH]. Qed.

Lemma append_length a b :
  String.length (a +:+ b) = (String.length a + String.length b)%nat.
Proof.
  induction a as [| c a IH]; [reflexivity |].
  change (S (String.length (a +:+ b))
          = S (String.length a + String.length b)).
  rewrite IH. reflexivity.
Qed.

Lemma append_assoc a b c : (a +:+ b) +:+ c = a +:+ (b +:+ c).
Proof.
  induction a as [| x a IH]; [reflexivity |].
  change (String x ((a +:+ b) +:+ c) = String x (a +:+ (b +:+ c))).
  rewrite IH. reflexivity.
Qed.

Lemma append_nil_r a : a +:+ "" = a.
Proof.
  induction a as [| x a IH]; [reflexivity |].
  change (String x (a +:+ "") = String x a). rewrite IH. reflexivity.
Qed.

Lemma replace_unfold pat rep s :
  replace pat rep s
  = if String.prefix pat s then rep +:+ skip (String.length pat) s
    else match s with
         | EmptyString => EmptyString
         | String c s' => String c (replace pat rep s')
         end.
Proof. destruct s; reflexivity. Qed.

Lemma prefix_refl p : String.prefix p p = true.
Proof.
  pose proof (prefix_app p "") as H. rewrite append_nil_r in H. exact H.
Qed.

Lemma skip_all p : skip (String.length p) p = "".
Proof.
  pose proof (skip_app p "") as H. rewrite append_nil_r in H. exact H.
Qed.

(** When the marker occurs in a reply only as its ending, [replace]
    removes that ending. *)
Lemma replace_only_ending pat body :
  (forall pre suf, body +:+ pat = pre +:+ pat +:+ suf -> suf = "") ->
  replace pat "" (body +:+ pat) = body.
Proof.
  induction body as [| c body IH]; intros Honly.
  - change ("" +:+ pat) with pat.
    rewrite replace_unfold, prefix_refl, skip_all. reflexivity.
  - change (String c body +:+ pat) with (String c (body +:+ pat)).
    rewrite replace_unfold.
    destruct (String.prefix pat (String c (body +:+ pat))) eqn:Hp.
    + exfalso. apply prefix_split in Hp as [suf Hsuf].
      assert (suf = "") as ->.
      { apply (Honly "" suf). exact Hsuf. }
      rewrite append_nil_r in Hsuf.
      apply (f_equal String.length) in Hsuf.
      change (String.length (String c (body +:+ pat)))
        with (S (String.length (body +:+ pat))) in Hsuf.
      rewrite append_length in Hsuf. lia.
    + f_equal. apply IH. intros pre suf E.
      apply (Honly (String c pre) suf).
      change (String c (body +:+ pat) = String c (pre +:+ pat +:+ suf)).
      rewrite E. reflexivity.
Qed.

(** A reply that ends in the confirmation marker resolves as an
    acceptance: the reply goes out with the first occurrence of the
    marker removed, and the accept path runs. *)
Lemma confirmed_reply_accepts env message w s st config txt reply h :
  sessions w !! from_id message = Some s ->
  Session.step s = Some st ->
  confirmation_config env st = Some config ->
  getContentType message = CText ->
  text message = Some txt ->
  agentReply (agentCall env (from_id message) txt
                (Some AI_CONFIRMATION_INSTRUCTION) s) = Some (reply, h) ->
  endsWith reply "[CONFIRMED]" = true ->
  transport_up env ->
  let chat_id := from_id message in
  let out := trim (replace "[CONFIRMED]" "" reply) in
  let wc := upd chat_id (Session.setConversation h)
              (agent_world env chat_id txt (Some AI_CONFIRMATION_INSTRUCTION)
                 (console_logged s w)) in
  handleWebhook env message w
  = acceptPath config chat_id
      (upd chat_id (Session.addToConversationHistory out RoleAssistant)
         (sent env chat_id out wc))
  /\ (onAccept config = None ->
      delivered_to chat_id (new_events w (snd (handleWebhook env message w)))
      = [out]
      /\ _stepIndex (session_of chat_id (snd (handleWebhook env message w)))
         = S (_stepIndex s)).
Proof.
  intros Hs Hst Hcfg Hct Htxt Hreply Hc Hup. cbv zeta.
  rewrite (handleWebhook_confirmation env message w s st config Hs Hst Hcfg Hct).
  rewrite handleConfirmation_run. cbv zeta.
  rewrite (text_of_Some _ _ Htxt).
  rewrite (session_of_lookup _ (console_logged s w) _ Hs), Hreply, Hc.
  unfold resolve_decision. rewrite Hup.
  rewrite (Ret_eta _ (acceptPath_returns env st config _ _ Hcfg Hup)).
  split; [reflexivity |].
  intros Hdef. rewrite (acceptPath_default _ _ _ Hdef). cbn [snd].
  destruct (agent_world_session env (from_id message) txt
              (Some AI_CONFIRMATION_INSTRUCTION) (console_logged s w)
              (from_id message) s Hs) as (sa & Hsa & Fi & _).
  split.
  - events_norm. rewrite Hup. unfold delivered_to. simpl.
    rewrite decide_True by reflexivity. reflexivity.
  - erewrite (session_of_lookup (from_id message) _ _) by lookup_solve.
    autorewrite with session_db. rewrite Fi.
    apply step_is in Hst. rewrite Hst.
    destruct st; try discriminate Hcfg; reflexivity.
Qed.

(** C5 (the code at the failing input). The agent quotes the marker and
    then appends it: the reply ends in [CONFIRMED], the acceptance is
    carried out, and the message that reaches the user still ends in the
    marker, because [replace] removed the quoted occurrence. *)
Theorem C5_marker_reaches_user :
  let env := stub true (agent_says quoting_reply) None in
  let w := world_confirming_passport in
  let w' := snd (handleWebhook env (textMessage 7 "yes, all correct") w) in
  Session.step (session_of 7 w) = Some confirming_passport
  /\ endsWith quoting_reply "[CONFIRMED]" = true
  /\ delivered_to 7 (new_events w w') = ["You typed , noted. [CONFIRMED]"]
  /\ Session.step (session_of 7 w') = Some awaiting_driversId.
Proof. vm_compute. repeat split; reflexivity. Qed.

(* ================================================================== *)
(** ** Frames: what a computation leaves alone *)
(* ================================================================== *)

Section Relates.

Variable R : Z -> UserSession -> UserSession -> Prop.
Hypothesis R_refl : forall k s, R k s s.
Hypothesis R_trans : forall k a b c, R k a b -> R k b c -> R k a c.

Lemma entry_related_refl k o : entry_related (R k) o o.
Proof. destruct o; simpl; auto. Qed.

Lemma entry_related_trans k o1 o2 o3 :
  entry_related (R k) o1 o2 -> entry_related (R k) o2 o3 ->
  entry_related (R k) o1 o3.
Proof.
  destruct o1, o2, o3; simpl; try tauto; apply R_trans.
Qed.

Lemma relates_at_Some {A} (m : M A) w k s :
  relates_at R m ->
  sessions w !! k = Some s ->
  exists s', sessions (snd (m w)) !! k = Some s' /\ R k s s'.
Proof.
  intros Hm H. specialize (Hm w k). rewrite H in Hm.
  destruct (sessions (snd (m w)) !! k) as [s' |]; simpl in Hm; [| contradiction].
  exists s'. auto.
Qed.

Lemma relates_ret {A} (a : A) : relates_at R (ret a).
Proof. intros w k. apply entry_related_refl. Qed.

Lemma relates_throw {A} : relates_at R (@throw A).
Proof. intros w k. apply entry_related_refl. Qed.

Lemma relates_emit e : relates_at R (emit e).
Proof. intros w k. apply entry_related_refl. Qed.

Lemma relates_readSession chat_id : relates_at R (readSession chat_id).
Proof. intros w k. apply entry_related_refl. Qed.

Lemma relates_bind {A B} (m : M A) (f : A -> M B) :
  relates_at R m -> (forall a, relates_at R (f a)) -> relates_at R (bind m f).
Proof.
  intros Hm Hf w k. unfold bind. specialize (Hm w k).
  destruct (m w) as [[a |] w1]; simpl in *; [| exact Hm].
  eapply entry_related_trans; [exact Hm | apply Hf].
Qed.

Lemma relates_try_catch {A} (m h : M A) :
  relates_at R m -> relates_at R h -> relates_at R (try_catch m h).
Proof.
  intros Hm Hh w k. unfold try_catch. specialize (Hm w k).
  destruct (m w) as [[a |] w1]; simpl in *; [exact Hm |].
  eapply entry_related_trans; [exact Hm | apply Hh].
Qed.

Lemma relates_updateSession chat_id f :
  (forall s, R chat_id s (f s)) -> relates_at R (updateSession chat_id f).
Proof.
  intros Hf w k. simpl.
  destruct (decide (chat_id = k)) as [-> | Hne].
  - rewrite lookup_alter_eq. destruct (sessions w !! k); simpl; auto.
  - rewrite lookup_alter_ne by exact Hne. apply entry_related_refl.
Qed.

Lemma relates_sessionStorage_get chat_id :
  relates_at R (sessionStorage_get chat_id).
Proof.
  intros w k. unfold sessionStorage_get.
  destruct (sessions w !! chat_id) eqn:E; simpl; [apply entry_related_refl |].
  destruct (decide (chat_id = k)) as [-> | Hne].
  - rewrite E, lookup_insert_eq. simpl. apply R_refl.
  - rewrite lookup_insert_ne by exact Hne. apply entry_related_refl.
Qed.

Lemma relates_sendMessage env chat_id message :
  relates_at R (sendMessage env chat_id message).
Proof.
  unfold sendMessage. apply relates_bind; [apply relates_emit |].
  intros _. destruct (tg_sendMessage env chat_id message);
    [apply relates_ret | apply relates_throw].
Qed.

Lemma relates_sendDocument env chat_id buffer caption :
  relates_at R (sendDocument env chat_id buffer caption).
Proof.
  unfold sendDocument. apply relates_bind; [apply relates_emit |].
  intros _. destruct (tg_sendDocument env chat_id buffer caption);
    [apply relates_ret | apply relates_throw].
Qed.

Hypothesis R_tool :
  forall k s ty fields, R k s (Session.setDocumentData ty (Structured fields) s).

Lemma relates_execute_tools env tcs : relates_at R (execute_tools env tcs).
Proof.
  induction tcs as [| tc rest IH]; simpl; [apply relates_ret |].
  apply relates_bind; [| intros _; exact IH].
  unfold execute_tool. destruct (mindee_extractData env _ _);
    [| apply relates_ret].
  apply relates_bind; [apply relates_sessionStorage_get |].
  intros _. apply relates_updateSession. intros s. apply R_tool.
Qed.

Lemma relates_promptAgent env chat_id userMessage instruction :
  (forall s h, R chat_id s (Session.setConversation h s)) ->
  relates_at R (promptAgent env chat_id userMessage instruction).
Proof.
  intros R_setConversation. unfold promptAgent.
  apply relates_bind; [apply relates_readSession | intros s].
  apply relates_bind; [apply relates_emit | intros _].
  apply relates_bind; [apply relates_execute_tools | intros _].
  destruct (final _) as [r |]; [| apply relates_throw].
  destruct (finalOutput r) as [o |]; [| apply relates_throw].
  destruct (truthy o); [| apply relates_throw].
  apply relates_bind; [| intros _; apply relates_ret].
  apply relates_updateSession. intros s0. apply R_setConversation.
Qed.

End Relates.

Lemma relates_Some R {A} (m : M A) w k s :
  (forall s, R s s) ->
  relates R m ->
  sessions w !! k = Some s ->
  exists s', sessions (snd (m w)) !! k = Some s' /\ R s s'.
Proof.
  intros Rr Hm H.
  apply (relates_at_Some (fun _ => R) m w k s Hm H).
Qed.

(** Discharges the side conditions on the relation from the context. *)
Ltac rel_hyp :=
  solve [ assumption
        | intro; assumption
        | intro; cbv beta; assumption
        | intros; cbv beta; auto ].

Ltac relates_step :=
  match goal with
  | |- relates_at _ (bind _ _) => apply relates_bind; [rel_hyp | | intros ?]
  | |- relates_at _ (try_catch _ _) => apply relates_try_catch; [rel_hyp | |]
  | |- relates_at _ (ret _) => apply relates_ret; rel_hyp
  | |- relates_at _ throw => apply relates_throw; rel_hyp
  | |- relates_at _ (emit _) => apply relates_emit; rel_hyp
  | |- relates_at _ logError => apply relates_emit; rel_hyp
  | |- relates_at _ (readSession _) => apply relates_readSession; rel_hyp
  | |- relates_at _ (sessionStorage_get _) =>
      apply relates_sessionStorage_get; rel_hyp
  | |- relates_at _ (sendMessage _ _ _) => apply relates_sendMessage; rel_hyp
  | |- relates_at _ (sendDocument _ _ _ _) =>
      apply relates_sendDocument; rel_hyp
  | |- relates_at _ (promptAgent _ _ _ _) =>
      apply relates_promptAgent; [rel_hyp | rel_hyp | rel_hyp | intros ? ?; cbv beta]
  | |- relates_at _ (updateSession _ _) =>
      apply relates_updateSession; [rel_hyp | intros ?; cbv beta]
  | |- relates_at _ (if ?b then _ else _) => destruct b
  | |- relates_at _ (match ?x with _ => _ end) => destruct x
  end.

Lemma doc_kept_refl d : doc_kept d d.
Proof. left. reflexivity. Qed.

Lemma doc_kept_trans a b c : doc_kept a b -> doc_kept b c -> doc_kept a c.
Proof.
  intros [-> | Hb] [-> | Hc]; unfold doc_kept; auto.
Qed.

Lemma same_step_refl s : same_step s s.
Proof. repeat split. intros ty. apply doc_kept_refl. Qed.

Lemma same_step_trans a b c : same_step a b -> same_step b c -> same_step a c.
Proof.
  intros (A1 & A2 & A3) (B1 & B2 & B3). repeat split; try congruence.
  intros ty. eapply doc_kept_trans; [apply A3 | apply B3].
Qed.

Lemma same_step_tool s ty fields :
  same_step s (Session.setDocumentData ty (Structured fields) s).
Proof.
  unfold same_step. autorewrite with session_db. repeat split.
  intros ty'. destruct ty, ty'; simpl; unfold doc_kept; eauto.
Qed.

Lemma same_step_setConversation s h : same_step s (Session.setConversation h s).
Proof.
  unfold same_step. repeat split. intros ty.
  rewrite setConversation_document. apply doc_kept_refl.
Qed.

Lemma same_step_add s item role :
  same_step s (Session.addToConversationHistory item role s).
Proof.
  unfold same_step. repeat split. intros ty.
  rewrite addToConversationHistory_document. apply doc_kept_refl.
Qed.

Lemma not_backwards_refl s : not_backwards s s.
Proof. unfold not_backwards. lia. Qed.

Lemma not_backwards_trans a b c :
  not_backwards a b -> not_backwards b c -> not_backwards a c.
Proof. unfold not_backwards. lia. Qed.

Lemma not_backwards_tool s ty fields :
  not_backwards s (Session.setDocumentData ty (Structured fields) s).
Proof. unfold not_backwards. rewrite setDocumentData_index. lia. Qed.

Lemma not_backwards_setConversation s h :
  not_backwards s (Session.setConversation h s).
Proof. unfold not_backwards. simpl. lia. Qed.

Lemma not_backwards_add s item role :
  not_backwards s (Session.addToConversationHistory item role s).
Proof. unfold not_backwards. simpl. lia. Qed.

Lemma not_backwards_nextStep s : not_backwards s (Session.nextStep s).
Proof.
  unfold not_backwards. rewrite nextStep_index.
  destruct (_stepIndex s <? 7)%nat; lia.
Qed.

(** The tools of a run, seen through [session_frame], give [same_step]. *)
Lemma session_frame_same_step s s' : session_frame s s' -> same_step s s'.
Proof.
  intros (Fi & _ & Ff & Fd). repeat split; try assumption.
Qed.

(** *** The route handler outside the step handlers *)

Lemma handleWebhook_sessions env message w s st :
  sessions w !! from_id message = Some s ->
  Session.step s = Some st ->
  getContentType message <> CUnsupported ->
  bool_decide (getContentType message ∈ expectsContent (stepConfigs env st))
    || Session.manualInputPending s
         && bool_decide (getContentType message = CText) = true ->
  sessions (snd (handleWebhook env message w))
  = sessions (snd (handler (stepConfigs env st) (from_id message)
                     (getContentType message) message (console_logged s w))).
Proof.
  intros Hs Hst Hsup Hexp.
  rewrite (handleWebhook_dispatch env message w s st Hs Hst Hsup Hexp).
  destruct (handler _ _ _ _ _) as [[[] |] w0]; [reflexivity |].
  cbv zeta. destruct (tg_sendMessage env _ _); reflexivity.
Qed.

Lemma handleWebhook_unexpected env message w s st :
  sessions w !! from_id message = Some s ->
  Session.step s = Some st ->
  bool_decide (getContentType message = CUnsupported)
    || negb (bool_decide (getContentType message ∈ expectsContent (stepConfigs env st))
             || Session.manualInputPending s
                  && bool_decide (getContentType message = CText)) = true ->
  exists s', sessions (snd (handleWebhook env message w)) !! from_id message
             = Some s'
             /\ same_step s s'.
Proof.
  intros Hs Hst Hun.
  pose proof same_step_refl as Rr. pose proof same_step_trans as Rt.
  pose proof same_step_tool as Rtool.
  pose proof same_step_setConversation as Rc.
  pose proof same_step_add as Ra.
  unfold handleWebhook. unfold try_catch at 1.
  unfold routeMessage. cbv zeta. run.
  rewrite (sessionStorage_get_present _ _ _ Hs). run.
  rewrite (session_of_lookup _ _ _ Hs), Hst. run.
  fold (console_logged s w).
  set (tail := if bool_decide (getContentType message = CUnsupported)
               then _ else _).
  assert (relates same_step tail) as Htail.
  { subst tail. unfold relates.
    destruct (bool_decide (getContentType message = CUnsupported));
      [apply relates_sendMessage; rel_hyp |].
    simpl in Hun. apply negb_true_iff in Hun. rewrite Hun.
    repeat relates_step; first [apply Ra | apply Rc]. }
  destruct (relates_Some _ _ (console_logged s w) (from_id message) s Rr Htail Hs)
    as (s1 & H1 & R1).
  destruct (tail (console_logged s w)) as [[[] |] w1]; simpl in *.
  - exists s1. auto.
  - exists s1. auto.
Qed.

(* ================================================================== *)
(** ** The price confirmation *)
(* ================================================================== *)

Lemma relates_getMessagesForStep R st :
  (forall s, R s s) -> relates R (getMessagesForStep st).
Proof.
  intros Rr. unfold relates, getMessagesForStep.
  destruct st as [[] |]; first [apply relates_ret | apply relates_throw];
    rel_hyp.
Qed.

Lemma relates_sendPolicy R env chat_id :
  (forall s, R s s) ->
  (forall a b c, R a b -> R b c -> R a c) ->
  (forall s, R s (Session.nextStep s)) ->
  relates R (sendPolicy env chat_id).
Proof.
  intros Rr Rt Rn. unfold relates, sendPolicy.
  repeat relates_step; apply Rn.
Qed.

Lemma price_handler_not_backwards env chat_id contentType message :
  relates not_backwards
    (handleConfirmation env chat_id contentType message
       (confirming_price_config env)).
Proof.
  pose proof not_backwards_refl as Rr. pose proof not_backwards_trans as Rt.
  pose proof not_backwards_tool as Rtool.
  pose proof not_backwards_setConversation as Rc.
  pose proof not_backwards_add as Ra.
  pose proof not_backwards_nextStep as Rn.
  assert (relates not_backwards (acceptPath (confirming_price_config env) chat_id))
    as HA.
  { unfold acceptPath. simpl. unfold relates.
    apply relates_bind; [rel_hyp | | intros _].
    - apply relates_updateSession; [rel_hyp | intros s; apply Rn].
    - apply relates_sendPolicy; assumption. }
  assert (relates not_backwards (rejectPath (confirming_price_config env) chat_id))
    as HR.
  { unfold rejectPath. simpl. apply relates_ret. rel_hyp. }
  unfold relates in *. unfold handleConfirmation, getAIConfirmation. cbv zeta.
  repeat first
    [ assumption
    | apply (relates_getMessagesForStep not_backwards); assumption
    | relates_step
    | apply Ra
    | apply Rc ].
Qed.

Lemma price_expected env message s :
  bool_decide (getContentType message ∈ expectsContent (stepConfigs env confirming_price))
    || Session.manualInputPending s
         && bool_decide (getContentType message = CText)
  = bool_decide (getContentType message = CText).
Proof.
  simpl. destruct (getContentType message); simpl;
    try reflexivity; apply andb_false_r.
Qed.

Lemma price_not_accepted env chat_id message w s :
  sessions w !! chat_id = Some s ->
  decision_of env chat_id (text_of message) s <> Some DecYes ->
  let w' := snd (handleConfirmation env chat_id CText message
                   (confirming_price_config env) w) in
  let wa := agent_world env chat_id (text_of message)
              (Some AI_CONFIRMATION_INSTRUCTION) w in
  _stepIndex (session_of chat_id w') = _stepIndex s
  /\ forall ty, Session.documentData ty (session_of chat_id w')
                = Session.documentData ty (session_of chat_id wa).
Proof.
  intros Hs Hdec. cbv zeta.
  rewrite handleConfirmation_run. cbv zeta.
  unfold decision_of in Hdec.
  rewrite (session_of_lookup _ _ _ Hs).
  destruct (agent_world_session env chat_id (text_of message)
              (Some AI_CONFIRMATION_INSTRUCTION) w chat_id s Hs)
    as (sa & Hsa & Fi & _).
  rewrite (session_of_lookup _ _ _ Hsa).
  assert (forall m wc d,
             sessions wc !! chat_id = Some d ->
             session_of chat_id
               (snd (resolve_decision env (confirming_price_config env) chat_id
                       DecNo m wc))
             = (if tg_sendMessage env chat_id m
                then Session.addToConversationHistory m RoleAssistant d
                else d)) as Hno.
  { intros m wc d Hd. unfold resolve_decision.
    destruct (tg_sendMessage env chat_id m); cbn [snd].
    - unfold rejectPath. simpl. cbn [snd].
      apply session_of_lookup. lookup_solve.
    - apply session_of_lookup. lookup_solve. }
  destruct (agentReply _) as [[reply h] |].
  - destruct (endsWith reply "[CONFIRMED]"); [congruence |].
    destruct (endsWith reply "[REJECTED]").
    + erewrite Hno by lookup_solve.
      destruct (tg_sendMessage env chat_id _);
        autorewrite with session_db; auto.
    + destruct (tg_sendMessage env chat_id reply); cbn [snd];
        (erewrite (session_of_lookup chat_id _ _) by lookup_solve);
        autorewrite with session_db; auto.
  - assert (sessions (manual_world env chat_id (text_of message) w) !! chat_id
            = Some sa) as Hm by exact Hsa.
    destruct (guessDecision (text_of message)); [congruence | |].
    + destruct (messagesFor _) as [messages |].
      * erewrite Hno by exact Hm.
        destruct (tg_sendMessage env chat_id _);
          autorewrite with session_db; auto.
      * cbn [snd]. rewrite (session_of_lookup _ _ _ Hm). auto.
    + cbn [snd].
      erewrite (session_of_lookup chat_id _ _) by lookup_solve. auto.
Qed.

(** C10. At [confirming_price] the [onReject] callback does nothing.  A
    rejection, resolved by the agent's marker or by the manual "no",
    leaves the session on [confirming_price] with the document fields as
    the agent run left them; no message ever moves the session backwards,
    and it leaves [confirming_price] only when the decision is an
    acceptance. *)
Theorem C10_price_rejection_changes_nothing env message w s :
  sessions w !! from_id message = Some s ->
  Session.step s = Some confirming_price ->
  let chat_id := from_id message in
  let txt := text_of message in
  let w' := snd (handleWebhook env message w) in
  let wa := agent_world env chat_id txt (Some AI_CONFIRMATION_INSTRUCTION)
              (console_logged s w) in
  (exists callback,
      onReject (confirming_price_config env) = Some callback
      /\ forall c W, callback c W = (Ret tt, W))
  /\ (getContentType message = CText ->
      decision_of env chat_id txt s = Some DecNo ->
      Session.step (session_of chat_id w') = Some confirming_price
      /\ forall ty, Session.documentData ty (session_of chat_id w')
                    = Session.documentData ty (session_of chat_id wa))
  /\ (step_index confirming_price <= _stepIndex (session_of chat_id w'))%nat
  /\ (Session.step (session_of chat_id w') <> Some confirming_price ->
      getContentType message = CText
      /\ decision_of env chat_id txt s = Some DecYes).
Proof.
  intros Hs Hst. cbv zeta.
  pose proof (proj1 (step_is _ _) Hst) as Hidx.
  assert (getContentType message = CText ->
          sessions (snd (handleWebhook env message w))
          = sessions (snd (handleConfirmation env (from_id message) CText
                             message (confirming_price_config env)
                             (console_logged s w)))) as Htext.
  { intros Hct.
    rewrite (handleWebhook_sessions env message w s confirming_price Hs Hst)
      by (rewrite ?price_expected, Hct; first [discriminate | reflexivity]).
    rewrite Hct. reflexivity. }
  assert (getContentType message <> CText ->
          _stepIndex (session_of (from_id message)
                        (snd (handleWebhook env message w)))
          = _stepIndex s) as Hother.
  { intros Hct.
    destruct (handleWebhook_unexpected env message w s confirming_price Hs Hst)
      as (s1 & H1 & E1 & _).
    - rewrite price_expected, (bool_decide_eq_false_2 _ Hct). apply orb_true_r.
    - rewrite (session_of_lookup _ _ _ H1). exact E1. }
  assert (forall W W', sessions W = sessions W' ->
                       session_of (from_id message) W
                       = session_of (from_id message) W') as Hso.
  { intros W W' E. unfold session_of. rewrite E. reflexivity. }
  split; [| split; [| split]].
  - eexists. split; [reflexivity |]. reflexivity.
  - intros Hct Hdec.
    rewrite (Hso _ _ (Htext Hct)).
    destruct (price_not_accepted env (from_id message) message
                (console_logged s w) s Hs) as [Ei Ed];
      [rewrite Hdec; discriminate |].
    split; [| exact Ed].
    apply step_is. rewrite Ei. exact Hidx.
  - destruct (decide (getContentType message = CText)) as [Hct | Hct].
    + rewrite (Hso _ _ (Htext Hct)).
      destruct (relates_Some _ _ (console_logged s w) (from_id message) s
                  not_backwards_refl
                  (price_handler_not_backwards env (from_id message) CText
                     message) Hs)
        as (s1 & H1 & R1).
      rewrite (session_of_lookup _ _ _ H1). rewrite <- Hidx. exact R1.
    + rewrite (Hother Hct), Hidx. reflexivity.
  - intros Hmoved.
    destruct (decide (getContentType message = CText)) as [Hct | Hct].
    + split; [exact Hct |].
      assert (decision_of env (from_id message) (text_of message) s
              = Some DecYes
              \/ decision_of env (from_id message) (text_of message) s
                 <> Some DecYes) as [Hd | Hd]
        by (destruct (decision_of _ _ _ _) as [[|] |];
            first [left; reflexivity | right; discriminate]);
        [exact Hd |].
      exfalso. apply Hmoved. rewrite (Hso _ _ (Htext Hct)).
      destruct (price_not_accepted env (from_id message) message
                  (console_logged s w) s Hs Hd) as [Ei _].
      apply step_is. rewrite Ei. exact Hidx.
    + exfalso. apply Hmoved. apply step_is. rewrite (Hother Hct). exact Hidx.
Qed.

Lemma C10_witness :
  let env := stub true (agent_says "Understood, tell me when you are ready. [REJECTED]")
               None in
  let message := textMessage 7 "too expensive" in
  let w := world_confirming_price in
  let s := session_of 7 w in
  let w' := snd (handleWebhook env message w) in
  let wa := agent_world env 7 "too expensive" (Some AI_CONFIRMATION_INSTRUCTION)
              (console_logged s w) in
  Session.step s = Some confirming_price
  /\ decision_of env 7 "too expensive" s = Some DecNo
  /\ (exists callback,
         onReject (confirming_price_config env) = Some callback
         /\ forall c W, callback c W = (Ret tt, W))
  /\ (getContentType message = CText ->
      decision_of env 7 "too expensive" s = Some DecNo ->
      Session.step (session_of 7 w') = Some confirming_price
      /\ forall ty, Session.documentData ty (session_of 7 w')
                    = Session.documentData ty (session_of 7 wa))
  /\ (step_index confirming_price <= _stepIndex (session_of 7 w'))%nat
  /\ (Session.step (session_of 7 w') <> Some confirming_price ->
      getContentType message = CText
      /\ decision_of env 7 "too expensive" s = Some DecYes).
Proof.
  cbv zeta.
  split; [vm_compute; reflexivity |].
  split; [vm_compute; reflexivity |].
  apply (C10_price_rejection_changes_nothing
           (stub true
              (agent_says "Understood, tell me when you are ready. [REJECTED]")
              None)
           (textMessage 7 "too expensive") world_confirming_price
           (session_of 7 world_confirming_price)).
  - vm_compute. reflexivity.
  - vm_compute. reflexivity.
Defined.

(* ================================================================== *)
(** ** Rejecting and resubmitting a document *)
(* ================================================================== *)

Lemma confirmed_config env st ty :
  confirmed_document st = Some ty ->
  exists config,
    confirmation_config env st = Some config
    /\ onAccept config = None
    /\ forall chat_id W,
         rejectPath config chat_id W
         = (Ret tt,
            upd chat_id Session.prevStep
              (upd chat_id (Session.setDocumentData ty Null) W)).
Proof.
  destruct st; try discriminate; intros [= <-]; eexists;
    (split; [reflexivity |]); split; reflexivity.
Qed.

Lemma frame_doc_kept s sa ty :
  session_frame s sa ->
  doc_kept (Session.documentData ty s) (Session.documentData ty sa).
Proof. intros (_ & _ & _ & Fd). apply Fd. Qed.

(** A resolved decision at a document confirmation, with the transport
    delivering. *)
Lemma document_decision env message w s st ty txt :
  sessions w !! from_id message = Some s ->
  Session.step s = Some st ->
  confirmed_document st = Some ty ->
  getContentType message = CText ->
  text message = Some txt ->
  transport_up env ->
  let chat_id := from_id message in
  let s' := session_of chat_id (snd (handleWebhook env message w)) in
  exists sa,
    session_frame s sa
    /\ (decision_of env chat_id txt s = Some DecNo ->
        Session.documentData ty s' = Null
        /\ _stepIndex s' = Nat.pred (_stepIndex s)
        /\ awaitingManualInput s' = awaitingManualInput s
        /\ forall ty', ty <> ty' ->
             Session.documentData ty' s' = Session.documentData ty' sa)
    /\ (decision_of env chat_id txt s = Some DecYes ->
        _stepIndex s' = S (_stepIndex s)
        /\ awaitingManualInput s' = awaitingManualInput s
        /\ forall ty', Session.documentData ty' s' = Session.documentData ty' sa).
Proof.
  intros Hs Hst Hty Hct Htxt Hup. cbv zeta.
  destruct (confirmed_config env st ty Hty) as (config & Hcfg & Hacc & Hrej).
  destruct (confirmation_messages env st config Hcfg) as [messages Hm].
  rewrite (handleWebhook_confirmation env message w s st config Hs Hst Hcfg Hct).
  rewrite handleConfirmation_run. cbv zeta.
  rewrite (text_of_Some _ _ Htxt).
  rewrite (session_of_lookup _ (console_logged s w) _ Hs).
  destruct (agent_world_session env (from_id message) txt
              (Some AI_CONFIRMATION_INSTRUCTION) (console_logged s w)
              (from_id message) s Hs) as (sa & Hsa & Fa).
  exists sa. split; [exact Fa |].
  pose proof Fa as (Fi & _ & Ff & _).
  assert (_stepIndex s < 7)%nat as Hlt.
  { apply step_is in Hst. rewrite Hst.
    destruct st; try discriminate Hty; simpl; lia. }
  assert ((_stepIndex sa <? 7)%nat = true) as Hltb
    by (apply Nat.ltb_lt; lia).
  assert (forall d m wc sc,
             sessions wc !! from_id message = Some sc ->
             session_of (from_id message)
               (snd (let (r, w') :=
                       resolve_decision env config (from_id message) d m wc in
                     match r with
                     | Ret _ => (Ret tt, w')
                     | Throw =>
                         if tg_sendMessage env (from_id message)
                              (retryPrompt (stepConfigs env st))
                         then (Ret tt,
                               sent env (from_id message)
                                 (retryPrompt (stepConfigs env st))
                                 (add_event LogError w'))
                         else (Ret tt,
                               add_event LogError
                                 (sent env (from_id message)
                                    (retryPrompt (stepConfigs env st))
                                    (add_event LogError w')))
                     end))
             = match d with
               | DecYes =>
                   Session.nextStep
                     (Session.addToConversationHistory m RoleAssistant sc)
               | DecNo =>
                   Session.prevStep
                     (Session.setDocumentData ty Null
                        (Session.addToConversationHistory m RoleAssistant sc))
               end) as Hres.
  { intros d m wc sc Hsc. unfold resolve_decision. rewrite Hup.
    destruct d.
    - rewrite (acceptPath_default _ _ _ Hacc). cbn [snd].
      apply session_of_lookup. lookup_solve.
    - rewrite Hrej. cbn [snd]. apply session_of_lookup. lookup_solve. }
  unfold decision_of.
  destruct (agentReply _) as [[reply h] |].
  - destruct (endsWith reply "[CONFIRMED]").
    { erewrite Hres by lookup_solve.
      split; [discriminate |]. intros _.
      autorewrite with session_db. rewrite Hltb, Fi.
      repeat split; try assumption.
      intros ty'. autorewrite with session_db. reflexivity. }
    destruct (endsWith reply "[REJECTED]").
    { erewrite Hres by lookup_solve.
      split; [| discriminate]. intros _.
      autorewrite with session_db. rewrite Fi.
      repeat split; try assumption.
      intros ty' Hne. autorewrite with session_db.
      rewrite (setDocumentData_other _ _ _ _ Hne).
      autorewrite with session_db. reflexivity. }
    split; discriminate.
  - assert (sessions (manual_world env (from_id message) txt (console_logged s w))
            !! from_id message = Some sa) as Hma by exact Hsa.
    rewrite (session_of_lookup _ _ _ Hma).
    replace (Session.step sa) with (Some st)
      by (rewrite <- Hst; symmetry; apply step_by_index, Fi).
    rewrite Hm.
    destruct (guessDecision txt).
    + erewrite Hres by exact Hma.
      split; [discriminate |]. intros _.
      autorewrite with session_db. rewrite Hltb, Fi.
      repeat split; try assumption.
      intros ty'. autorewrite with session_db. reflexivity.
    + erewrite Hres by exact Hma.
      split; [| discriminate]. intros _.
      autorewrite with session_db. rewrite Fi.
      repeat split; try assumption.
      intros ty' Hne. autorewrite with session_db.
      rewrite (setDocumentData_other _ _ _ _ Hne).
      autorewrite with session_db. reflexivity.
    + split; discriminate.
Qed.

Lemma keeps_document_refl ty s : keeps_document ty s s.
Proof. apply doc_kept_refl. Qed.

Lemma keeps_document_trans ty a b c :
  keeps_document ty a b -> keeps_document ty b c -> keeps_document ty a c.
Proof. apply doc_kept_trans. Qed.

Lemma keeps_document_tool ty s ty0 fields :
  keeps_document ty s (Session.setDocumentData ty0 (Structured fields) s).
Proof.
  unfold keeps_document. destruct ty, ty0; simpl; unfold doc_kept; eauto.
Qed.

Lemma keeps_document_setConversation ty s h :
  keeps_document ty s (Session.setConversation h s).
Proof.
  unfold keeps_document. rewrite setConversation_document. apply doc_kept_refl.
Qed.

Lemma keeps_document_add ty s item role :
  keeps_document ty s (Session.addToConversationHistory item role s).
Proof.
  unfold keeps_document. rewrite addToConversationHistory_document.
  apply doc_kept_refl.
Qed.

Lemma keeps_document_nextStep ty s : keeps_document ty s (Session.nextStep s).
Proof. unfold keeps_document. rewrite nextStep_document. apply doc_kept_refl. Qed.

Lemma keeps_document_flag ty s b :
  keeps_document ty s (Session.setAwaitingManualInput b s).
Proof.
  unfold keeps_document. rewrite setAwaitingManualInput_document.
  apply doc_kept_refl.
Qed.

Lemma keeps_document_other ty ty0 d s :
  ty0 <> ty -> keeps_document ty s (Session.setDocumentData ty0 d s).
Proof.
  intros Hne. unfold keeps_document.
  rewrite (setDocumentData_other _ _ _ _ Hne). apply doc_kept_refl.
Qed.

Lemma relates_getFileUrl R env message fileType :
  (forall s, R s s) ->
  (forall a b c, R a b -> R b c -> R a c) ->
  relates R (getFileUrl env message fileType).
Proof.
  intros Rr Rt. unfold relates, getFileUrl, fetchFileUrl. repeat relates_step.
Qed.

(** The pipeline for one document never clears or overwrites with raw
    text the other one. *)
Lemma processDocument_keeps_other env chat_id contentType message ty ty' :
  ty <> ty' ->
  relates (keeps_document ty')
    (processDocument env chat_id contentType message {| documentType := ty |}).
Proof.
  intros Hne.
  pose proof (keeps_document_refl ty') as Rr.
  pose proof (keeps_document_trans ty') as Rt.
  pose proof (keeps_document_tool ty') as Rtool.
  pose proof (keeps_document_setConversation ty') as Rc.
  pose proof (keeps_document_add ty') as Ra.
  unfold relates, processDocument, handleManualInput, tier1_agent,
    tier2_mindee, tier3_manual. cbn [documentType].
  repeat first
    [ apply (relates_getFileUrl (keeps_document ty')); assumption
    | relates_step
    | apply Ra
    | apply Rc
    | apply keeps_document_nextStep
    | apply keeps_document_flag
    | apply keeps_document_other; exact Hne ].
Qed.

Lemma awaiting_keeps_other env message w s st ty ty' :
  sessions w !! from_id message = Some s ->
  Session.step s = Some st ->
  awaited_document st = Some ty ->
  ty <> ty' ->
  keeps_document ty' s
    (session_of (from_id message) (snd (handleWebhook env message w))).
Proof.
  intros Hs Hst Hty Hne.
  destruct (bool_decide (getContentType message = CUnsupported)
            || negb (bool_decide (getContentType message
                                    ∈ expectsContent (stepConfigs env st))
                     || Session.manualInputPending s
                          && bool_decide (getContentType message = CText)))
    eqn:Hroute.
  - destruct (handleWebhook_unexpected env message w s st Hs Hst Hroute)
      as (s' & Hs' & _ & _ & Hd).
    rewrite (session_of_lookup _ _ _ Hs'). apply Hd.
  - apply orb_false_iff in Hroute as [Hsup Hexp].
    apply negb_false_iff in Hexp.
    apply bool_decide_eq_false in Hsup.
    unfold session_of.
    rewrite (handleWebhook_sessions env message w s st Hs Hst Hsup Hexp).
    assert (handler (stepConfigs env st)
            = (fun chat_id contentType message =>
                 processDocument env chat_id contentType message
                   {| documentType := ty |})) as ->
      by (destruct st; try discriminate Hty; injection Hty as <-; reflexivity).
    destruct (relates_Some _ _ (console_logged s w) (from_id message) s
                (keeps_document_refl ty')
                (processDocument_keeps_other env (from_id message)
                   (getContentType message) message ty ty' Hne) Hs)
      as (s' & Hs' & Hk).
    rewrite Hs'. exact Hk.
Qed.

Lemma session_of_present chat_id w st :
  Session.step (session_of chat_id w) = Some st ->
  st <> start ->
  sessions w !! chat_id = Some (session_of chat_id w).
Proof.
  unfold session_of. destruct (sessions w !! chat_id) as [s |]; [reflexivity |].
  simpl. intros [= <-] H. contradiction.
Qed.




(* ================================================================== *)
(** ** The documents at the confirmation steps *)
(* ================================================================== *)

Lemma document_present_index s :
  _stepIndex s <> 2%nat -> _stepIndex s <> 4%nat -> document_present s.
Proof.
  intros H2 H4 st ty Hst Hty. apply step_is in Hst.
  destruct st; try discriminate Hty; simpl in Hst; congruence.
Qed.

Lemma document_present_new : document_present Session.new.
Proof. apply document_present_index; discriminate. Qed.

Lemma present_kept d d' : doc_kept d d' -> present d = true -> present d' = true.
Proof. intros [-> | [f ->]]; auto. Qed.

Lemma document_present_same_step s s' :
  same_step s s' -> document_present s -> document_present s'.
Proof.
  intros (Hi & _ & Hd) Hp st ty Hst Hty.
  eapply present_kept; [apply Hd |].
  apply (Hp st ty); [| exact Hty].
  rewrite <- Hst. symmetry. apply step_by_index, Hi.
Qed.

(** A step forward from a document-awaiting step with the document in
    place, or no step at all. *)
Lemma document_present_awaiting s s' st ty :
  Session.step s = Some st ->
  awaited_document st = Some ty ->
  _stepIndex s' = _stepIndex s
  \/ (_stepIndex s' = S (_stepIndex s)
      /\ present (Session.documentData ty s') = true) ->
  document_present s'.
Proof.
  intros Hst Hty Hmove. apply step_is in Hst.
  destruct Hmove as [Hi | [Hi Hp]].
  - apply document_present_index; rewrite Hi, Hst;
      destruct st; try discriminate Hty; discriminate.
  - intros st' ty' Hst' Hty'. apply step_is in Hst'.
    rewrite Hi, Hst in Hst'.
    destruct st; try discriminate Hty; injection Hty as <-;
      destruct st'; try discriminate Hty'; try discriminate Hst';
      injection Hty' as <-; exact Hp.
Qed.

(** *** The tools store what they extract *)

Lemma execute_tool_run env tc w :
  execute_tool env tc w = (Ret tt, after_tools env [tc] w).
Proof.
  pose proof (execute_tools_run env [tc] w) as H. simpl in H.
  unfold bind in H. destruct (execute_tool_frame env tc w) as [E _].
  destruct (execute_tool env tc w) as [r w1]. simpl in E. subst r.
  unfold ret in H. exact H.
Qed.

Lemma after_tools_cons env tc rest w :
  after_tools env (tc :: rest) w = after_tools env rest (after_tools env [tc] w).
Proof.
  unfold after_tools. simpl. unfold bind.
  destruct (execute_tool_frame env tc w) as [E _].
  destruct (execute_tool env tc w) as [r w1]. simpl in E. subst r.
  simpl. destruct (execute_tools env rest w1). reflexivity.
Qed.

Lemma after_tool_stores env tc w data :
  mindee_extractData env (tc_url tc) (tc_tool tc) = Some data ->
  exists s', sessions (after_tools env [tc] w) !! tc_chat_id tc = Some s'
             /\ Session.documentData (tc_tool tc) s' = Structured data.
Proof.
  intros Hex. unfold after_tools. simpl. unfold bind, execute_tool.
  rewrite Hex. unfold bind, sessionStorage_get.
  destruct (sessions w !! tc_chat_id tc) as [s0 |] eqn:E; simpl.
  - rewrite lookup_alter_eq, E. simpl. eexists. split; [reflexivity |].
    apply setDocumentData_same.
  - rewrite lookup_alter_eq, lookup_insert_eq. simpl.
    eexists. split; [reflexivity |]. apply setDocumentData_same.
Qed.

Lemma after_tools_stored env tcs w chat_id ty :
  (exists tc, tc ∈ tcs /\ tc_chat_id tc = chat_id /\ tc_tool tc = ty
              /\ is_Some (mindee_extractData env (tc_url tc) ty)) ->
  exists s' fields,
    sessions (after_tools env tcs w) !! chat_id = Some s'
    /\ Session.documentData ty s' = Structured fields.
Proof.
  revert w. induction tcs as [| tc0 rest IH]; intros w (tc & Hin & Hc & Ht & Hex).
  - apply elem_of_nil in Hin. contradiction.
  - rewrite after_tools_cons.
    apply elem_of_cons in Hin as [-> | Hin];
      [| apply IH; exists tc; auto].
    destruct Hex as [data Hex]. subst chat_id ty.
    destruct (after_tool_stores env tc0 w data Hex) as (s1 & H1 & D1).
    destruct (after_tools_session env rest _ _ _ H1) as (s2 & H2 & F2).
    destruct F2 as (_ & _ & _ & Fd).
    destruct (Fd (tc_tool tc0)) as [E | [f E]].
    + exists s2, data. split; [exact H2 | congruence].
    + exists s2, f. auto.
Qed.

(** *** The pipeline moves a session forward only with its document *)

Lemma tier23_moves env chat_id ty url W sW :
  sessions W !! chat_id = Some sW ->
  (_stepIndex sW <? 7)%nat = true ->
  exists s',
    sessions
      (snd (match tier2_mindee env chat_id {| documentType := ty |} url W with
            | (Ret true, w2) => (Ret tt, w2)
            | (Ret false, w2) => tier3_manual env chat_id {| documentType := ty |} w2
            | (Throw, w2) => (Throw, w2)
            end)) !! chat_id = Some s'
    /\ (_stepIndex s' = _stepIndex sW
        \/ (_stepIndex s' = S (_stepIndex sW)
            /\ present (Session.documentData ty s') = true)).
Proof.
  intros HW Hltb. rewrite tier2_mindee_run. cbv zeta. cbn [documentType].
  destruct (mindee_extractData env url ty) as [data |].
  - destruct (tg_sendMessage env chat_id (createDocumentSummary data ty)).
    + eexists. split; [cbn [snd]; lookup_solve |].
      autorewrite with session_db. rewrite Hltb. right. split; reflexivity.
    + rewrite tier3_manual_run. cbv zeta. cbn [documentType].
      destruct (tg_sendMessage env chat_id (apologyMsg ty));
        (eexists; split; [cbn [snd]; lookup_solve |]);
        autorewrite with session_db; left; reflexivity.
  - rewrite tier3_manual_run. cbv zeta. cbn [documentType].
    destruct (tg_sendMessage env chat_id (apologyMsg ty));
      (eexists; split; [cbn [snd]; lookup_solve |]);
      autorewrite with session_db; left; reflexivity.
Qed.

Lemma processDocument_moves env chat_id contentType message ty w s st :
  sessions w !! chat_id = Some s ->
  Session.step s = Some st ->
  awaited_document st = Some ty ->
  agent_stores env chat_id ->
  exists s',
    sessions (snd (processDocument env chat_id contentType message
                     {| documentType := ty |} w)) !! chat_id = Some s'
    /\ (_stepIndex s' = _stepIndex s
        \/ (_stepIndex s' = S (_stepIndex s)
            /\ present (Session.documentData ty s') = true)).
Proof.
  intros Hs Hst Hty Hagent.
  assert ((_stepIndex s <? 7)%nat = true) as Hltb.
  { apply Nat.ltb_lt. apply step_is in Hst. rewrite Hst.
    destruct st; try discriminate Hty; simpl; lia. }
  destruct (Session.manualInputPending (session_of chat_id w)
              && bool_decide (contentType = CText)) eqn:Hshort.
  { unfold processDocument. run. rewrite Hshort.
    rewrite handleManualInput_run. cbv zeta. cbn [documentType].
    destruct (tg_sendMessage env chat_id _);
      (eexists; split; [cbn [snd]; lookup_solve |]);
      autorewrite with session_db; rewrite ?Hltb;
      [right; split; reflexivity | left; reflexivity]. }
  destruct (getFileUrl_cases env message (fileTypeOf contentType) w)
    as [(url & Hurl & _) | (r & w0 & Hget & Hr & Hw0)].
  2: { unfold processDocument. run. rewrite Hshort.
       fold (fileTypeOf contentType). run. rewrite Hget.
       assert (sessions w0 !! chat_id = Some s) as Hs0
         by (destruct Hw0 as [-> | ->]; exact Hs).
       destruct r as [[url | msg] |].
       - exfalso. apply (Hr url). reflexivity.
       - rewrite sendMessage_run. exists s. split; [exact Hs0 | left; reflexivity].
       - exists s. split; [exact Hs0 | left; reflexivity]. }
  rewrite (processDocument_run _ _ _ _ _ _ url Hshort Hurl).
  unfold tiers.
  destruct (tg_sendMessage env chat_id processingMessage);
    [| exists s; split; [exact Hs | left; reflexivity]].
  rewrite tier1_agent_run. cbv zeta. cbn [documentType].
  change (session_of chat_id (sent env chat_id processingMessage w))
    with (session_of chat_id w).
  rewrite (session_of_lookup _ _ _ Hs).
  destruct (agent_world_session env chat_id (agentPrompt ty url)
              (Some FAILED_INSTRUCTION) (sent env chat_id processingMessage w)
              chat_id s Hs) as (sa & Hsa & Fi & _).
  assert ((_stepIndex sa <? 7)%nat = true) as Hltba by (rewrite Fi; exact Hltb).
  assert (forall W sW,
             sessions W !! chat_id = Some sW ->
             _stepIndex sW = _stepIndex sa ->
             exists s',
               sessions
                 (snd (match tier2_mindee env chat_id {| documentType := ty |}
                               url (caught_agent chat_id W) with
                       | (Ret true, w2) => (Ret tt, w2)
                       | (Ret false, w2) =>
                           tier3_manual env chat_id {| documentType := ty |} w2
                       | (Throw, w2) => (Throw, w2)
                       end)) !! chat_id = Some s'
               /\ (_stepIndex s' = _stepIndex s
                   \/ (_stepIndex s' = S (_stepIndex s)
                       /\ present (Session.documentData ty s') = true)))
    as Hfall.
  { intros W sW HW Hi.
    destruct (tier23_moves env chat_id ty url (caught_agent chat_id W) sW)
      as (s' & Hs' & Hm); [exact HW | rewrite Hi; exact Hltba |].
    exists s'. split; [exact Hs' |]. rewrite Hi, Fi in Hm. exact Hm. }
  destruct (agentReply _) as [[reply h] |] eqn:Hreply.
  - destruct (endsWith reply "[FAILED]") eqn:Hfailed.
    + destruct (tg_sendMessage env chat_id _).
      * eexists. split; [cbn [snd]; lookup_solve |].
        autorewrite with session_db. left. exact Fi.
      * eapply Hfall; [lookup_solve | reflexivity].
    + destruct (tg_sendMessage env chat_id reply).
      * eexists. split; [cbn [snd]; lookup_solve |].
        autorewrite with session_db. rewrite Hltba, Fi.
        right. split; [reflexivity |].
        pose proof (Hagent ty url s reply h Hreply Hfailed) as Htc.
        destruct (after_tools_stored env _
                    (add_event (RunAgent chat_id (agentPrompt ty url))
                       (sent env chat_id processingMessage w))
                    chat_id ty Htc) as (s2 & f & H2 & D2).
        assert (s2 = sa) as ->.
        { unfold agent_world in Hsa.
          rewrite (session_of_lookup _ (sent env chat_id processingMessage w)
                     _ Hs) in Hsa.
          congruence. }
        rewrite D2. reflexivity.
      * eapply Hfall; [lookup_solve | reflexivity].
  - eapply Hfall; [exact Hsa | reflexivity].
Qed.

Lemma same_step_add_r a b item role :
  same_step a b -> same_step a (Session.addToConversationHistory item role b).
Proof. intros H. eapply same_step_trans; [exact H | apply same_step_add]. Qed.

Lemma same_step_setConversation_r a b h :
  same_step a b -> same_step a (Session.setConversation h b).
Proof.
  intros H. eapply same_step_trans; [exact H | apply same_step_setConversation].
Qed.

Ltac same_step_solve :=
  repeat first [ apply same_step_add_r | apply same_step_setConversation_r ];
  first [ apply session_frame_same_step; assumption | apply same_step_refl ].

(** A document confirmation leaves the session where it is, or moves it
    by one step, forwards or backwards. *)
Lemma confirmation_moves env chat_id message st ty w s :
  sessions w !! chat_id = Some s ->
  Session.step s = Some st ->
  confirmed_document st = Some ty ->
  exists config s',
    confirmation_config env st = Some config
    /\ sessions (snd (handleConfirmation env chat_id CText message config w))
       !! chat_id = Some s'
    /\ (same_step s s'
        \/ _stepIndex s' = S (_stepIndex s)
        \/ _stepIndex s' = Nat.pred (_stepIndex s)).
Proof.
  intros Hs Hst Hty.
  destruct (confirmed_config env st ty Hty) as (config & Hcfg & Hacc & Hrej).
  exists config.
  assert ((_stepIndex s <? 7)%nat = true) as Hltb.
  { apply Nat.ltb_lt. apply step_is in Hst. rewrite Hst.
    destruct st; try discriminate Hty; simpl; lia. }
  destruct (agent_world_session env chat_id (text_of message)
              (Some AI_CONFIRMATION_INSTRUCTION) w chat_id s Hs)
    as (sa & Hsa & Fa).
  pose proof Fa as (Fi & _).
  assert (forall d m W sW,
             sessions W !! chat_id = Some sW ->
             same_step s sW ->
             exists s',
               sessions (snd (resolve_decision env config chat_id d m W))
               !! chat_id = Some s'
               /\ (same_step s s'
                   \/ _stepIndex s' = S (_stepIndex s)
                   \/ _stepIndex s' = Nat.pred (_stepIndex s))) as Hres.
  { intros d m W sW HW HsW. pose proof HsW as (Hi & _).
    unfold resolve_decision.
    destruct (tg_sendMessage env chat_id m).
    - destruct d.
      + rewrite (acceptPath_default _ _ _ Hacc).
        eexists. split; [cbn [snd]; lookup_solve |].
        right. left. autorewrite with session_db. rewrite Hi, Hltb. reflexivity.
      + rewrite Hrej. eexists. split; [cbn [snd]; lookup_solve |].
        right. right. autorewrite with session_db. rewrite Hi. reflexivity.
    - exists sW. split; [exact HW | left; exact HsW]. }
  assert (same_step s sa) as Hssa by (apply session_frame_same_step, Fa).
  cut (exists s',
          sessions (snd (handleConfirmation env chat_id CText message config w))
          !! chat_id = Some s'
          /\ (same_step s s'
              \/ _stepIndex s' = S (_stepIndex s)
              \/ _stepIndex s' = Nat.pred (_stepIndex s))).
  { intros (s' & H1 & H2). exists s'. auto. }
  rewrite handleConfirmation_run. cbv zeta.
  rewrite (session_of_lookup _ _ _ Hs).
  destruct (agentReply _) as [[reply h] |].
  - destruct (endsWith reply "[CONFIRMED]").
    { eapply Hres; [lookup_solve | same_step_solve]. }
    destruct (endsWith reply "[REJECTED]").
    { eapply Hres; [lookup_solve | same_step_solve]. }
    destruct (tg_sendMessage env chat_id reply);
      (eexists; split; [cbn [snd]; lookup_solve | left; same_step_solve]).
  - assert (sessions (manual_world env chat_id (text_of message) w) !! chat_id
            = Some sa) as Hma by exact Hsa.
    destruct (guessDecision (text_of message)).
    + destruct (messagesFor _).
      * eapply Hres; [exact Hma | exact Hssa].
      * exists sa. split; [exact Hma | left; exact Hssa].
    + destruct (messagesFor _).
      * eapply Hres; [exact Hma | exact Hssa].
      * exists sa. split; [exact Hma | left; exact Hssa].
    + exists sa. split; [exact Hma | left; exact Hssa].
Qed.

(** *** One handled update keeps the documents in place *)

Lemma others_refl chat_id k s : others_same_step chat_id k s s.
Proof. right. apply same_step_refl. Qed.

Lemma others_trans chat_id k a b c :
  others_same_step chat_id k a b -> others_same_step chat_id k b c ->
  others_same_step chat_id k a c.
Proof.
  intros [-> | H1] [E | H2]; try (left; congruence).
  right. eapply same_step_trans; eassumption.
Qed.

Lemma others_tool chat_id k s ty fields :
  others_same_step chat_id k s
    (Session.setDocumentData ty (Structured fields) s).
Proof. right. apply same_step_tool. Qed.

Lemma others_own chat_id s s' : others_same_step chat_id chat_id s s'.
Proof. left. reflexivity. Qed.

Ltac others_solve chat_id :=
  pose proof (others_refl chat_id) as Rr;
  pose proof (others_trans chat_id) as Rt;
  pose proof (others_tool chat_id) as Rtool;
  repeat first
    [ relates_step
    | apply others_own
    | apply (relates_execute_tools (others_same_step chat_id)); rel_hyp ].

Lemma others_sendPolicy env chat_id :
  relates_at (others_same_step chat_id) (sendPolicy env chat_id).
Proof. unfold sendPolicy. others_solve chat_id. Qed.

Lemma others_processDocument env chat_id contentType message config :
  relates_at (others_same_step chat_id)
    (processDocument env chat_id contentType message config).
Proof.
  unfold processDocument, getFileUrl, fetchFileUrl, handleManualInput,
    tier1_agent, tier2_mindee, tier3_manual.
  others_solve chat_id.
Qed.

Lemma others_handleConfirmation env chat_id contentType message st config :
  confirmation_config env st = Some config ->
  relates_at (others_same_step chat_id)
    (handleConfirmation env chat_id contentType message config).
Proof.
  intros Hcfg.
  assert (relates_at (others_same_step chat_id) (acceptPath config chat_id)) as HA.
  { destruct st; try discriminate Hcfg; injection Hcfg as <-;
      unfold acceptPath; simpl; others_solve chat_id.
    apply others_sendPolicy. }
  assert (relates_at (others_same_step chat_id) (rejectPath config chat_id)) as HR.
  { destruct st; try discriminate Hcfg; injection Hcfg as <-;
      unfold rejectPath; simpl; others_solve chat_id. }
  unfold handleConfirmation, getAIConfirmation, getMessagesForStep. cbv zeta.
  pose proof (others_refl chat_id) as Rr.
  pose proof (others_trans chat_id) as Rt.
  pose proof (others_tool chat_id) as Rtool.
  repeat first [ assumption | relates_step | apply others_own ].
Qed.

Lemma others_handler env st chat_id contentType message :
  relates_at (others_same_step chat_id)
    (handler (stepConfigs env st) chat_id contentType message).
Proof.
  destruct st; simpl;
    try (apply (others_handleConfirmation _ _ _ _ confirming_passport);
         reflexivity);
    try (apply (others_handleConfirmation _ _ _ _ confirming_driversId);
         reflexivity);
    try (apply (others_handleConfirmation _ _ _ _ confirming_price);
         reflexivity);
    try apply others_processDocument;
    try apply others_sendPolicy;
    others_solve chat_id.
Qed.

Lemma others_handleWebhook env message :
  relates_at (others_same_step (from_id message)) (handleWebhook env message).
Proof.
  unfold handleWebhook, routeMessage. cbv zeta.
  pose proof (others_refl (from_id message)) as Rr.
  pose proof (others_trans (from_id message)) as Rt.
  pose proof (others_tool (from_id message)) as Rtool.
  repeat first
    [ apply others_handler
    | relates_step
    | apply others_own ].
Qed.

Lemma confirmation_content env message s st config :
  confirmation_config env st = Some config ->
  bool_decide (getContentType message ∈ expectsContent (stepConfigs env st))
    || Session.manualInputPending s
         && bool_decide (getContentType message = CText) = true ->
  getContentType message = CText.
Proof.
  intros Hcfg Hexp.
  destruct (confirmation_expects env st config Hcfg) as [He _].
  rewrite He in Hexp.
  destruct (getContentType message); try reflexivity; simpl in Hexp;
    rewrite ?andb_false_r in Hexp; discriminate.
Qed.

Lemma handleWebhook_keeps_documents env message w s :
  sessions w !! from_id message = Some s ->
  document_present s ->
  agent_stores env (from_id message) ->
  exists s',
    sessions (snd (handleWebhook env message w)) !! from_id message = Some s'
    /\ document_present s'.
Proof.
  intros Hs Hp Hagent.
  destruct (Session.step s) as [st |] eqn:Hst.
  2: { exists s. split; [| exact Hp].
       unfold handleWebhook. unfold try_catch at 1.
       unfold routeMessage. cbv zeta. run.
       rewrite (sessionStorage_get_present _ _ _ Hs). run.
       rewrite (session_of_lookup _ _ _ Hs), Hst. exact Hs. }
  destruct (bool_decide (getContentType message = CUnsupported)
            || negb (bool_decide (getContentType message
                                    ∈ expectsContent (stepConfigs env st))
                     || Session.manualInputPending s
                          && bool_decide (getContentType message = CText)))
    eqn:Hroute.
  { destruct (handleWebhook_unexpected env message w s st Hs Hst Hroute)
      as (s' & Hs' & Hsame).
    exists s'. split; [exact Hs' |].
    eapply document_present_same_step; eassumption. }
  apply orb_false_iff in Hroute as [Hsup Hexp].
  apply negb_false_iff in Hexp. apply bool_decide_eq_false in Hsup.
  rewrite (handleWebhook_sessions env message w s st Hs Hst Hsup Hexp).
  assert (sessions (console_logged s w) !! from_id message = Some s) as Hs0
    by exact Hs.
  pose proof (proj1 (step_is _ _) Hst) as Hidx.
  assert (forall (m : M unit),
             relates not_backwards m ->
             (5 <= _stepIndex s)%nat ->
             exists s',
               sessions (snd (m (console_logged s w))) !! from_id message
               = Some s'
               /\ document_present s') as Hlate.
  { intros m Hm Hge.
    destruct (relates_Some _ m _ _ _ not_backwards_refl Hm Hs0)
      as (s' & Hs' & Hnb).
    exists s'. split; [exact Hs' |].
    unfold not_backwards in Hnb.
    apply document_present_index; lia. }
  destruct st eqn:Est.
  - (* start *)
    simpl. run.
    destruct (tg_sendMessage env (from_id message) welcomeMessage);
      (eexists; split; [cbn [snd]; lookup_solve |]);
      apply document_present_index; autorewrite with session_db;
      rewrite Hidx; simpl; discriminate.
  - (* awaiting_passport *)
    destruct (processDocument_moves env (from_id message)
                (getContentType message) message passport
                (console_logged s w) s awaiting_passport Hs0 Hst eq_refl Hagent)
      as (s' & Hs' & Hm).
    exists s'. split; [exact Hs' |].
    exact (document_present_awaiting s s' awaiting_passport passport Hst
             eq_refl Hm).
  - (* confirming_passport *)
    pose proof (confirmation_content env message s confirming_passport _
                  eq_refl Hexp) as Hct.
    destruct (confirmation_moves env (from_id message) message
                confirming_passport passport (console_logged s w) s
                Hs0 Hst eq_refl) as (config & s' & Hcfg & Hs' & Hm).
    injection Hcfg as <-. simpl. rewrite Hct.
    exists s'. split; [exact Hs' |].
    destruct Hm as [Hsame | [Hi | Hi]].
    + eapply document_present_same_step; eassumption.
    + apply document_present_index; rewrite Hi, Hidx; discriminate.
    + apply document_present_index; rewrite Hi, Hidx; discriminate.
  - (* awaiting_driversId *)
    destruct (processDocument_moves env (from_id message)
                (getContentType message) message drivers_license
                (console_logged s w) s awaiting_driversId Hs0 Hst eq_refl Hagent)
      as (s' & Hs' & Hm).
    exists s'. split; [exact Hs' |].
    exact (document_present_awaiting s s' awaiting_driversId drivers_license
             Hst eq_refl Hm).
  - (* confirming_driversId *)
    pose proof (confirmation_content env message s confirming_driversId _
                  eq_refl Hexp) as Hct.
    destruct (confirmation_moves env (from_id message) message
                confirming_driversId drivers_license (console_logged s w) s
                Hs0 Hst eq_refl) as (config & s' & Hcfg & Hs' & Hm).
    injection Hcfg as <-. simpl. rewrite Hct.
    exists s'. split; [exact Hs' |].
    destruct Hm as [Hsame | [Hi | Hi]].
    + eapply document_present_same_step; eassumption.
    + apply document_present_index; rewrite Hi, Hidx; discriminate.
    + apply document_present_index; rewrite Hi, Hidx; discriminate.
  - (* confirming_price *)
    apply Hlate; [apply price_handler_not_backwards | rewrite Hidx; simpl; lia].
  - (* sending_policy *)
    apply Hlate; [| rewrite Hidx; simpl; lia].
    simpl. apply relates_sendPolicy;
      [apply not_backwards_refl | apply not_backwards_trans
       | apply not_backwards_nextStep].
  - (* completed *)
    apply Hlate; [| rewrite Hidx; simpl; lia].
    simpl. unfold relates. apply relates_sendMessage; intros k;
      first [apply not_backwards_refl | apply not_backwards_trans].
Qed.

Lemma handleWebhook_created env message w :
  sessions w !! from_id message = None ->
  handleWebhook env message w
  = handleWebhook env message (created (from_id message) w).
Proof.
  intros H. unfold handleWebhook, try_catch, routeMessage. cbv zeta.
  rewrite !bind_run. unfold sessionStorage_get.
  rewrite H. unfold created at 1. cbn [sessions].
  rewrite lookup_insert_eq. reflexivity.
Qed.

Lemma documents_present_created chat_id w :
  documents_present w -> documents_present (created chat_id w).
Proof.
  intros Hw k s. unfold created. simpl. intros Hk.
  apply lookup_insert_Some in Hk as [[_ <-] | [_ Hk]].
  - apply document_present_new.
  - apply (Hw _ _ Hk).
Qed.

Lemma documents_present_step env message w :
  documents_present w ->
  agent_stores env (from_id message) ->
  documents_present (snd (handleWebhook env message w)).
Proof.
  intros Hw Hagent.
  assert (exists w0 s0,
             handleWebhook env message w = handleWebhook env message w0
             /\ documents_present w0
             /\ sessions w0 !! from_id message = Some s0)
    as (w0 & s0 & -> & Hw0 & Hs0).
  { destruct (sessions w !! from_id message) as [s0 |] eqn:E.
    - exists w, s0. auto.
    - exists (created (from_id message) w), Session.new.
      split; [apply handleWebhook_created, E |].
      split; [apply documents_present_created, Hw |].
      unfold created. simpl. apply lookup_insert_eq. }
  intros k s' Hk.
  destruct (decide (k = from_id message)) as [-> | Hne].
  - destruct (handleWebhook_keeps_documents env message w0 s0 Hs0
                (Hw0 _ _ Hs0) Hagent) as (s1 & H1 & P1).
    rewrite H1 in Hk. injection Hk as <-. exact P1.
  - pose proof (others_handleWebhook env message w0 k) as Hrel.
    rewrite Hk in Hrel.
    destruct (sessions w0 !! k) as [s |] eqn:E; simpl in Hrel.
    + destruct Hrel as [-> | Hsame]; [contradiction |].
      eapply document_present_same_step; [exact Hsame | apply (Hw0 _ _ E)].
    + destruct Hrel as [-> | Hsame]; [contradiction |].
      eapply document_present_same_step;
        [exact Hsame | apply document_present_new].
Qed.

Lemma documents_present_handleAll updates w :
  documents_present w ->
  Forall (fun u => agent_stores (fst u) (from_id (snd u))) updates ->
  documents_present (handleAll updates w).
Proof.
  revert w. induction updates as [| [env message] rest IH]; intros w Hw Hall.
  - exact Hw.
  - simpl. apply Forall_cons in Hall as [H1 Hrest].
    apply IH; [| exact Hrest].
    apply documents_present_step; assumption.
Qed.



Lemma diligent_agent_stores : agent_stores diligent_agent 7.
Proof.
  intros ty url s reply h out Hreply Hfailed.
  destruct ty.
  - exists {| tc_tool := passport; tc_url := "https://files/large";
              tc_chat_id := 7 |}.
    repeat split; [set_solver | eexists; reflexivity].
  - exists {| tc_tool := drivers_license; tc_url := "https://files/large";
              tc_chat_id := 7 |}.
    repeat split; [set_solver | eexists; reflexivity].
Defined.


(* ================================================================== *)
(** ** How far one message moves a session *)
(* ================================================================== *)

Lemma tier23_index env chat_id config url W sW :
  sessions W !! chat_id = Some sW ->
  exists s',
    sessions
      (snd (match tier2_mindee env chat_id config url W with
            | (Ret true, w2) => (Ret tt, w2)
            | (Ret false, w2) => tier3_manual env chat_id config w2
            | (Throw, w2) => (Throw, w2)
            end)) !! chat_id = Some s'
    /\ (_stepIndex s' = _stepIndex sW
        \/ _stepIndex s' = _stepIndex (Session.nextStep sW)).
Proof.
  intros HW. rewrite tier2_mindee_run. cbv zeta.
  destruct (mindee_extractData env url (documentType config)) as [data |].
  - destruct (tg_sendMessage env chat_id _).
    + eexists. split; [cbn [snd]; lookup_solve |].
      autorewrite with session_db. right. reflexivity.
    + rewrite tier3_manual_run. cbv zeta.
      destruct (tg_sendMessage env chat_id _);
        (eexists; split; [cbn [snd]; lookup_solve |]);
        autorewrite with session_db; left; reflexivity.
  - rewrite tier3_manual_run. cbv zeta.
    destruct (tg_sendMessage env chat_id _);
      (eexists; split; [cbn [snd]; lookup_solve |]);
      autorewrite with session_db; left; reflexivity.
Qed.

(** The pipeline calls [nextStep] at most once, whatever path it takes. *)
Lemma processDocument_index env chat_id contentType message config w s :
  sessions w !! chat_id = Some s ->
  exists s',
    sessions (snd (processDocument env chat_id contentType message config w))
    !! chat_id = Some s'
    /\ (_stepIndex s' = _stepIndex s
        \/ _stepIndex s' = _stepIndex (Session.nextStep s)).
Proof.
  intros Hs.
  destruct (Session.manualInputPending (session_of chat_id w)
              && bool_decide (contentType = CText)) eqn:Hshort.
  { unfold processDocument. run. rewrite Hshort.
    rewrite handleManualInput_run. cbv zeta.
    destruct (tg_sendMessage env chat_id _);
      (eexists; split; [cbn [snd]; lookup_solve |]);
      autorewrite with session_db; [right | left]; reflexivity. }
  destruct (getFileUrl_cases env message (fileTypeOf contentType) w)
    as [(url & Hurl & _) | (r & w0 & Hget & Hr & Hw0)].
  2: { unfold processDocument. run. rewrite Hshort.
       fold (fileTypeOf contentType). run. rewrite Hget.
       assert (sessions w0 !! chat_id = Some s) as Hs0
         by (destruct Hw0 as [-> | ->]; exact Hs).
       destruct r as [[url | msg] |].
       - exfalso. apply (Hr url). reflexivity.
       - rewrite sendMessage_run. exists s. split; [exact Hs0 | left; reflexivity].
       - exists s. split; [exact Hs0 | left; reflexivity]. }
  rewrite (processDocument_run _ _ _ _ _ _ url Hshort Hurl).
  unfold tiers.
  destruct (tg_sendMessage env chat_id processingMessage);
    [| exists s; split; [exact Hs | left; reflexivity]].
  rewrite tier1_agent_run. cbv zeta.
  destruct (agent_world_session env chat_id (agentPrompt (documentType config) url)
              (Some FAILED_INSTRUCTION) (sent env chat_id processingMessage w)
              chat_id s Hs) as (sa & Hsa & Fi & _).
  assert (forall W sW,
             sessions W !! chat_id = Some sW ->
             _stepIndex sW = _stepIndex s ->
             exists s',
               sessions
                 (snd (match tier2_mindee env chat_id config
                               url (caught_agent chat_id W) with
                       | (Ret true, w2) => (Ret tt, w2)
                       | (Ret false, w2) => tier3_manual env chat_id config w2
                       | (Throw, w2) => (Throw, w2)
                       end)) !! chat_id = Some s'
               /\ (_stepIndex s' = _stepIndex s
                   \/ _stepIndex s' = _stepIndex (Session.nextStep s)))
    as Hfall.
  { intros W sW HW Hi.
    destruct (tier23_index env chat_id config url (caught_agent chat_id W) sW HW)
      as (s' & Hs' & Hm).
    exists s'. split; [exact Hs' |].
    rewrite nextStep_index in *. rewrite Hi in Hm. exact Hm. }
  destruct (agentReply _) as [[reply h] |].
  - destruct (endsWith reply "[FAILED]").
    + destruct (tg_sendMessage env chat_id _).
      * eexists. split; [cbn [snd]; lookup_solve |].
        autorewrite with session_db. left. exact Fi.
      * eapply Hfall; [lookup_solve |].
        autorewrite with session_db. exact Fi.
    + destruct (tg_sendMessage env chat_id reply).
      * eexists. split; [cbn [snd]; lookup_solve |].
        autorewrite with session_db. rewrite Fi. right. reflexivity.
      * eapply Hfall; [lookup_solve |].
        autorewrite with session_db. exact Fi.
  - eapply Hfall; [exact Hsa | exact Fi].
Qed.

(** *** Sending the policy *)

Lemma sendPolicy_delivered env chat_id W :
  policy_delivered env chat_id (session_of chat_id W) = true ->
  sendPolicy env chat_id W
  = (Ret tt, upd chat_id Session.nextStep (add_event (policy_event chat_id) W)).
Proof.
  unfold policy_delivered, policy_event. intros Hd. rewrite sendPolicy_run.
  destruct (policy_pdf env _) as [pdfBuffer |]; [| discriminate Hd].
  cbv zeta. rewrite Hd. reflexivity.
Qed.

Lemma sendPolicy_undelivered env chat_id W :
  policy_delivered env chat_id (session_of chat_id W) = false ->
  sessions (snd (sendPolicy env chat_id W)) = sessions W
  /\ exists l,
       events (snd (sendPolicy env chat_id W))
       = events W ++ l
           ++ [LogError;
               SendMessage chat_id policy_errorMessage
                 (tg_sendMessage env chat_id policy_errorMessage)]
       /\ policy_event chat_id ∉ l.
Proof.
  unfold policy_delivered, policy_event. intros Hd. rewrite sendPolicy_run.
  unfold policy_failed.
  destruct (policy_pdf env _) as [pdfBuffer |]; cbv zeta.
  - rewrite Hd. cbn [snd]. split; [reflexivity |].
    exists [SendDocument chat_id policy_successMessage false].
    split; [autorewrite with events_db; rewrite <- !app_assoc; reflexivity |].
    not_in_list.
  - cbn [snd]. split; [reflexivity |]. exists [].
    split; [autorewrite with events_db; rewrite <- !app_assoc; reflexivity |].
    apply not_elem_of_nil.
Qed.

(** *** The record of events only grows *)

Lemma appends_ret {A} (a : A) : appends (ret a).
Proof. intros w. exists []. symmetry. apply app_nil_r. Qed.

Lemma appends_throw {A} : appends (@throw A).
Proof. intros w. exists []. symmetry. apply app_nil_r. Qed.

Lemma appends_emit e : appends (emit e).
Proof. intros w. exists [e]. reflexivity. Qed.

Lemma appends_readSession chat_id : appends (readSession chat_id).
Proof. intros w. exists []. symmetry. apply app_nil_r. Qed.

Lemma appends_updateSession chat_id f : appends (updateSession chat_id f).
Proof. intros w. exists []. symmetry. apply app_nil_r. Qed.

Lemma appends_sessionStorage_get chat_id : appends (sessionStorage_get chat_id).
Proof.
  intros w. exists []. unfold sessionStorage_get.
  destruct (sessions w !! chat_id); symmetry; apply app_nil_r.
Qed.

Lemma appends_bind {A B} (m : M A) (k : A -> M B) :
  appends m -> (forall a, appends (k a)) -> appends (bind m k).
Proof.
  intros Hm Hk w. unfold bind. destruct (Hm w) as [l1 E1].
  destruct (m w) as [[a |] w1]; simpl in *.
  - destruct (Hk a w1) as [l2 E2]. exists (l1 ++ l2).
    rewrite E2, E1. symmetry. apply app_assoc.
  - exists l1. exact E1.
Qed.

Lemma appends_try_catch {A} (m h : M A) :
  appends m -> appends h -> appends (try_catch m h).
Proof.
  intros Hm Hh w. unfold try_catch. destruct (Hm w) as [l1 E1].
  destruct (m w) as [[a |] w1]; simpl in *.
  - exists l1. exact E1.
  - destruct (Hh w1) as [l2 E2]. exists (l1 ++ l2).
    rewrite E2, E1. symmetry. apply app_assoc.
Qed.

Create HintDb appends_db.
#[global] Hint Resolve appends_ret appends_throw appends_emit
  appends_readSession appends_updateSession appends_sessionStorage_get
  : appends_db.

Ltac appends_step :=
  match goal with
  | |- appends (bind _ _) => apply appends_bind; [| intros ?]
  | |- appends (try_catch _ _) => apply appends_try_catch
  | |- appends (if ?b then _ else _) => destruct b
  | |- appends (match ?x with _ => _ end) => destruct x
  | |- appends _ => solve [auto with appends_db]
  end.

Lemma appends_sendMessage env chat_id message :
  appends (sendMessage env chat_id message).
Proof. unfold sendMessage. cbv zeta. repeat appends_step. Qed.

Lemma appends_sendDocument env chat_id buffer caption :
  appends (sendDocument env chat_id buffer caption).
Proof. unfold sendDocument. cbv zeta. repeat appends_step. Qed.

Lemma appends_logError : appends logError.
Proof. apply appends_emit. Qed.

#[global] Hint Resolve appends_sendMessage appends_sendDocument
  appends_logError : appends_db.

Lemma appends_execute_tools env tcs : appends (execute_tools env tcs).
Proof.
  induction tcs as [| tc rest IH]; simpl; [auto with appends_db |].
  apply appends_bind; [| intros _; exact IH].
  unfold execute_tool. repeat appends_step.
Qed.

#[global] Hint Resolve appends_execute_tools : appends_db.

Lemma appends_promptAgent env chat_id userMessage instruction :
  appends (promptAgent env chat_id userMessage instruction).
Proof. unfold promptAgent. cbv zeta. repeat appends_step. Qed.

Lemma appends_sendPolicy env chat_id : appends (sendPolicy env chat_id).
Proof. unfold sendPolicy. repeat appends_step. Qed.

Lemma appends_getFileUrl env message fileType :
  appends (getFileUrl env message fileType).
Proof. unfold getFileUrl, fetchFileUrl. repeat appends_step. Qed.

Lemma appends_getMessagesForStep st : appends (getMessagesForStep st).
Proof. unfold getMessagesForStep. repeat appends_step. Qed.

#[global] Hint Resolve appends_promptAgent appends_sendPolicy
  appends_getFileUrl appends_getMessagesForStep : appends_db.

Lemma appends_processDocument env chat_id contentType message config :
  appends (processDocument env chat_id contentType message config).
Proof.
  unfold processDocument, handleManualInput, tier1_agent, tier2_mindee,
    tier3_manual.
  cbv zeta. repeat appends_step.
Qed.

Lemma appends_handleConfirmation env chat_id contentType message config :
  (forall cb, onAccept config = Some cb -> forall c, appends (cb c)) ->
  (forall cb, onReject config = Some cb -> forall c, appends (cb c)) ->
  appends (handleConfirmation env chat_id contentType message config).
Proof.
  intros Hacc Hrej.
  assert (appends (acceptPath config chat_id)) as Ha.
  { unfold acceptPath. destruct (onAccept config) as [cb |] eqn:E;
      [apply (Hacc cb eq_refl) | auto with appends_db]. }
  assert (appends (rejectPath config chat_id)) as Hr.
  { unfold rejectPath. destruct (onReject config) as [cb |] eqn:E;
      [apply (Hrej cb eq_refl) | auto with appends_db]. }
  unfold handleConfirmation, getAIConfirmation. cbv zeta.
  repeat first [ exact Ha | exact Hr | appends_step ].
Qed.

#[global] Hint Resolve appends_processDocument : appends_db.

Lemma appends_handler env st chat_id contentType message :
  appends (handler (stepConfigs env st) chat_id contentType message).
Proof.
  destruct st; simpl; try solve [repeat appends_step];
    apply appends_handleConfirmation; simpl; intros cb [= <-] c;
    repeat appends_step.
Qed.

#[global] Hint Resolve appends_handler : appends_db.

Lemma appends_handleWebhook env message : appends (handleWebhook env message).
Proof.
  unfold handleWebhook, routeMessage. cbv zeta. repeat appends_step.
Qed.

Lemma handleAll_app updates1 updates2 w :
  handleAll (updates1 ++ updates2) w = handleAll updates2 (handleAll updates1 w).
Proof.
  revert w. induction updates1 as [| [env m] rest IH]; intros w; simpl;
    [reflexivity | apply IH].
Qed.

Lemma appends_handleAll updates w :
  exists l, events (handleAll updates w) = events w ++ l.
Proof.
  revert w. induction updates as [| [env m] rest IH]; intros w; simpl.
  - exists []. symmetry. apply app_nil_r.
  - destruct (appends_handleWebhook env m w) as [l1 E1].
    destruct (IH (snd (handleWebhook env m w))) as [l2 E2].
    exists (l1 ++ l2). rewrite E2, E1. symmetry. apply app_assoc.
Qed.

Lemma new_events_elem w w' l e :
  events w' = events w ++ l -> e ∈ l -> e ∈ new_events w w'.
Proof. intros E Hin. rewrite (new_events_app _ _ _ E). exact Hin. Qed.

Lemma new_events_elem_inv w w' l e :
  events w' = events w ++ l -> e ∈ new_events w w' -> e ∈ l.
Proof. intros E Hin. rewrite (new_events_app _ _ _ E) in Hin. exact Hin. Qed.

(** *** The price confirmation: at most two steps forward *)

Lemma price_accept_run env chat_id W :
  acceptPath (confirming_price_config env) chat_id W
  = sendPolicy env chat_id (upd chat_id Session.nextStep W).
Proof. unfold acceptPath. simpl. run. reflexivity. Qed.

Lemma price_reject_run env chat_id W :
  rejectPath (confirming_price_config env) chat_id W = (Ret tt, W).
Proof. reflexivity. Qed.

Lemma price_resolve_index env chat_id d m W Wx s sW lx :
  sessions Wx !! chat_id = Some sW ->
  _stepIndex sW = _stepIndex s ->
  events Wx = events W ++ lx ->
  let W' := snd (resolve_decision env (confirming_price_config env) chat_id
                   d m Wx) in
  exists s',
    sessions W' !! chat_id = Some s'
    /\ (_stepIndex s' = _stepIndex s
        \/ _stepIndex s' = _stepIndex (Session.nextStep s)
        \/ (_stepIndex s' = _stepIndex (Session.nextStep (Session.nextStep s))
            /\ policy_event chat_id ∈ new_events W W')).
Proof.
  intros HWx Hi Hev. cbv zeta. unfold resolve_decision.
  destruct (tg_sendMessage env chat_id m) eqn:Hsend;
    [| exists sW; split; [cbn [snd]; lookup_solve | left; exact Hi]].
  destruct d.
  2: { rewrite price_reject_run. eexists. split; [cbn [snd]; lookup_solve |].
       left. autorewrite with session_db. exact Hi. }
  rewrite price_accept_run.
  set (WX := upd chat_id Session.nextStep
               (upd chat_id (Session.addToConversationHistory m RoleAssistant)
                  (sent env chat_id m Wx))).
  assert (sessions WX !! chat_id
          = Some (Session.nextStep
                    (Session.addToConversationHistory m RoleAssistant sW)))
    as HX by (subst WX; lookup_solve).
  assert (forall j, _stepIndex (Session.nextStep
                      (Session.addToConversationHistory m RoleAssistant sW)) = j ->
                    j = _stepIndex (Session.nextStep s)) as Hidx.
  { intros j <-. rewrite !nextStep_index.
    autorewrite with session_db. rewrite Hi. reflexivity. }
  destruct (policy_delivered env chat_id (session_of chat_id WX)) eqn:Hd.
  - rewrite (sendPolicy_delivered _ _ _ Hd). cbn [snd].
    eexists. split; [lookup_solve |]. right. right. split.
    + rewrite nextStep_index, (Hidx _ eq_refl), <- nextStep_index. reflexivity.
    + eapply new_events_elem;
        [subst WX; autorewrite with events_db; rewrite Hev, <- !app_assoc;
         reflexivity |].
      set_solver.
  - destruct (sendPolicy_undelivered _ _ _ Hd) as [Es _]. rewrite Es.
    eexists. split; [exact HX |]. right. left. apply Hidx. reflexivity.
Qed.

Lemma price_index env chat_id message W s :
  sessions W !! chat_id = Some s ->
  let W' := snd (handleConfirmation env chat_id CText message
                   (confirming_price_config env) W) in
  exists s',
    sessions W' !! chat_id = Some s'
    /\ (_stepIndex s' = _stepIndex s
        \/ _stepIndex s' = _stepIndex (Session.nextStep s)
        \/ (_stepIndex s' = _stepIndex (Session.nextStep (Session.nextStep s))
            /\ policy_event chat_id ∈ new_events W W')).
Proof.
  intros Hs. cbv zeta.
  destruct (agent_world_session env chat_id (text_of message)
              (Some AI_CONFIRMATION_INSTRUCTION) W chat_id s Hs)
    as (sa & Hsa & Fi & _).
  rewrite handleConfirmation_run. cbv zeta.
  destruct (agentReply _) as [[reply h] |].
  - destruct (endsWith reply "[CONFIRMED]").
    { eapply price_resolve_index;
        [lookup_solve | autorewrite with session_db; exact Fi
         | autorewrite with events_db; reflexivity]. }
    destruct (endsWith reply "[REJECTED]").
    { eapply price_resolve_index;
        [lookup_solve | autorewrite with session_db; exact Fi
         | autorewrite with events_db; reflexivity]. }
    destruct (tg_sendMessage env chat_id reply);
      (eexists; split; [cbn [snd]; lookup_solve |]); left;
      autorewrite with session_db; exact Fi.
  - assert (sessions (manual_world env chat_id (text_of message) W) !! chat_id
            = Some sa) as Hma by exact Hsa.
    destruct (guessDecision (text_of message)).
    + destruct (messagesFor _).
      * eapply price_resolve_index;
          [exact Hma | exact Fi | autorewrite with events_db; reflexivity].
      * exists sa. split; [exact Hma | left; exact Fi].
    + destruct (messagesFor _).
      * eapply price_resolve_index;
          [exact Hma | exact Fi | autorewrite with events_db; reflexivity].
      * exists sa. split; [exact Hma | left; exact Fi].
    + eexists. split; [cbn [snd]; lookup_solve | left; exact Fi].
Qed.

(** *** One message *)

Lemma handleWebhook_expected_events env message w s st :
  sessions w !! from_id message = Some s ->
  Session.step s = Some st ->
  getContentType message <> CUnsupported ->
  bool_decide (getContentType message ∈ expectsContent (stepConfigs env st))
    || Session.manualInputPending s
         && bool_decide (getContentType message = CText) = true ->
  exists l,
    events (snd (handleWebhook env message w))
    = events (snd (handler (stepConfigs env st) (from_id message)
                     (getContentType message) message (console_logged s w)))
        ++ l.
Proof.
  intros Hs Hst Hct Hexp.
  rewrite (handleWebhook_dispatch env message w s st Hs Hst Hct Hexp).
  destruct (handler _ _ _ _ _) as [[[] |] w1]; cbn [snd].
  - exists []. symmetry. apply app_nil_r.
  - cbv zeta. destruct (tg_sendMessage env _ _); cbn [snd];
      eexists; autorewrite with events_db; rewrite <- ?app_assoc; reflexivity.
Qed.

Lemma handled_event env message w s st e :
  sessions w !! from_id message = Some s ->
  Session.step s = Some st ->
  getContentType message <> CUnsupported ->
  bool_decide (getContentType message ∈ expectsContent (stepConfigs env st))
    || Session.manualInputPending s
         && bool_decide (getContentType message = CText) = true ->
  e ∈ new_events (console_logged s w)
        (snd (handler (stepConfigs env st) (from_id message)
                (getContentType message) message (console_logged s w))) ->
  e ∈ new_events w (snd (handleWebhook env message w)).
Proof.
  intros Hs Hst Hct Hexp Hin.
  destruct (handleWebhook_expected_events env message w s st Hs Hst Hct Hexp)
    as [l El].
  destruct (appends_handler env st (from_id message) (getContentType message)
              message (console_logged s w)) as [lh Eh].
  apply (new_events_elem_inv _ _ _ _ Eh) in Hin.
  eapply new_events_elem.
  - rewrite El, Eh. autorewrite with events_db. rewrite <- !app_assoc.
    reflexivity.
  - set_solver.
Qed.

(** One handled message leaves the sender's step where it is, or moves it
    one step forward, one step back (from a document confirmation), or two
    steps forward (from the price confirmation, with the policy
    delivered). *)
Lemma handleWebhook_index env message w s st :
  sessions w !! from_id message = Some s ->
  Session.step s = Some st ->
  let w' := snd (handleWebhook env message w) in
  exists s',
    sessions w' !! from_id message = Some s'
    /\ (_stepIndex s' = _stepIndex s
        \/ (_stepIndex s' = S (_stepIndex s)
            /\ st <> completed
            /\ (st = sending_policy ->
                policy_event (from_id message) ∈ new_events w w'))
        \/ (_stepIndex s' = Nat.pred (_stepIndex s)
            /\ is_Some (confirmed_document st))
        \/ (_stepIndex s' = S (S (_stepIndex s))
            /\ st = confirming_price
            /\ policy_event (from_id message) ∈ new_events w w')).
Proof.
  intros Hs Hst. cbv zeta.
  destruct (bool_decide (getContentType message = CUnsupported)
            || negb (bool_decide (getContentType message
                                    ∈ expectsContent (stepConfigs env st))
                     || Session.manualInputPending s
                          && bool_decide (getContentType message = CText)))
    eqn:Hun.
  { destruct (handleWebhook_unexpected env message w s st Hs Hst Hun)
      as (s' & Hs' & Hi & _).
    exists s'. split; [exact Hs' | left; exact Hi]. }
  apply orb_false_iff in Hun as [Hct Hexp].
  apply bool_decide_eq_false in Hct. apply negb_false_iff in Hexp.
  rewrite (handleWebhook_sessions env message w s st Hs Hst Hct Hexp).
  pose proof (handled_event env message w s st) as Hev.
  specialize (fun e => Hev e Hs Hst Hct Hexp).
  assert (sessions (console_logged s w) !! from_id message = Some s) as Hs1
    by lookup_solve.
  pose proof Hst as Hidx. apply step_is in Hidx.
  destruct st; cbn [handler stepConfigs] in *.
  - (* start *)
    unfold bind at 1. rewrite sendMessage_run.
    destruct (tg_sendMessage env _ _); cbn [snd].
    + eexists. split; [rewrite updateSession_run; cbn [snd]; lookup_solve |].
      right. left. autorewrite with session_db. rewrite Hidx.
      split; [reflexivity | split; [discriminate | discriminate]].
    + eexists. split; [lookup_solve | left; reflexivity].
  - (* awaiting_passport *)
    destruct (processDocument_index env (from_id message)
                (getContentType message) message awaiting_passport_config
                _ s Hs1) as (s' & Hs' & Hm).
    exists s'. split; [exact Hs' |]. rewrite nextStep_index, Hidx in Hm.
    destruct Hm as [Hm | Hm]; [left; congruence |].
    right. left. rewrite Hm, Hidx. repeat split; discriminate.
  - (* confirming_passport *)
    pose proof (confirmation_content env message s confirming_passport _
                  eq_refl Hexp) as Htext.
    rewrite Htext in *.
    destruct (confirmation_moves env (from_id message) message
                confirming_passport passport _ s Hs1 Hst eq_refl)
      as (config & s' & [= <-] & Hs' & Hm).
    exists s'. split; [exact Hs' |].
    destruct Hm as [(Hi & _) | [Hi | Hi]];
      [left; exact Hi
      | right; left; split; [exact Hi | split; discriminate]
      | right; right; left; split; [exact Hi | eexists; reflexivity]].
  - (* awaiting_driversId *)
    destruct (processDocument_index env (from_id message)
                (getContentType message) message awaiting_driversId_config
                _ s Hs1) as (s' & Hs' & Hm).
    exists s'. split; [exact Hs' |]. rewrite nextStep_index, Hidx in Hm.
    destruct Hm as [Hm | Hm]; [left; congruence |].
    right. left. rewrite Hm, Hidx. repeat split; discriminate.
  - (* confirming_driversId *)
    pose proof (confirmation_content env message s confirming_driversId _
                  eq_refl Hexp) as Htext.
    rewrite Htext in *.
    destruct (confirmation_moves env (from_id message) message
                confirming_driversId drivers_license _ s Hs1 Hst eq_refl)
      as (config & s' & [= <-] & Hs' & Hm).
    exists s'. split; [exact Hs' |].
    destruct Hm as [(Hi & _) | [Hi | Hi]];
      [left; exact Hi
      | right; left; split; [exact Hi | split; discriminate]
      | right; right; left; split; [exact Hi | eexists; reflexivity]].
  - (* confirming_price *)
    pose proof (confirmation_content env message s confirming_price _
                  eq_refl Hexp) as Htext.
    rewrite Htext in *.
    destruct (price_index env (from_id message) message _ s Hs1)
      as (s' & Hs' & Hm).
    exists s'. split; [exact Hs' |].
    rewrite !nextStep_index, Hidx in Hm. cbn in Hm, Hidx.
    destruct Hm as [Hm | [Hm | [Hm Hin]]].
    + left. congruence.
    + right. left. rewrite Hm, Hidx. repeat split; discriminate.
    + right. right. right. rewrite Hm, Hidx.
      split; [reflexivity | split; [reflexivity |]].
      apply Hev, Hin.
  - (* sending_policy *)
    destruct (policy_delivered env (from_id message)
                (session_of (from_id message) (console_logged s w))) eqn:Hd.
    + assert (policy_event (from_id message)
                ∈ new_events (console_logged s w)
                    (snd (sendPolicy env (from_id message)
                            (console_logged s w)))) as Hin.
      { rewrite (sendPolicy_delivered _ _ _ Hd). cbn [snd].
        eapply new_events_elem;
          [autorewrite with events_db; rewrite <- ?app_assoc; reflexivity |].
        set_solver. }
      rewrite (sendPolicy_delivered _ _ _ Hd) in *. cbn [snd] in *.
      eexists. split; [lookup_solve |].
      right. left. autorewrite with session_db. rewrite Hidx.
      split; [reflexivity | split; [discriminate |]].
      intros _. apply Hev, Hin.
    + destruct (sendPolicy_undelivered _ _ _ Hd) as [Es _]. rewrite Es.
      exists s. split; [exact Hs1 | left; reflexivity].
  - (* completed *)
    rewrite sendMessage_run. cbn [snd].
    exists s. split; [lookup_solve | left; reflexivity].
Qed.

(* ================================================================== *)
(** ** Invariants of whole conversations *)
(* ================================================================== *)

Lemma handleWebhook_no_step env message w s :
  sessions w !! from_id message = Some s ->
  Session.step s = None ->
  sessions (snd (handleWebhook env message w)) = sessions w.
Proof.
  intros Hs Hnone. unfold handleWebhook, try_catch, routeMessage, logError.
  cbv zeta. run. rewrite (sessionStorage_get_present _ _ _ Hs). run.
  rewrite (session_of_lookup _ _ _ Hs), Hnone. run. reflexivity.
Qed.

Lemma events_created chat_id w : events (created chat_id w) = events w.
Proof. reflexivity. Qed.

Lemma new_events_created chat_id w w' :
  new_events (created chat_id w) w' = new_events w w'.
Proof. reflexivity. Qed.

Lemma lookup_created chat_id w :
  sessions (created chat_id w) !! chat_id = Some Session.new.
Proof. unfold created. simpl. apply lookup_insert_eq. Qed.

Lemma floor_index_le i : (floor_index i <= i)%nat.
Proof. do 5 (destruct i as [| i]; [simpl; lia |]). simpl. lia. Qed.

Lemma floor_index_mono i j : (i <= j)%nat -> (floor_index i <= floor_index j)%nat.
Proof.
  intros H.
  do 5 (destruct i as [| i];
        [do 5 (destruct j as [| j]; [simpl; lia |]); simpl; lia |]).
  do 5 (destruct j as [| j]; [lia |]). simpl. lia.
Qed.

Lemma floor_index_idem i : floor_index (floor_index i) = floor_index i.
Proof. do 5 (destruct i as [| i]; [reflexivity |]). reflexivity. Qed.

Lemma floor_index_trans a b c :
  (floor_index a <= b)%nat -> (floor_index b <= c)%nat -> (floor_index a <= c)%nat.
Proof.
  intros H1 H2. apply floor_index_mono in H1. rewrite floor_index_idem in H1. lia.
Qed.

(** Whoever sends the message, a stored session stays stored and does
    not fall below its floor. *)
Lemma handleWebhook_floor env message w k s :
  sessions w !! k = Some s ->
  exists s', sessions (snd (handleWebhook env message w)) !! k = Some s'
             /\ (floor_index (_stepIndex s) <= _stepIndex s')%nat.
Proof.
  intros Hs.
  destruct (decide (k = from_id message)) as [-> | Hk].
  - destruct (Session.step s) as [st |] eqn:Hst.
    + destruct (handleWebhook_index env message w s st Hs Hst)
        as (s' & Hs' & Hm).
      exists s'. split; [exact Hs' |].
      pose proof (floor_index_le (_stepIndex s)) as Hle.
      destruct Hm as [Hm | [(Hm & _) | [(Hm & Hc) | (Hm & _)]]];
        try (rewrite Hm; lia).
      apply step_is in Hst. rewrite Hm, Hst.
      destruct st; destruct Hc as [ty Hc]; try discriminate Hc; simpl; lia.
    + rewrite (handleWebhook_no_step env message w s Hs Hst).
      exists s. split; [exact Hs | apply floor_index_le].
  - pose proof (others_handleWebhook env message w k) as Hrel.
    rewrite Hs in Hrel.
    destruct (sessions (snd (handleWebhook env message w)) !! k) as [s' |];
      [| contradiction].
    exists s'. split; [reflexivity |]. simpl in Hrel.
    destruct Hrel as [E | (Hi & _)]; [contradiction |].
    rewrite Hi. apply floor_index_le.
Qed.

Lemma handleAll_floor updates w k s :
  sessions w !! k = Some s ->
  exists s', sessions (handleAll updates w) !! k = Some s'
             /\ (floor_index (_stepIndex s) <= _stepIndex s')%nat.
Proof.
  revert w s. induction updates as [| [env m] rest IH]; intros w s Hs; simpl.
  - exists s. split; [exact Hs | apply floor_index_le].
  - destruct (handleWebhook_floor env m w k s Hs) as (s1 & H1 & L1).
    destruct (IH _ _ H1) as (s2 & H2 & L2).
    exists s2. split; [exact H2 |].
    eapply floor_index_trans; eassumption.
Qed.

(** A session is at index 7 after a message only if it was there before,
    or the policy document has just reached its user. *)
Lemma handleWebhook_policy env message w k s' :
  sessions (snd (handleWebhook env message w)) !! k = Some s' ->
  _stepIndex s' = 7%nat ->
  (exists s, sessions w !! k = Some s /\ _stepIndex s = 7%nat)
  \/ policy_event k ∈ new_events w (snd (handleWebhook env message w)).
Proof.
  intros Hs' H7.
  destruct (decide (k = from_id message)) as [-> | Hk].
  - assert (forall W s,
               sessions W !! from_id message = Some s ->
               sessions (snd (handleWebhook env message W)) !! from_id message
               = Some s' ->
               _stepIndex s = 7%nat
               \/ policy_event (from_id message)
                    ∈ new_events W (snd (handleWebhook env message W))) as Hcase.
    { intros W s Hs HW.
      destruct (Session.step s) as [st |] eqn:Hst.
      - destruct (handleWebhook_index env message W s st Hs Hst)
          as (s1 & Hs1 & Hm).
        assert (s1 = s') as -> by congruence.
        apply step_is in Hst.
        destruct Hm as [Hm | [(Hm & _ & Hp) | [(Hm & Hc) | (Hm & _ & Hp)]]].
        + left. congruence.
        + right. apply Hp.
          destruct st; simpl in Hst; try reflexivity; lia.
        + exfalso. destruct st; destruct Hc as [ty Hc]; try discriminate Hc;
            simpl in Hst; lia.
        + right. exact Hp.
      - rewrite (handleWebhook_no_step env message W s Hs Hst) in HW.
        left. congruence. }
    destruct (sessions w !! from_id message) as [s |] eqn:Hs.
    + destruct (Hcase w s Hs Hs') as [E | Hin];
        [left; exists s; auto | right; exact Hin].
    + rewrite (handleWebhook_created env message w Hs) in Hs' |- *.
      destruct (Hcase _ _ (lookup_created _ _) Hs') as [E | Hin];
        [discriminate E | right; exact Hin].
  - pose proof (others_handleWebhook env message w k) as Hrel.
    rewrite Hs' in Hrel.
    destruct (sessions w !! k) as [s |]; simpl in Hrel.
    + destruct Hrel as [E | (Hi & _)]; [contradiction |].
      left. exists s. split; [reflexivity | congruence].
    + destruct Hrel as [E | (Hi & _)]; [contradiction |].
      simpl in Hi. congruence.
Qed.

Lemma policy_invariant updates w :
  (forall k s, sessions w !! k = Some s -> _stepIndex s = 7%nat ->
               policy_event k ∈ events w) ->
  forall k s, sessions (handleAll updates w) !! k = Some s ->
              _stepIndex s = 7%nat ->
              policy_event k ∈ events (handleAll updates w).
Proof.
  revert w. induction updates as [| [env m] rest IH]; intros w Hw; simpl;
    [exact Hw |].
  apply IH. intros k s' Hs' H7.
  destruct (appends_handleWebhook env m w) as [l El].
  destruct (handleWebhook_policy env m w k s' Hs' H7)
    as [(s & Hs & E7) | Hin].
  - rewrite El. apply elem_of_app. left. apply (Hw k s Hs E7).
  - rewrite El. apply elem_of_app. right.
    apply (new_events_elem_inv _ _ _ _ El Hin).
Qed.

Lemma handleWebhook_final env message w k s :
  sessions w !! k = Some s ->
  _stepIndex s = 7%nat ->
  exists s', sessions (snd (handleWebhook env message w)) !! k = Some s'
             /\ _stepIndex s' = 7%nat.
Proof.
  intros Hs H7.
  destruct (decide (k = from_id message)) as [-> | Hk].
  - assert (Session.step s = Some completed) as Hst
      by (apply step_is; exact H7).
    destruct (handleWebhook_index env message w s completed Hs Hst)
      as (s' & Hs' & Hm).
    exists s'. split; [exact Hs' |].
    destruct Hm as [Hm | [(_ & Hne & _) | [(_ & [ty Hc]) | (_ & Hp & _)]]];
      [congruence | contradiction | discriminate Hc | discriminate Hp].
  - pose proof (others_handleWebhook env message w k) as Hrel.
    rewrite Hs in Hrel.
    destruct (sessions (snd (handleWebhook env message w)) !! k) as [s' |];
      [| contradiction].
    exists s'. split; [reflexivity |]. simpl in Hrel.
    destruct Hrel as [E | (Hi & _)]; [contradiction | congruence].
Qed.

Lemma handleAll_final updates w k s :
  sessions w !! k = Some s ->
  _stepIndex s = 7%nat ->
  exists s', sessions (handleAll updates w) !! k = Some s'
             /\ _stepIndex s' = 7%nat.
Proof.
  revert w s. induction updates as [| [env m] rest IH]; intros w s Hs H7; simpl.
  - exists s. auto.
  - destruct (handleWebhook_final env m w k s Hs H7) as (s1 & H1 & E1).
    apply (IH _ _ H1 E1).
Qed.

(** X1. One handled message leaves the step of its sender where it is,
    or moves it one step forward, or one step back (only from a document
    confirmation), or two steps forward (only from the price
    confirmation, and then the policy document has reached the user). *)
Theorem step_moves_per_message env message w s st :
  sessions w !! from_id message = Some s ->
  Session.step s = Some st ->
  let w' := snd (handleWebhook env message w) in
  let s' := session_of (from_id message) w' in
  _stepIndex s' = _stepIndex s
  \/ (_stepIndex s' = S (_stepIndex s) /\ st <> completed)
  \/ (_stepIndex s' = Nat.pred (_stepIndex s)
      /\ (st = confirming_passport \/ st = confirming_driversId))
  \/ (_stepIndex s' = S (S (_stepIndex s))
      /\ st = confirming_price
      /\ policy_event (from_id message) ∈ new_events w w').
Proof.
  intros Hs Hst. cbv zeta.
  destruct (handleWebhook_index env message w s st Hs Hst) as (s' & Hs' & Hm).
  rewrite (session_of_lookup _ _ _ Hs').
  destruct Hm as [Hm | [(Hm & Hne & _) | [(Hm & [ty Hc]) | Hm]]].
  - left. exact Hm.
  - right. left. auto.
  - right. right. left. split; [exact Hm |].
    destruct st; try discriminate Hc; auto.
  - right. right. right. exact Hm.
Qed.

Lemma step_moves_per_message_witness :
  let env := stub true agent_down None in
  let message := textMessage 7 "yes" in
  let w := world_confirming_price in
  let s := session_of 7 w in
  let w' := snd (handleWebhook env message w) in
  let s' := session_of 7 w' in
  Session.step s = Some confirming_price
  /\ Session.step s' = Some completed
  /\ (_stepIndex s' = _stepIndex s
      \/ (_stepIndex s' = S (_stepIndex s) /\ confirming_price <> completed)
      \/ (_stepIndex s' = Nat.pred (_stepIndex s)
          /\ (confirming_price = confirming_passport
              \/ confirming_price = confirming_driversId))
      \/ (_stepIndex s' = S (S (_stepIndex s))
          /\ confirming_price = confirming_price
          /\ policy_event 7 ∈ new_events w w')).
Proof.
  cbv zeta.
  split; [vm_compute; reflexivity |].
  split; [vm_compute; reflexivity |].
  apply (step_moves_per_message (stub true agent_down None)
           (textMessage 7 "yes") world_confirming_price
           (session_of 7 world_confirming_price) confirming_price).
  - vm_compute. reflexivity.
  - vm_compute. reflexivity.
Defined.





(* ================================================================== *)
(** ** Accepting the price and sending the policy *)
(* ================================================================== *)

Lemma delivered_to_app chat_id l1 l2 :
  delivered_to chat_id (l1 ++ l2)
  = delivered_to chat_id l1 ++ delivered_to chat_id l2.
Proof. unfold delivered_to. apply omap_app. Qed.

Lemma delivered_to_elem chat_id message l :
  SendMessage chat_id message true ∈ l -> message ∈ delivered_to chat_id l.
Proof.
  intros Hin. unfold delivered_to. apply list_elem_of_omap.
  exists (SendMessage chat_id message true). split; [exact Hin |].
  simpl. rewrite decide_True by reflexivity. reflexivity.
Qed.

Lemma price_resolve_yes env chat_id m Wx :
  tg_sendMessage env chat_id m = true ->
  resolve_decision env (confirming_price_config env) chat_id DecYes m Wx
  = sendPolicy env chat_id
      (upd chat_id Session.nextStep
         (upd chat_id (Session.addToConversationHistory m RoleAssistant)
            (sent env chat_id m Wx))).
Proof.
  intros Hsend. unfold resolve_decision. rewrite Hsend.
  apply price_accept_run.
Qed.

(** An accepted price: the acknowledgement goes out, the step moves on,
    and [sendPolicy] runs on the session as it then stands. *)
Lemma price_accepted_run env message w s txt :
  sessions w !! from_id message = Some s ->
  Session.step s = Some confirming_price ->
  getContentType message = CText ->
  text message = Some txt ->
  decision_of env (from_id message) txt s = Some DecYes ->
  transport_up env ->
  exists ack Wx sW lx,
    sessions Wx !! from_id message = Some sW
    /\ same_step s sW
    /\ events Wx = events w ++ lx
    /\ (policy_event (from_id message) ∉ lx)
    /\ handleWebhook env message w
       = sendPolicy env (from_id message)
           (upd (from_id message) Session.nextStep
              (upd (from_id message)
                 (Session.addToConversationHistory ack RoleAssistant)
                 (sent env (from_id message) ack Wx))).
Proof.
  intros Hs Hst Hct Htxt Hdec Hup.
  rewrite (handleWebhook_confirmation env message w s confirming_price
             (confirming_price_config env) Hs Hst eq_refl Hct).
  rewrite handleConfirmation_run. cbv zeta.
  rewrite (text_of_Some _ _ Htxt).
  rewrite (session_of_lookup _ (console_logged s w) _ Hs).
  unfold decision_of in Hdec.
  destruct (agent_world_session env (from_id message) txt
              (Some AI_CONFIRMATION_INSTRUCTION) (console_logged s w)
              (from_id message) s) as (sa & Hsa & Fa); [lookup_solve |].
  assert (forall ack Wx,
             (match resolve_decision env (confirming_price_config env)
                      (from_id message) DecYes ack Wx with
             | (Ret _, w') => (Ret tt, w')
             | (Throw, w') =>
                 let w'' := sent env (from_id message)
                              (retryPrompt (stepConfigs env confirming_price))
                              (add_event LogError w') in
                 if tg_sendMessage env (from_id message)
                      (retryPrompt (stepConfigs env confirming_price))
                 then (Ret tt, w'') else (Ret tt, add_event LogError w'')
              end)
             = sendPolicy env (from_id message)
                 (upd (from_id message) Session.nextStep
                    (upd (from_id message)
                       (Session.addToConversationHistory ack RoleAssistant)
                       (sent env (from_id message) ack Wx)))) as Hrun.
  { intros ack Wx. rewrite (price_resolve_yes _ _ _ _ (Hup _ _)).
    rewrite (Ret_eta _ (sendPolicy_returns env _ _ Hup)). reflexivity. }
  destruct (agentReply _) as [[reply h] |].
  - destruct (endsWith reply "[CONFIRMED]");
      [| destruct (endsWith reply "[REJECTED]"); discriminate Hdec].
    exists (trim (replace "[CONFIRMED]" "" reply)),
      (upd (from_id message) (Session.setConversation h)
         (agent_world env (from_id message) txt
            (Some AI_CONFIRMATION_INSTRUCTION) (console_logged s w))).
    eexists _, _.
    split; [lookup_solve |].
    split; [same_step_solve |].
    split; [autorewrite with events_db; rewrite <- ?app_assoc; reflexivity |].
    split; [unfold policy_event; not_in_list | apply Hrun].
  - destruct (guessDecision txt); try discriminate Hdec.
    assert (sessions (manual_world env (from_id message) txt
                        (console_logged s w)) !! from_id message = Some sa)
      as Hma by exact Hsa.
    rewrite (session_of_lookup _ _ _ Hma).
    assert (Session.step sa = Some confirming_price) as Hsta.
    { rewrite <- Hst. apply step_by_index, Fa. }
    rewrite Hsta.
    destruct (confirmation_messages env confirming_price _ eq_refl)
      as [messages Hmsg].
    rewrite Hmsg.
    exists (successMessage messages),
      (manual_world env (from_id message) txt (console_logged s w)).
    eexists _, _.
    split; [exact Hma |].
    split; [same_step_solve |].
    split; [autorewrite with events_db; rewrite <- ?app_assoc; reflexivity |].
    split; [unfold policy_event; not_in_list | apply Hrun].
Qed.

(** X4. An accepted price moves the session on before the policy is
    sent: when the document is rendered and delivered the session ends at
    [completed]; when rendering or delivery fails it rests at
    [sending_policy], the user is told so, and no policy has been
    delivered.  [sX] is the session as [sendPolicy] finds it. *)
Theorem price_acceptance env message w s txt :
  sessions w !! from_id message = Some s ->
  Session.step s = Some confirming_price ->
  getContentType message = CText ->
  text message = Some txt ->
  decision_of env (from_id message) txt s = Some DecYes ->
  transport_up env ->
  let chat_id := from_id message in
  let w' := snd (handleWebhook env message w) in
  let s' := session_of chat_id w' in
  exists sX,
    Session.step sX = Some sending_policy
    /\ (forall ty, keeps_document ty s sX)
    /\ if policy_delivered env chat_id sX
       then Session.step s' = Some completed
            /\ policy_event chat_id ∈ new_events w w'
       else Session.step s' = Some sending_policy
            /\ (policy_event chat_id ∉ new_events w w')
            /\ policy_errorMessage ∈ delivered_to chat_id (new_events w w').
Proof.
  intros Hs Hst Hct Htxt Hdec Hup. cbv zeta.
  destruct (price_accepted_run env message w s txt Hs Hst Hct Htxt Hdec Hup)
    as (ack & Wx & sW & lx & HWx & (Hi & _ & Hdoc) & Hev & Hnot & Hrun).
  rewrite Hrun.
  set (WX := upd (from_id message) Session.nextStep
               (upd (from_id message)
                  (Session.addToConversationHistory ack RoleAssistant)
                  (sent env (from_id message) ack Wx))) in *.
  set (sX := Session.nextStep
               (Session.addToConversationHistory ack RoleAssistant sW)).
  assert (sessions WX !! from_id message = Some sX) as HX
    by (subst WX sX; lookup_solve).
  assert (_stepIndex sX = 6%nat) as HiX.
  { subst sX. autorewrite with session_db. rewrite Hi.
    apply step_is in Hst. rewrite Hst. reflexivity. }
  assert (events WX = events w ++ lx ++ [SendMessage (from_id message) ack true])
    as HevX.
  { subst WX. autorewrite with events_db. rewrite Hev, Hup, <- app_assoc.
    reflexivity. }
  exists sX. split; [apply step_is; exact HiX |].
  split.
  { intros ty. unfold keeps_document. subst sX.
    autorewrite with session_db. apply Hdoc. }
  rewrite <- (session_of_lookup _ _ _ HX).
  destruct (policy_delivered env (from_id message)
              (session_of (from_id message) WX)) eqn:Hd.
  - rewrite (sendPolicy_delivered _ _ _ Hd). cbn [snd]. split.
    + erewrite (session_of_lookup (from_id message) _ _) by lookup_solve.
      apply step_is. autorewrite with session_db. rewrite HiX. reflexivity.
    + eapply new_events_elem;
        [autorewrite with events_db; rewrite HevX, <- !app_assoc; reflexivity |].
      set_solver.
  - destruct (sendPolicy_undelivered _ _ _ Hd) as (Es & l & El & Nl).
    rewrite Hup in El.
    assert (events (snd (sendPolicy env (from_id message) WX))
            = events w
                ++ (lx ++ [SendMessage (from_id message) ack true] ++ l
                      ++ [LogError;
                          SendMessage (from_id message) policy_errorMessage true]))
      as Eall by (rewrite El, HevX, <- !app_assoc; reflexivity).
    split; [| split].
    + unfold session_of at 1. rewrite Es.
      fold (session_of (from_id message) WX).
      rewrite (session_of_lookup _ _ _ HX). apply step_is. exact HiX.
    + intros Hin. apply (new_events_elem_inv _ _ _ _ Eall) in Hin.
      rewrite !elem_of_app in Hin.
      destruct Hin as [Hin | [Hin | [Hin | Hin]]];
        [exact (Hnot Hin) | | exact (Nl Hin) |];
        revert Hin; unfold policy_event; not_in_list.
    + rewrite (new_events_app _ _ _ Eall).
      apply delivered_to_elem. set_solver.
Qed.

Lemma price_acceptance_witness :
  let env := no_renderer in
  let message := textMessage 7 "yes" in
  let w := world_confirming_price in
  let s := session_of 7 w in
  let w' := snd (handleWebhook env message w) in
  let s' := session_of 7 w' in
  Session.step s = Some confirming_price
  /\ decision_of env 7 "yes" s = Some DecYes
  /\ exists sX,
       Session.step sX = Some sending_policy
       /\ (forall ty, keeps_document ty s sX)
       /\ if policy_delivered env 7 sX
          then Session.step s' = Some completed
               /\ policy_event 7 ∈ new_events w w'
          else Session.step s' = Some sending_policy
               /\ (policy_event 7 ∉ new_events w w')
               /\ policy_errorMessage ∈ delivered_to 7 (new_events w w').
Proof.
  cbv zeta.
  split; [vm_compute; reflexivity |].
  split; [vm_compute; reflexivity |].
  apply (price_acceptance no_renderer (textMessage 7 "yes")
           world_confirming_price (session_of 7 world_confirming_price) "yes").
  - vm_compute. reflexivity.
  - vm_compute. reflexivity.
  - reflexivity.
  - reflexivity.
  - vm_compute. reflexivity.
  - intros ? ?. reflexivity.
Defined.

(** X5. At [sending_policy] any text is a retry of the delivery: when
    the document is rendered and delivered the session moves to
    [completed]; otherwise nothing in the session map changes, the error
    message is sent and no policy is recorded as delivered. *)
Theorem policy_retry env message w s :
  sessions w !! from_id message = Some s ->
  Session.step s = Some sending_policy ->
  getContentType message = CText ->
  let chat_id := from_id message in
  let w' := snd (handleWebhook env message w) in
  if policy_delivered env chat_id s
  then sessions w' !! chat_id = Some (Session.nextStep s)
       /\ Session.step (Session.nextStep s) = Some completed
       /\ policy_event chat_id ∈ new_events w w'
  else sessions w' = sessions w
       /\ (policy_event chat_id ∉ new_events w w')
       /\ SendMessage chat_id policy_errorMessage
            (tg_sendMessage env chat_id policy_errorMessage)
          ∈ new_events w w'.
Proof.
  intros Hs Hst Hct. cbv zeta.
  assert (getContentType message <> CUnsupported) as Hsup
    by (rewrite Hct; discriminate).
  assert (bool_decide (getContentType message
                         ∈ expectsContent (stepConfigs env sending_policy))
          || Session.manualInputPending s
               && bool_decide (getContentType message = CText) = true) as Hexp
    by (rewrite Hct; reflexivity).
  rewrite (handleWebhook_dispatch env message w s sending_policy Hs Hst Hsup Hexp).
  cbn [handler stepConfigs].
  assert (session_of (from_id message) (console_logged s w) = s) as Hso
    by (apply session_of_lookup; lookup_solve).
  destruct (policy_delivered env (from_id message) s) eqn:Hd.
  - rewrite <- Hso in Hd. rewrite (sendPolicy_delivered _ _ _ Hd). cbn [snd].
    split; [lookup_solve |].
    split.
    + apply step_is. autorewrite with session_db.
      apply step_is in Hst. rewrite Hst. reflexivity.
    + eapply new_events_elem;
        [autorewrite with events_db; rewrite <- ?app_assoc; reflexivity |].
      set_solver.
  - rewrite sendPolicy_run, Hso. unfold policy_delivered in Hd.
    unfold policy_failed, policy_event.
    destruct (policy_pdf env s) as [pdfBuffer |]; cbv zeta; rewrite ?Hd;
      destruct (tg_sendMessage env (from_id message) policy_errorMessage)
        eqn:Hsend;
      cbv zeta;
      repeat match goal with
        | |- context [if ?b then _ else _] => destruct b eqn:?
        end;
      cbn [snd];
      (split; [reflexivity |]);
      (split;
       [ intros Hin;
         eapply new_events_elem_inv in Hin;
         [| autorewrite with events_db; rewrite <- ?app_assoc; reflexivity];
         revert Hin; not_in_list
       | eapply new_events_elem;
         [autorewrite with events_db; rewrite <- ?app_assoc; reflexivity |];
         rewrite ?Hsend; set_solver ]).
Qed.

Lemma policy_retry_witness :
  let env := stub true agent_down None in
  let message := textMessage 7 "any news?" in
  let w := world_sending_policy in
  let s := session_of 7 w in
  let w' := snd (handleWebhook env message w) in
  Session.step s = Some sending_policy
  /\ policy_delivered env 7 s = true
  /\ if policy_delivered env 7 s
     then sessions w' !! 7%Z = Some (Session.nextStep s)
          /\ Session.step (Session.nextStep s) = Some completed
          /\ policy_event 7 ∈ new_events w w'
     else sessions w' = sessions w
          /\ (policy_event 7 ∉ new_events w w')
          /\ SendMessage 7 policy_errorMessage
               (tg_sendMessage env 7 policy_errorMessage)
             ∈ new_events w w'.
Proof.
  cbv zeta.
  split; [vm_compute; reflexivity |].
  split; [vm_compute; reflexivity |].
  apply (policy_retry (stub true agent_down None) (textMessage 7 "any news?")
           world_sending_policy (session_of 7 world_sending_policy)).
  - vm_compute. reflexivity.
  - vm_compute. reflexivity.
  - reflexivity.
Defined.

(* ================================================================== *)
(** ** The router: content a step cannot use *)
(* ================================================================== *)

(** The route handler up to its gates. *)
Lemma routeMessage_gates env message w s st :
  sessions w !! from_id message = Some s ->
  Session.step s = Some st ->
  routeMessage env message w
  = (let chat_id := from_id message in
     let contentType := getContentType message in
     let stepConfig := stepConfigs env st in
     if bool_decide (contentType = CUnsupported)
     then sendMessage env chat_id (fallbackMessage stepConfig)
     else
       if bool_decide (contentType ∈ expectsContent stepConfig)
          || Session.manualInputPending s && bool_decide (contentType = CText)
       then try_catch
              (handler stepConfig chat_id contentType message)
              (logError >> sendMessage env chat_id (retryPrompt stepConfig))
       else if bool_decide (contentType = CText)
               || bool_decide (contentType = CCommand)
       then
         updateSession chat_id
           (Session.addToConversationHistory (text_of message) RoleUser) >>
         try_catch
           (do agentResponse <-
               promptAgent env chat_id (text_of message)
                 (Some UNEXPECTED_INSTRUCTION);
            sendMessage env chat_id agentResponse >>
            updateSession chat_id
              (Session.addToConversationHistory agentResponse RoleAssistant))
           (logError >> sendMessage env chat_id (fallbackMessage stepConfig))
       else sendMessage env chat_id (fallbackMessage stepConfig))
    (console_logged s w).
Proof.
  intros Hs Hst. unfold routeMessage. cbv zeta.
  rewrite bind_run, (sessionStorage_get_present _ _ _ Hs).
  rewrite bind_run, readSession_run.
  rewrite bind_run, emit_run. rewrite bind_run, emit_run.
  rewrite bind_run, emit_run.
  rewrite (session_of_lookup _ _ _ Hs), Hst. reflexivity.
Qed.

Lemma handleWebhook_fallback env message w s st :
  sessions w !! from_id message = Some s ->
  Session.step s = Some st ->
  routeMessage env message w
  = sendMessage env (from_id message) (fallbackMessage (stepConfigs env st))
      (console_logged s w) ->
  let ok := tg_sendMessage env (from_id message)
              (fallbackMessage (stepConfigs env st)) in
  sessions (snd (handleWebhook env message w)) = sessions w
  /\ new_events w (snd (handleWebhook env message w))
     = [ ConsoleLogData (_driversIdData s); ConsoleLog "pp";
         ConsoleLogData (_passportData s);
         SendMessage (from_id message) (fallbackMessage (stepConfigs env st)) ok ]
         ++ (if ok then [] else [LogError]).
Proof.
  intros Hs Hst Hroute. cbv zeta.
  unfold handleWebhook, try_catch, logError. rewrite Hroute, sendMessage_run.
  destruct (tg_sendMessage env _ _); [| rewrite emit_run]; cbn [snd];
    (split; [reflexivity |]); events_norm; reflexivity.
Qed.



(* ================================================================== *)
(** ** The router: conversational recovery *)
(* ================================================================== *)

Lemma contextualMessage_step chat_id userMessage s s' instruction :
  _stepIndex s' = _stepIndex s ->
  contextualMessage chat_id userMessage s' instruction
  = contextualMessage chat_id userMessage s instruction.
Proof.
  intros Hi. unfold contextualMessage, step_text.
  rewrite (step_by_index _ _ Hi). reflexivity.
Qed.



(* ================================================================== *)
(** ** The file checks in front of the pipeline *)
(* ================================================================== *)

Lemma getFileUrl_fst env message fileType w :
  fst (getFileUrl env message fileType w)
  = fst (getFileUrl env message fileType emptyWorld).
Proof.
  unfold getFileUrl, fetchFileUrl, logError.
  repeat match goal with
    | |- context [if ?b then _ else _] => destruct b
    | |- context [match ?x with _ => _ end] => destruct x
    end; reflexivity.
Qed.

Lemma getFileUrl_sessions env message fileType w :
  sessions (snd (getFileUrl env message fileType w)) = sessions w.
Proof.
  destruct (getFileUrl_cases env message fileType w)
    as [(url & _ & ->) | (r & w' & -> & _ & [-> | ->])]; reflexivity.
Qed.

(** X8. [getFileUrl] answers with a URL exactly for a file that passes
    its checks: for a photo, the last (largest) size of the list, of at
    most [MAX_FILE_SIZE] bytes; for a document, a supported MIME type and
    at most [MAX_FILE_SIZE] bytes; and [getFile] resolves its identifier.
    Whatever the outcome, no session is touched. *)
Theorem file_url_obtained env message fileType w url :
  (fst (getFileUrl env message fileType w) = Ret (UrlSuccess url)
   <-> if decide (fileType = CPhoto)
       then exists smaller p,
              photo message = Some (smaller ++ [p])
              /\ (ph_file_size p <= MAX_FILE_SIZE)%Z
              /\ tg_getFile env (ph_file_id p) = Some url
       else exists d,
              document message = Some d
              /\ doc_mime_type d ∈ MINDEE_SUPPORTED_MIME_TYPES
              /\ (doc_file_size d <= MAX_FILE_SIZE)%Z
              /\ tg_getFile env (doc_file_id d) = Some url)
  /\ sessions (snd (getFileUrl env message fileType w)) = sessions w.
Proof.
  split; [| apply getFileUrl_sessions].
  unfold getFileUrl, fetchFileUrl, logError.
  destruct (decide (fileType = CPhoto)) as [Hft | Hft].
  - destruct (photo message) as [photos |];
      [| split; [discriminate | intros (? & ? & [=] & _)]].
    destruct (last photos) as [p |] eqn:Hlast.
    + apply last_Some in Hlast as [smaller ->].
      destruct (Z.ltb_spec MAX_FILE_SIZE (ph_file_size p)) as [Hbig | Hfit].
      * split; [discriminate |].
        intros (sm & q & [= E] & Hq & _).
        apply app_inj_tail in E as [_ <-]. lia.
      * destruct (tg_getFile env (ph_file_id p)) as [u |] eqn:Hget.
        -- split.
           ++ intros [= <-]. exists smaller, p. auto.
           ++ intros (sm & q & [= E] & _ & Hu).
              apply app_inj_tail in E as [_ <-]. cbn. congruence.
        -- split; [discriminate |].
           intros (sm & q & [= E] & _ & Hu).
           apply app_inj_tail in E as [_ <-]. congruence.
    + split; [discriminate |].
      intros (sm & q & [= ->] & _).
      rewrite last_snoc in Hlast. discriminate Hlast.
  - destruct (document message) as [d |];
      [| split; [discriminate | intros (? & [=] & _)]].
    destruct (bool_decide_reflect
                (doc_mime_type d ∈ MINDEE_SUPPORTED_MIME_TYPES))
      as [Hmime | Hmime].
    + destruct (Z.ltb_spec MAX_FILE_SIZE (doc_file_size d)) as [Hbig | Hfit].
      * split; [discriminate |].
        intros (d' & [= <-] & _ & Hd & _). lia.
      * destruct (tg_getFile env (doc_file_id d)) as [u |] eqn:Hget.
        -- split.
           ++ intros [= <-]. exists d. auto.
           ++ intros (d' & [= <-] & _ & _ & Hu). cbn. congruence.
        -- split; [discriminate |].
           intros (d' & [= <-] & _ & _ & Hu). congruence.
    + split; [discriminate |].
      intros (d' & [= <-] & Hm & _). contradiction.
Qed.

Lemma awaiting_retryPrompt env st ty :
  awaited_document st = Some ty ->
  retryPrompt (stepConfigs env st) = "Please, send: document or photo".
Proof. destruct st; intros [=]; reflexivity. Qed.

(** X9. A submission whose file does not pass the checks never starts
    the pipeline: no processing notice, no agent run, no extraction, and
    the session map stays as it was.  The user receives the refusal; when
    the lookup itself raises (a photo list without entries), or the
    refusal cannot be sent, the route handler answers with its retry
    prompt instead. *)
Theorem refused_submission env message w s st ty :
  sessions w !! from_id message = Some s ->
  Session.step s = Some st ->
  awaited_document st = Some ty ->
  getContentType message = CPhoto \/ getContentType message = CDocument ->
  fileUrlOf env message (fileTypeOf (getContentType message)) = None ->
  let chat_id := from_id message in
  let w' := snd (handleWebhook env message w) in
  let evs := new_events w w' in
  let retry := "Please, send: document or photo" in
  let retried := if tg_sendMessage env chat_id retry then [retry] else [] in
  sessions w' = sessions w
  /\ agent_ran evs = false
  /\ tier2_ran evs = false
  /\ delivered_to chat_id evs
     = match fileRefusal env message (fileTypeOf (getContentType message)) with
       | Some refusal =>
           if tg_sendMessage env chat_id refusal then [refusal] else retried
       | None => retried
       end.
Proof.
  intros Hs Hst Hty Hct Hnone. cbv zeta.
  destruct (awaited_expects env st ty (getContentType message) Hty Hct)
    as [Hexp Hhandler].
  assert (getContentType message <> CUnsupported) as Hsup
    by (destruct Hct as [-> | ->]; discriminate).
  rewrite (handleWebhook_dispatch env message w s st Hs Hst Hsup)
    by (rewrite Hexp; reflexivity).
  rewrite Hhandler, (awaiting_retryPrompt env st ty Hty).
  unfold processDocument. rewrite bind_run, readSession_run.
  assert (bool_decide (getContentType message = CText) = false) as ->
    by (destruct Hct as [-> | ->]; reflexivity).
  rewrite andb_false_r. fold (fileTypeOf (getContentType message)).
  rewrite bind_run. unfold fileRefusal.
  rewrite <- (getFileUrl_fst env message _ (console_logged s w)).
  destruct (getFileUrl_cases env message (fileTypeOf (getContentType message))
              (console_logged s w))
    as [(url & Hurl & _) | (r & w0 & -> & Hr & Hw0)]; [congruence |].
  cbn [fst].
  destruct r as [[url | refusal] |]; [exfalso; apply (Hr url); reflexivity | |].
  - rewrite sendMessage_run.
    destruct (tg_sendMessage env (from_id message) refusal) eqn:Hsend;
      [| cbv zeta;
         destruct (tg_sendMessage env (from_id message)
                     "Please, send: document or photo") eqn:Hretry];
      destruct Hw0 as [-> | ->]; cbn [snd];
      (split; [reflexivity |]);
      events_norm; unfold delivered_to; simpl;
      rewrite ?decide_True by reflexivity;
      repeat match goal with
        | H : tg_sendMessage _ _ _ = _ |- _ => rewrite H
        end;
      auto.
  - cbv zeta.
    destruct (tg_sendMessage env (from_id message)
                "Please, send: document or photo") eqn:Hretry;
      destruct Hw0 as [-> | ->]; cbn [snd];
      (split; [reflexivity |]);
      events_norm; unfold delivered_to; simpl;
      rewrite ?decide_True by reflexivity;
      repeat match goal with
        | H : tg_sendMessage _ _ _ = _ |- _ => rewrite H
        end;
      auto.
Qed.

Lemma refused_submission_witness :
  let env := stub true agent_down None in
  let message := emptyPhotoMessage 7 in
  let w := world_awaiting_passport in
  let w' := snd (handleWebhook env message w) in
  let evs := new_events w w' in
  let retry := "Please, send: document or photo" in
  let retried := if tg_sendMessage env 7 retry then [retry] else [] in
  getContentType message = CPhoto
  /\ fileRefusal env message CPhoto = None
  /\ sessions w' = sessions w
  /\ agent_ran evs = false
  /\ tier2_ran evs = false
  /\ delivered_to 7 evs
     = match fileRefusal env message (fileTypeOf (getContentType message)) with
       | Some refusal =>
           if tg_sendMessage env 7 refusal then [refusal] else retried
       | None => retried
       end.
Proof.
  cbv zeta.
  split; [reflexivity |].
  split; [reflexivity |].
  apply (refused_submission (stub true agent_down None) (emptyPhotoMessage 7)
           world_awaiting_passport (session_of 7 world_awaiting_passport)
           awaiting_passport passport).
  - vm_compute. reflexivity.
  - vm_compute. reflexivity.
  - reflexivity.
  - left. reflexivity.
  - reflexivity.
Defined.

(* ================================================================== *)
(** ** The manual-input flag *)
(* ================================================================== *)

Lemma flag_kept_refl s : flag_kept s s.
Proof. reflexivity. Qed.

Lemma flag_kept_trans a b c : flag_kept a b -> flag_kept b c -> flag_kept a c.
Proof. unfold flag_kept. congruence. Qed.

Lemma flag_sticky_refl s : flag_sticky s s.
Proof. intros H. exact H. Qed.

Lemma flag_sticky_trans a b c :
  flag_sticky a b -> flag_sticky b c -> flag_sticky a c.
Proof. unfold flag_sticky. auto. Qed.

Ltac flag_solve :=
  unfold flag_kept, flag_sticky; intros;
  autorewrite with session_db; auto.

Ltac flag_relates :=
  repeat first [ relates_step | solve [flag_solve] ].

Lemma flag_kept_handler env st chat_id contentType message :
  awaited_document st = None ->
  relates flag_kept (handler (stepConfigs env st) chat_id contentType message).
Proof.
  intros Hst.
  pose proof flag_kept_refl as Rr. pose proof flag_kept_trans as Rt.
  assert (forall s ty fields,
             flag_kept s (Session.setDocumentData ty (Structured fields) s))
    as Rtool by flag_solve.
  unfold relates.
  destruct st; try discriminate Hst; cbn [handler stepConfigs];
    unfold handleConfirmation, getAIConfirmation, getMessagesForStep,
      acceptPath, rejectPath, sendPolicy;
    cbn [onAccept onReject confirming_passport_config
         confirming_driversId_config confirming_price_config];
    unfold sendPolicy; cbv zeta;
    flag_relates.
Qed.

Lemma flag_sticky_processDocument env chat_id contentType message config :
  contentType <> CText ->
  relates flag_sticky
    (processDocument env chat_id contentType message config).
Proof.
  intros Hct.
  pose proof flag_sticky_refl as Rr. pose proof flag_sticky_trans as Rt.
  assert (forall s ty fields,
             flag_sticky s (Session.setDocumentData ty (Structured fields) s))
    as Rtool by flag_solve.
  unfold relates, processDocument.
  apply relates_bind; [rel_hyp | apply relates_readSession; rel_hyp |].
  intros s. rewrite (bool_decide_eq_false_2 _ Hct), andb_false_r.
  unfold getFileUrl, fetchFileUrl, tier1_agent, tier2_mindee, tier3_manual.
  cbv zeta. flag_relates.
Qed.

Lemma awaited_handler env st ty :
  awaited_document st = Some ty ->
  handler (stepConfigs env st)
  = (fun chat_id contentType message =>
       processDocument env chat_id contentType message {| documentType := ty |}).
Proof. destruct st; intros [= <-]; reflexivity. Qed.

Lemma manual_input_stored env message w s st ty :
  sessions w !! from_id message = Some s ->
  Session.step s = Some st ->
  awaited_document st = Some ty ->
  getContentType message = CText ->
  awaitingManualInput s = Some true ->
  exists s',
    sessions (snd (handleWebhook env message w)) !! from_id message = Some s'
    /\ awaitingManualInput s' = Some false
    /\ Session.documentData ty s' = RawText (text_of message).
Proof.
  intros Hs Hst Hty Hct Hflag.
  assert (Session.manualInputPending s = true) as Hpending
    by (unfold Session.manualInputPending; rewrite Hflag; reflexivity).
  assert (getContentType message <> CUnsupported) as Hsup
    by (rewrite Hct; discriminate).
  rewrite (handleWebhook_dispatch env message w s st Hs Hst Hsup)
    by (rewrite Hpending, Hct; apply orb_true_r).
  rewrite (awaited_handler env st ty Hty), Hct.
  rewrite processDocument_manual
    by (rewrite (session_of_lookup _ (console_logged s w) _ Hs); exact Hpending).
  rewrite handleManualInput_run. cbv zeta. cbn [documentType].
  destruct (tg_sendMessage env (from_id message) _); cbv zeta;
    repeat match goal with
      | |- context [if ?b then _ else _] => destruct b
      end;
    cbn [snd];
    (eexists; split; [lookup_solve |]);
    autorewrite with session_db; auto.
Qed.

(** X10. The manual-input flag, once raised, is lowered by one thing
    only: a text of that user at a document-awaiting step, which is then
    stored verbatim as the document.  Any other message, of this user or
    of another, leaves the flag raised; in particular a photo that the
    pipeline reads successfully moves the session on with the flag still
    raised, so that a text at the next document-awaiting step is taken as
    that document. *)
Theorem manual_flag_lowered_by_manual_input_only env message w k s :
  sessions w !! k = Some s ->
  awaitingManualInput s = Some true ->
  let w' := snd (handleWebhook env message w) in
  exists s',
    sessions w' !! k = Some s'
    /\ match (if bool_decide (k = from_id message
                              /\ getContentType message = CText)
              then awaited_by s else None) with
       | Some ty =>
           awaitingManualInput s' = Some false
           /\ Session.documentData ty s' = RawText (text_of message)
       | None => awaitingManualInput s' = Some true
       end.
Proof.
  intros Hs Hflag. cbv zeta.
  destruct (decide (k = from_id message)) as [-> | Hk].
  2: { rewrite bool_decide_eq_false_2 by (intros [? _]; contradiction).
       pose proof (others_handleWebhook env message w k) as Hrel.
       rewrite Hs in Hrel.
       destruct (sessions (snd (handleWebhook env message w)) !! k) as [s' |];
         [| contradiction].
       exists s'. split; [reflexivity |]. simpl in Hrel.
       destruct Hrel as [E | (_ & Hf & _)]; [contradiction | congruence]. }
  unfold awaited_by.
  destruct (Session.step s) as [st |] eqn:Hst.
  2: { rewrite (handleWebhook_no_step env message w s Hs Hst).
       exists s. split; [exact Hs |].
       destruct (bool_decide _); exact Hflag. }
  destruct (decide (getContentType message = CText)) as [Hct | Hct].
  - rewrite bool_decide_eq_true_2 by auto.
    destruct (awaited_document st) as [ty |] eqn:Hty.
    { apply (manual_input_stored env message w s st ty); assumption. }
    destruct (bool_decide (getContentType message = CUnsupported)
              || negb (bool_decide (getContentType message
                                      ∈ expectsContent (stepConfigs env st))
                       || Session.manualInputPending s
                            && bool_decide (getContentType message = CText)))
      eqn:Hun.
    { destruct (handleWebhook_unexpected env message w s st Hs Hst Hun)
        as (s' & Hs' & _ & Hf & _).
      exists s'. split; [exact Hs' | congruence]. }
    apply orb_false_iff in Hun as [Hsup Hexp].
    apply bool_decide_eq_false in Hsup. apply negb_false_iff in Hexp.
    rewrite (handleWebhook_sessions env message w s st Hs Hst Hsup Hexp).
    destruct (relates_Some flag_kept _ (console_logged s w) (from_id message) s
                flag_kept_refl
                (flag_kept_handler env st (from_id message)
                   (getContentType message) message Hty))
      as (s' & Hs' & Hf); [lookup_solve |].
    exists s'. split; [exact Hs' |]. unfold flag_kept in Hf. congruence.
  - rewrite bool_decide_eq_false_2 by (intros [_ ?]; contradiction).
    destruct (bool_decide (getContentType message = CUnsupported)
              || negb (bool_decide (getContentType message
                                      ∈ expectsContent (stepConfigs env st))
                       || Session.manualInputPending s
                            && bool_decide (getContentType message = CText)))
      eqn:Hun.
    { destruct (handleWebhook_unexpected env message w s st Hs Hst Hun)
        as (s' & Hs' & _ & Hf & _).
      exists s'. split; [exact Hs' | congruence]. }
    apply orb_false_iff in Hun as [Hsup Hexp].
    apply bool_decide_eq_false in Hsup. apply negb_false_iff in Hexp.
    rewrite (handleWebhook_sessions env message w s st Hs Hst Hsup Hexp).
    destruct (awaited_document st) as [ty |] eqn:Hty.
    + rewrite (awaited_handler env st ty Hty).
      destruct (relates_Some flag_sticky _ (console_logged s w)
                  (from_id message) s flag_sticky_refl
                  (flag_sticky_processDocument env (from_id message)
                     (getContentType message) message
                     {| documentType := ty |} Hct))
        as (s' & Hs' & Hf); [lookup_solve |].
      exists s'. split; [exact Hs' | exact (Hf Hflag)].
    + destruct (relates_Some flag_kept _ (console_logged s w)
                  (from_id message) s flag_kept_refl
                  (flag_kept_handler env st (from_id message)
                     (getContentType message) message Hty))
        as (s' & Hs' & Hf); [lookup_solve |].
      exists s'. split; [exact Hs' |]. unfold flag_kept in Hf. congruence.
Qed.

Lemma manual_flag_lowered_by_manual_input_only_witness :
  let env := stub true agent_down (Some samplePassport) in
  let message := photoMessage 7 in
  let w := world_manual_pending in
  let s := session_of 7 w in
  let w' := snd (handleWebhook env message w) in
  awaitingManualInput s = Some true
  /\ Session.step (session_of 7 w') = Some confirming_passport
  /\ exists s',
       sessions w' !! 7%Z = Some s'
       /\ match (if bool_decide (7%Z = from_id message
                                 /\ getContentType message = CText)
                 then awaited_by s else None) with
          | Some ty =>
              awaitingManualInput s' = Some false
              /\ Session.documentData ty s' = RawText (text_of message)
          | None => awaitingManualInput s' = Some true
          end.
Proof.
  cbv zeta.
  split; [vm_compute; reflexivity |].
  split; [vm_compute; reflexivity |].
  apply (manual_flag_lowered_by_manual_input_only
           (stub true agent_down (Some samplePassport)) (photoMessage 7)
           world_manual_pending 7%Z (session_of 7 world_manual_pending)).
  - vm_compute. reflexivity.
  - vm_compute. reflexivity.
Defined.

(* ================================================================== *)
(** ** One user's message and the other users' sessions *)
(* ================================================================== *)

Lemma others_frame_refl chat_id k s : others_frame chat_id k s s.
Proof. right. apply session_frame_refl. Qed.

Lemma others_frame_trans chat_id k a b c :
  others_frame chat_id k a b -> others_frame chat_id k b c ->
  others_frame chat_id k a c.
Proof.
  intros [-> | H1] [E | H2]; try (left; congruence).
  right. eapply session_frame_trans; eassumption.
Qed.

Lemma others_frame_tool chat_id k s ty fields :
  others_frame chat_id k s (Session.setDocumentData ty (Structured fields) s).
Proof. right. apply session_frame_setDocument. Qed.

Lemma others_frame_own chat_id s s' : others_frame chat_id chat_id s s'.
Proof. left. reflexivity. Qed.

Ltac frame_solve chat_id :=
  pose proof (others_frame_refl chat_id) as Rr;
  pose proof (others_frame_trans chat_id) as Rt;
  pose proof (others_frame_tool chat_id) as Rtool;
  repeat first
    [ relates_step
    | apply others_frame_own
    | apply (relates_execute_tools (others_frame chat_id)); rel_hyp ].

Lemma others_frame_handler env st chat_id contentType message :
  relates_at (others_frame chat_id)
    (handler (stepConfigs env st) chat_id contentType message).
Proof.
  destruct st; cbn [handler stepConfigs];
    unfold handleConfirmation, getAIConfirmation, getMessagesForStep,
      acceptPath, rejectPath, processDocument, getFileUrl, fetchFileUrl,
      handleManualInput, tier1_agent, tier2_mindee, tier3_manual;
    cbn [onAccept onReject confirming_passport_config
         confirming_driversId_config confirming_price_config];
    unfold sendPolicy; cbv zeta;
    frame_solve chat_id.
Qed.

Lemma others_frame_handleWebhook env message :
  relates_at (others_frame (from_id message)) (handleWebhook env message).
Proof.
  unfold handleWebhook, routeMessage. cbv zeta.
  pose proof (others_frame_refl (from_id message)) as Rr.
  pose proof (others_frame_trans (from_id message)) as Rt.
  pose proof (others_frame_tool (from_id message)) as Rtool.
  repeat first
    [ apply others_frame_handler
    | relates_step
    | apply others_frame_own ].
Qed.

(** *** Entries that stay as they are *)

Lemma untouched_ret k {A} (a : A) : untouched k (ret a).
Proof. intros w. reflexivity. Qed.

Lemma untouched_throw k {A} : untouched k (@throw A).
Proof. intros w. reflexivity. Qed.

Lemma untouched_emit k e : untouched k (emit e).
Proof. intros w. reflexivity. Qed.

Lemma untouched_readSession k chat_id : untouched k (readSession chat_id).
Proof. intros w. reflexivity. Qed.

Lemma untouched_updateSession k chat_id f :
  k <> chat_id -> untouched k (updateSession chat_id f).
Proof.
  intros Hk w. unfold updateSession. cbn [snd sessions].
  apply lookup_alter_ne. congruence.
Qed.

Lemma untouched_sessionStorage_get k chat_id :
  k <> chat_id -> untouched k (sessionStorage_get chat_id).
Proof.
  intros Hk w. unfold sessionStorage_get.
  destruct (sessions w !! chat_id); cbn [snd sessions]; [reflexivity |].
  apply lookup_insert_ne. congruence.
Qed.

Lemma untouched_bind k {A B} (m : M A) (f : A -> M B) :
  untouched k m -> (forall a, untouched k (f a)) -> untouched k (bind m f).
Proof.
  intros Hm Hf w. unfold bind. specialize (Hm w).
  destruct (m w) as [[a |] w1]; cbn [snd] in *.
  - rewrite (Hf a w1). exact Hm.
  - exact Hm.
Qed.

Lemma untouched_try_catch k {A} (m h : M A) :
  untouched k m -> untouched k h -> untouched k (try_catch m h).
Proof.
  intros Hm Hh w. unfold try_catch. specialize (Hm w).
  destruct (m w) as [[a |] w1]; cbn [snd] in *.
  - exact Hm.
  - rewrite (Hh w1). exact Hm.
Qed.

Ltac untouched_step :=
  match goal with
  | |- untouched _ (bind _ _) => apply untouched_bind; [| intros ?]
  | |- untouched _ (try_catch _ _) => apply untouched_try_catch
  | |- untouched _ (ret _) => apply untouched_ret
  | |- untouched _ throw => apply untouched_throw
  | |- untouched _ (emit _) => apply untouched_emit
  | |- untouched _ logError => apply untouched_emit
  | |- untouched _ (readSession _) => apply untouched_readSession
  | |- untouched _ (updateSession _ _) =>
      apply untouched_updateSession; assumption
  | |- untouched _ (sessionStorage_get _) =>
      apply untouched_sessionStorage_get; assumption
  | |- untouched _ (if ?b then _ else _) => destruct b
  | |- untouched _ (match ?x with _ => _ end) => destruct x
  end.

Lemma untouched_sendMessage k env chat_id message :
  untouched k (sendMessage env chat_id message).
Proof. unfold sendMessage. cbv zeta. repeat untouched_step. Qed.

Lemma untouched_sendDocument k env chat_id buffer caption :
  untouched k (sendDocument env chat_id buffer caption).
Proof. unfold sendDocument. cbv zeta. repeat untouched_step. Qed.

Lemma untouched_execute_tools k env chat_id tcs :
  k <> chat_id ->
  (forall tc, tc ∈ tcs -> tc_chat_id tc = chat_id) ->
  untouched k (execute_tools env tcs).
Proof.
  intros Hk. induction tcs as [| tc rest IH]; intros Htcs; simpl.
  - apply untouched_ret.
  - apply untouched_bind.
    + unfold execute_tool. rewrite (Htcs tc) by set_solver.
      repeat untouched_step.
    + intros _. apply IH. intros tc' Hin. apply Htcs. set_solver.
Qed.

Lemma untouched_promptAgent k env chat_id userMessage instruction :
  k <> chat_id ->
  tools_addressed env chat_id ->
  untouched k (promptAgent env chat_id userMessage instruction).
Proof.
  intros Hk Htools. unfold promptAgent. cbv zeta.
  repeat first
    [ apply (untouched_execute_tools k env chat_id);
      [assumption | intros tc; apply Htools]
    | untouched_step ].
Qed.

Ltac untouched_solve k env chat_id :=
  repeat first
    [ apply (untouched_promptAgent k env chat_id); assumption
    | apply untouched_sendMessage
    | apply untouched_sendDocument
    | untouched_step ].

Lemma untouched_handler k env st chat_id contentType message :
  k <> chat_id ->
  tools_addressed env chat_id ->
  untouched k (handler (stepConfigs env st) chat_id contentType message).
Proof.
  intros Hk Htools.
  destruct st; cbn [handler stepConfigs];
    unfold handleConfirmation, getAIConfirmation, getMessagesForStep,
      acceptPath, rejectPath, processDocument, getFileUrl, fetchFileUrl,
      handleManualInput, tier1_agent, tier2_mindee, tier3_manual;
    cbn [onAccept onReject confirming_passport_config
         confirming_driversId_config confirming_price_config];
    unfold sendPolicy; cbv zeta;
    untouched_solve k env chat_id.
Qed.

Lemma untouched_handleWebhook k env message :
  k <> from_id message ->
  tools_addressed env (from_id message) ->
  untouched k (handleWebhook env message).
Proof.
  intros Hk Htools. unfold handleWebhook, routeMessage. cbv zeta.
  repeat first
    [ apply untouched_handler; assumption
    | apply (untouched_promptAgent k env (from_id message)); assumption
    | apply untouched_sendMessage
    | untouched_step ].
Qed.

(** X11. A message of one user changes the session of another user
    only through the tools of the agent: the other session keeps its
    step, its transcript and its flag, and a document field changes only
    by being overwritten with an extracted record (a tool call may also
    create a session for an identifier that had none).  When every tool
    call of the agent is addressed to the sender, the entries of all
    other users stay exactly as they were. *)
Theorem other_users_sessions env message w k :
  k <> from_id message ->
  let w' := snd (handleWebhook env message w) in
  entry_related session_frame (sessions w !! k) (sessions w' !! k)
  /\ (tools_addressed env (from_id message) ->
      sessions w' !! k = sessions w !! k).
Proof.
  intros Hk. cbv zeta. split.
  - pose proof (others_frame_handleWebhook env message w k) as Hrel.
    destruct (sessions w !! k), (sessions (snd (handleWebhook env message w)) !! k);
      simpl in *; try exact Hrel;
      destruct Hrel as [E | F]; [contradiction | exact F | contradiction | exact F].
  - intros Htools. apply (untouched_handleWebhook k env message Hk Htools).
Qed.

Lemma diligent_agent_addressed : tools_addressed diligent_agent 7.
Proof.
  intros items tc Hin. simpl in Hin.
  apply elem_of_cons in Hin as [-> | Hin]; [reflexivity |].
  apply elem_of_cons in Hin as [-> | Hin]; [reflexivity |].
  apply elem_of_nil in Hin. contradiction.
Defined.

Lemma other_users_sessions_witness :
  let env := diligent_agent in
  let message := photoMessage 7 in
  let w := world_awaiting_passport in
  let w' := snd (handleWebhook env message w) in
  8%Z <> from_id message
  /\ entry_related session_frame (sessions w !! 8%Z) (sessions w' !! 8%Z)
  /\ sessions w' !! 8%Z = sessions w !! 8%Z.
Proof.
  cbv zeta.
  assert (8%Z <> from_id (photoMessage 7)) as Hk by (simpl; lia).
  split; [exact Hk |].
  destruct (other_users_sessions diligent_agent (photoMessage 7)
              world_awaiting_passport 8%Z Hk) as [Hframe Hsame].
  split; [exact Hframe |].
  apply Hsame. exact diligent_agent_addressed.
Defined.

(* ================================================================== *)
(** ** The agent call *)
(* ================================================================== *)

Lemma contextualMessage_empty_instruction chat_id userMessage s :
  contextualMessage chat_id userMessage s (Some "")
  = contextualMessage chat_id userMessage s None.
Proof. reflexivity. Qed.

(** X12. [promptAgent] returns the final output of the run when it is a
    non-empty string and raises otherwise.  Only on success does it
    replace the transcript of the caller, by the history of the run; a
    call that raises leaves the transcript as it was.  In both cases the
    step and the flag of the caller stay, a document field changes only
    by a record a tool has extracted, and one run is recorded.  An empty
    instruction is the same as none. *)
Theorem promptAgent_outcome env chat_id userMessage instruction w s :
  sessions w !! chat_id = Some s ->
  let out :=
    agent_run env
      (_conversation s
         ++ [user (contextualMessage chat_id userMessage s instruction)]) in
  let r := promptAgent env chat_id userMessage instruction w in
  (forall reply,
      fst r = Ret reply
      <-> exists res, final out = Some res
                      /\ finalOutput res = Some reply /\ reply <> "")
  /\ (exists s',
         sessions (snd r) !! chat_id = Some s'
         /\ Session.step s' = Session.step s
         /\ awaitingManualInput s' = awaitingManualInput s
         /\ (forall ty, keeps_document ty s s')
         /\ _conversation s'
            = match fst r, final out with
              | Ret _, Some res => history res
              | _, _ => _conversation s
              end)
  /\ events (snd r) = events w ++ [RunAgent chat_id userMessage]
  /\ promptAgent env chat_id userMessage (Some "") w
     = promptAgent env chat_id userMessage None w.
Proof.
  intros Hs. cbv zeta.
  destruct (agent_world_session env chat_id userMessage instruction w chat_id s Hs)
    as (sa & Hsa & Fi & Fc & Ff & Fd).
  split; [| split; [| split; [| reflexivity]]];
    rewrite promptAgent_world, (session_of_lookup _ _ _ Hs);
    unfold agentReply, agentCall;
    set (out := agent_run env _).
  - intros reply.
    destruct (final out) as [res |];
      [| split; [discriminate | intros (? & [=] & _)]].
    destruct (finalOutput res) as [o |] eqn:Ho.
    2: { split; [discriminate |].
         intros (res' & [= <-] & Ho' & _). congruence. }
    unfold truthy. destruct (String.eqb_spec o "") as [-> | Hne]; simpl.
    + split; [discriminate |].
      intros (res' & [= <-] & Ho' & Hne). congruence.
    + split.
      * intros [= <-]. exists res. auto.
      * intros (res' & [= <-] & Ho' & _). congruence.
  - destruct (final out) as [res |];
      [| exists sa; repeat split; auto; apply step_by_index; exact Fi].
    destruct (finalOutput res) as [o |];
      [| exists sa; repeat split; auto; apply step_by_index; exact Fi].
    destruct (truthy o); cbn [fst snd];
      [| exists sa; repeat split; auto; apply step_by_index; exact Fi].
    eexists. split; [lookup_solve |].
    split; [apply step_by_index; autorewrite with session_db; exact Fi |].
    split; [autorewrite with session_db; exact Ff |].
    split; [| reflexivity].
    intros ty. unfold keeps_document. autorewrite with session_db. apply Fd.
  - destruct (final out) as [res |]; [| cbn [snd]; apply agent_world_events].
    destruct (finalOutput res) as [o |]; [| cbn [snd]; apply agent_world_events].
    destruct (truthy o); cbn [snd]; autorewrite with events_db; reflexivity.
Qed.

Lemma promptAgent_outcome_witness :
  let env := stub true (agent_says "Please send a photo of your passport.") None in
  let w := world_awaiting_passport in
  let s := session_of 7 w in
  let out :=
    agent_run env
      (_conversation s ++ [user (contextualMessage 7 "hello" s None)]) in
  let r := promptAgent env 7 "hello" None w in
  fst r = Ret "Please send a photo of your passport."
  /\ (forall reply,
         fst r = Ret reply
         <-> exists res, final out = Some res
                         /\ finalOutput res = Some reply /\ reply <> "")
  /\ (exists s',
         sessions (snd r) !! 7%Z = Some s'
         /\ Session.step s' = Session.step s
         /\ awaitingManualInput s' = awaitingManualInput s
         /\ (forall ty, keeps_document ty s s')
         /\ _conversation s'
            = match fst r, final out with
              | Ret _, Some res => history res
              | _, _ => _conversation s
              end)
  /\ events (snd r) = events w ++ [RunAgent 7 "hello"]
  /\ promptAgent env 7 "hello" (Some "") w = promptAgent env 7 "hello" None w.
Proof.
  cbv zeta.
  split; [vm_compute; reflexivity |].
  apply (promptAgent_outcome
           (stub true (agent_says "Please send a photo of your passport.") None)
           7 "hello" None world_awaiting_passport
           (session_of 7 world_awaiting_passport)).
  vm_compute. reflexivity.
Defined.

(* ================================================================== *)
(** ** Markers at the end of a reply *)
(* ================================================================== *)

Lemma endsWith_app s x : endsWith (s +:+ x) x = true.
Proof.
  induction s as [| c s IH].
  - change ("" +:+ x) with x.
    destruct x; cbn [endsWith]; rewrite String.eqb_refl; reflexivity.
  - change (String c s +:+ x) with (String c (s +:+ x)). cbn [endsWith].
    rewrite IH. apply orb_true_r.
Qed.

Lemma endsWith_inv s x : endsWith s x = true -> exists pre, s = pre +:+ x.
Proof.
  induction s as [| c s IH]; cbn [endsWith]; intros H.
  - rewrite orb_false_r in H. apply String.eqb_eq in H. exists "". exact H.
  - apply orb_true_iff in H as [H | H].
    + apply String.eqb_eq in H. exists "". exact H.
    + destruct (IH H) as [pre ->]. exists (String c pre). reflexivity.
Qed.

(** A marker that follows a text without brackets is what [replace]
    removes. *)
Lemma strip_marker body rest :
  bracket_free body = true ->
  replace (String "["%char rest) "" (body +:+ String "["%char rest) = body.
Proof.
  induction body as [| c body IH]; intros Hfree.
  - change ("" +:+ String "["%char rest) with (String "["%char rest).
    rewrite replace_unfold, prefix_refl, skip_all. reflexivity.
  - simpl in Hfree. apply andb_true_iff in Hfree as [Hc Hfree].
    change (String c body +:+ String "["%char rest)
      with (String c (body +:+ String "["%char rest)).
    rewrite replace_unfold.
    assert (String.prefix (String "["%char rest)
              (String c (body +:+ String "["%char rest)) = false) as ->.
    { cbn [String.prefix].
      destruct (ascii_dec "["%char c) as [<- | Hne]; [| reflexivity].
      rewrite Ascii.eqb_refl in Hc. discriminate Hc. }
    rewrite (IH Hfree). reflexivity.
Qed.

Lemma rejected_not_confirmed body :
  endsWith (body +:+ "[REJECTED]") "[CONFIRMED]" = false.
Proof.
  destruct (endsWith (body +:+ "[REJECTED]") "[CONFIRMED]") eqn:E;
    [| reflexivity].
  exfalso. apply endsWith_inv in E as [pre E]. revert pre E.
  induction body as [| c body IH]; intros pre E.
  - apply (f_equal String.length) in E. rewrite !append_length in E.
    simpl in E. lia.
  - destruct pre as [| c' pre].
    + pose proof (f_equal String.length E) as L.
      change (String c body +:+ "[REJECTED]")
        with (String c (body +:+ "[REJECTED]")) in L.
      cbn [String.length] in L. rewrite !append_length in L. simpl in L.
      assert (String.length body = 0%nat) as L0 by lia.
      destruct body; [| discriminate L0]. discriminate E.
    + injection E as _ E. apply (IH pre E).
Qed.

(** X13. A reply that ends in the [REJECTED] marker after a text without
    brackets rejects a document: the user receives the text, trimmed and
    without the marker; it is appended to the history of the run as the
    transcript; the stored document is set to null and the session goes
    back to the step that awaits it. *)
Theorem rejected_reply env message w s st ty txt body h :
  sessions w !! from_id message = Some s ->
  Session.step s = Some st ->
  confirmed_document st = Some ty ->
  getContentType message = CText ->
  text message = Some txt ->
  agentReply (agentCall env (from_id message) txt
                (Some AI_CONFIRMATION_INSTRUCTION) s)
  = Some (body +:+ "[REJECTED]", h) ->
  bracket_free body = true ->
  transport_up env ->
  let chat_id := from_id message in
  let w' := snd (handleWebhook env message w) in
  delivered_to chat_id (new_events w w') = [trim body]
  /\ exists s',
       sessions w' !! chat_id = Some s'
       /\ Session.documentData ty s' = Null
       /\ _stepIndex s' = Nat.pred (_stepIndex s)
       /\ awaited_by s' = Some ty
       /\ _conversation s' = h ++ [assistant (trim body)].
Proof.
  intros Hs Hst Hty Hct Htxt Hreply Hfree Hup. cbv zeta.
  destruct (confirmed_config env st ty Hty) as (config & Hcfg & _ & Hrej).
  rewrite (handleWebhook_confirmation env message w s st config Hs Hst Hcfg Hct).
  rewrite handleConfirmation_run. cbv zeta.
  rewrite (text_of_Some _ _ Htxt).
  rewrite (session_of_lookup _ (console_logged s w) _ Hs), Hreply.
  rewrite rejected_not_confirmed, endsWith_app.
  rewrite (strip_marker body "REJECTED]" Hfree).
  unfold resolve_decision. rewrite Hup, Hrej.
  destruct (agent_world_session env (from_id message) txt
              (Some AI_CONFIRMATION_INSTRUCTION) (console_logged s w)
              (from_id message) s Hs) as (sa & Hsa & Fi & _).
  cbn [snd]. split.
  - events_norm. rewrite Hup. unfold delivered_to. simpl.
    rewrite decide_True by reflexivity. reflexivity.
  - eexists. split; [lookup_solve |].
    autorewrite with session_db.
    split; [reflexivity |].
    split; [rewrite Fi; reflexivity |].
    split; [| reflexivity].
    unfold awaited_by.
    erewrite (step_by_index (Session.prevStep s) _).
    + apply step_is in Hst.
      destruct st; try discriminate Hty; injection Hty as <-;
        unfold Session.step, Session.prevStep; rewrite Hst; reflexivity.
    + autorewrite with session_db. rewrite Fi. reflexivity.
Qed.

Lemma rejected_reply_witness :
  let env := stub true (agent_says "No problem, please send it again. [REJECTED]")
               None in
  let message := textMessage 7 "the name is wrong" in
  let w := world_confirming_passport in
  let s := session_of 7 w in
  let w' := snd (handleWebhook env message w) in
  Session.step s = Some confirming_passport
  /\ trim "No problem, please send it again. " = "No problem, please send it again."
  /\ delivered_to 7 (new_events w w')
     = [trim "No problem, please send it again. "]
  /\ exists s',
       sessions w' !! 7%Z = Some s'
       /\ Session.documentData passport s' = Null
       /\ _stepIndex s' = Nat.pred (_stepIndex s)
       /\ awaited_by s' = Some passport
       /\ _conversation s'
          = [assistant "No problem, please send it again. [REJECTED]"]
              ++ [assistant (trim "No problem, please send it again. ")].
Proof.
  cbv zeta.
  split; [vm_compute; reflexivity |].
  split; [vm_compute; reflexivity |].
  apply (rejected_reply
           (stub true (agent_says "No problem, please send it again. [REJECTED]")
              None)
           (textMessage 7 "the name is wrong") world_confirming_passport
           (session_of 7 world_confirming_passport) confirming_passport passport
           "the name is wrong" "No problem, please send it again. ").
  - vm_compute. reflexivity.
  - vm_compute. reflexivity.
  - reflexivity.
  - reflexivity.
  - reflexivity.
  - vm_compute. reflexivity.
  - vm_compute. reflexivity.
  - intros ? ?. reflexivity.
Defined.

(* ================================================================== *)
(** ** The first message *)
(* ================================================================== *)

Lemma session_of_created chat_id w :
  sessions w !! chat_id = None ->
  session_of chat_id (created chat_id w) = session_of chat_id w.
Proof.
  intros H. unfold session_of. rewrite lookup_created, H. reflexivity.
Qed.

Lemma start_command_present env message w s :
  sessions w !! from_id message = Some s ->
  Session.step s = Some start ->
  getContentType message = CCommand ->
  let chat_id := from_id message in
  let w' := snd (handleWebhook env message w) in
  let retry := "Please, send: command" in
  if tg_sendMessage env chat_id welcomeMessage
  then sessions w' !! chat_id = Some (Session.nextStep s)
       /\ delivered_to chat_id (new_events w w') = [welcomeMessage]
  else sessions w' !! chat_id = Some s
       /\ delivered_to chat_id (new_events w w')
          = (if tg_sendMessage env chat_id retry then [retry] else []).
Proof.
  intros Hs Hst Hct. cbv zeta.
  assert (getContentType message <> CUnsupported) as Hsup
    by (rewrite Hct; discriminate).
  rewrite (handleWebhook_dispatch env message w s start Hs Hst Hsup)
    by (rewrite Hct; reflexivity).
  change (retryPrompt (stepConfigs env start)) with "Please, send: command".
  cbn [handler stepConfigs]. rewrite bind_run, sendMessage_run.
  destruct (tg_sendMessage env (from_id message) welcomeMessage) eqn:Hsend.
  - rewrite updateSession_run. cbn [snd]. split; [lookup_solve |].
    events_norm. unfold delivered_to. simpl.
    rewrite decide_True by reflexivity. reflexivity.
  - cbv zeta.
    destruct (tg_sendMessage env (from_id message) "Please, send: command")
      eqn:Hretry; cbn [snd];
      (split; [lookup_solve |]);
      events_norm; unfold delivered_to; simpl;
      rewrite ?decide_True by reflexivity; rewrite ?Hretry; reflexivity.
Qed.

(** X14. A bot command at [start], whatever its name and whether or not
    the user has a session yet, sends the welcome message and, once it is
    delivered, moves the session to [awaiting_passport]; when it is not
    delivered the session stays at [start] and the retry prompt is sent.
    Nothing else in the session changes. *)
Theorem start_command env message w :
  Session.step (session_of (from_id message) w) = Some start ->
  getContentType message = CCommand ->
  let chat_id := from_id message in
  let s := session_of chat_id w in
  let w' := snd (handleWebhook env message w) in
  let retry := "Please, send: command" in
  if tg_sendMessage env chat_id welcomeMessage
  then sessions w' !! chat_id = Some (Session.nextStep s)
       /\ Session.step (Session.nextStep s) = Some awaiting_passport
       /\ delivered_to chat_id (new_events w w') = [welcomeMessage]
  else sessions w' !! chat_id = Some s
       /\ delivered_to chat_id (new_events w w')
          = (if tg_sendMessage env chat_id retry then [retry] else []).
Proof.
  intros Hst Hct. cbv zeta.
  assert (Session.step (Session.nextStep (session_of (from_id message) w))
          = Some awaiting_passport) as Hnext.
  { apply step_is. autorewrite with session_db.
    apply step_is in Hst. rewrite Hst. reflexivity. }
  destruct (sessions w !! from_id message) as [s |] eqn:Hs.
  - rewrite (session_of_lookup _ _ _ Hs) in *.
    pose proof (start_command_present env message w s Hs Hst Hct) as H.
    cbv zeta in H.
    destruct (tg_sendMessage env (from_id message) welcomeMessage);
      [destruct H; auto | exact H].
  - rewrite (handleWebhook_created env message w Hs).
    rewrite <- (session_of_created _ _ Hs) in *.
    rewrite <- (new_events_created (from_id message) w).
    pose proof (start_command_present env message
                  (created (from_id message) w)
                  (session_of (from_id message) (created (from_id message) w)))
      as H.
    cbv zeta in H.
    specialize (H ltac:(unfold session_of; rewrite lookup_created; reflexivity)
                  Hst Hct).
    destruct (tg_sendMessage env (from_id message) welcomeMessage);
      [destruct H; auto | exact H].
Qed.

Lemma start_command_witness :
  let env := stub true agent_down None in
  let message := startCommand 9 in
  let w := world_awaiting_passport in
  let s := session_of 9 w in
  let w' := snd (handleWebhook env message w) in
  let retry := "Please, send: command" in
  sessions w !! 9%Z = None
  /\ if tg_sendMessage env 9 welcomeMessage
     then sessions w' !! 9%Z = Some (Session.nextStep s)
          /\ Session.step (Session.nextStep s) = Some awaiting_passport
          /\ delivered_to 9 (new_events w w') = [welcomeMessage]
     else sessions w' !! 9%Z = Some s
          /\ delivered_to 9 (new_events w w')
             = (if tg_sendMessage env 9 retry then [retry] else []).
Proof.
  cbv zeta.
  split; [vm_compute; reflexivity |].
  apply (start_command (stub true agent_down None) (startCommand 9)
           world_awaiting_passport).
  - vm_compute. reflexivity.
  - reflexivity.
Defined.

(* ================================================================== *)
(** ** A conversation without the AI services *)
(* ================================================================== *)

Section Degraded.

Variable env : Collab.
Hypothesis Hdown : services_down env.
Hypothesis Hup : transport_up env.

Lemma down_agentReply chat_id userMessage instruction s :
  agentReply (agentCall env chat_id userMessage instruction s) = None.
Proof. unfold agentCall. rewrite (proj1 Hdown). reflexivity. Qed.

Lemma down_agent_world chat_id userMessage instruction w :
  agent_world env chat_id userMessage instruction w
  = add_event (RunAgent chat_id userMessage) w.
Proof.
  unfold agent_world, agentCall. rewrite (proj1 Hdown). apply after_tools_nil.
Qed.

(** A submitted file ends in the request to type the data. *)
Lemma down_submission message w s st ty url :
  sessions w !! from_id message = Some s ->
  Session.step s = Some st ->
  awaited_document st = Some ty ->
  getContentType message = CPhoto \/ getContentType message = CDocument ->
  fileUrlOf env message (fileTypeOf (getContentType message)) = Some url ->
  sessions (snd (handleWebhook env message w)) !! from_id message
  = Some (Session.setAwaitingManualInput true
            (Session.addToConversationHistory (apologyMsg ty) RoleAssistant s)).
Proof.
  intros Hs Hst Hty Hct Hurl.
  destruct (awaited_expects env st ty (getContentType message) Hty Hct)
    as [Hexp Hhandler].
  assert (getContentType message <> CUnsupported) as Hsup
    by (destruct Hct as [-> | ->]; discriminate).
  rewrite (handleWebhook_sessions env message w s st Hs Hst Hsup)
    by (rewrite Hexp; reflexivity).
  rewrite Hhandler.
  rewrite (processDocument_run _ _ _ _ _ _ url)
    by (first [ exact Hurl
              | destruct Hct as [-> | ->]; apply andb_false_r ]).
  unfold tiers. rewrite Hup.
  rewrite tier1_agent_run. cbv zeta. rewrite down_agentReply.
  rewrite tier2_mindee_run. cbv zeta. rewrite (proj2 Hdown).
  rewrite tier3_manual_run. cbv zeta. rewrite Hup. cbn [snd documentType].
  rewrite down_agent_world. lookup_solve.
Qed.

(** The typed text is stored and the session moves to the confirmation. *)
Lemma down_typed message w s st ty txt :
  sessions w !! from_id message = Some s ->
  Session.step s = Some st ->
  awaited_document st = Some ty ->
  getContentType message = CText ->
  text message = Some txt ->
  awaitingManualInput s = Some true ->
  sessions (snd (handleWebhook env message w)) !! from_id message
  = Some (Session.nextStep
            (Session.addToConversationHistory (manualConfirmationMsg ty txt)
               RoleAssistant
               (Session.setAwaitingManualInput false
                  (Session.setDocumentData ty (RawText txt) s)))).
Proof.
  intros Hs Hst Hty Hct Htxt Hflag.
  assert (Session.manualInputPending s = true) as Hpending
    by (unfold Session.manualInputPending; rewrite Hflag; reflexivity).
  assert (getContentType message <> CUnsupported) as Hsup
    by (rewrite Hct; discriminate).
  rewrite (handleWebhook_sessions env message w s st Hs Hst Hsup)
    by (rewrite Hpending, Hct; apply orb_true_r).
  rewrite (awaited_handler env st ty Hty), Hct.
  rewrite processDocument_manual
    by (rewrite (session_of_lookup _ (console_logged s w) _ Hs); exact Hpending).
  rewrite handleManualInput_run. cbv zeta. cbn [documentType].
  rewrite (text_of_Some _ _ Htxt), Hup. cbn [snd]. lookup_solve.
Qed.

(** A typed "yes" is an acceptance. *)
Lemma down_yes message w s st config txt :
  sessions w !! from_id message = Some s ->
  Session.step s = Some st ->
  confirmation_config env st = Some config ->
  getContentType message = CText ->
  text message = Some txt ->
  guessDecision txt = yes ->
  exists messages,
    messagesFor (Some st) = Some messages
    /\ handleWebhook env message w
       = acceptPath config (from_id message)
           (upd (from_id message)
              (Session.addToConversationHistory (successMessage messages)
                 RoleAssistant)
              (sent env (from_id message) (successMessage messages)
                 (manual_world env (from_id message) txt (console_logged s w)))).
Proof.
  intros Hs Hst Hcfg Hct Htxt Hyes.
  destruct (confirmation_messages env st config Hcfg) as [messages Hm].
  exists messages. split; [exact Hm |].
  rewrite (handleWebhook_confirmation env message w s st config Hs Hst Hcfg Hct).
  rewrite handleConfirmation_run. cbv zeta.
  rewrite (text_of_Some _ _ Htxt), down_agentReply, Hyes.
  assert (sessions (manual_world env (from_id message) txt (console_logged s w))
          !! from_id message = Some s) as Hma.
  { rewrite sessions_manual_world, down_agent_world. lookup_solve. }
  rewrite (session_of_lookup _ _ _ Hma), Hst, Hm.
  unfold resolve_decision. rewrite Hup.
  rewrite (Ret_eta _ (acceptPath_returns env st config _ _ Hcfg Hup)).
  reflexivity.
Qed.

Lemma down_yes_document message w s st ty txt :
  sessions w !! from_id message = Some s ->
  Session.step s = Some st ->
  confirmed_document st = Some ty ->
  getContentType message = CText ->
  text message = Some txt ->
  guessDecision txt = yes ->
  exists item,
    sessions (snd (handleWebhook env message w)) !! from_id message
    = Some (Session.nextStep
              (Session.addToConversationHistory item RoleAssistant s)).
Proof.
  intros Hs Hst Hty Hct Htxt Hyes.
  destruct (confirmed_config env st ty Hty) as (config & Hcfg & Hacc & _).
  destruct (down_yes message w s st config txt Hs Hst Hcfg Hct Htxt Hyes)
    as (messages & _ & ->).
  exists (successMessage messages).
  rewrite (acceptPath_default _ _ _ Hacc). cbn [snd].
  rewrite lookup_upd_eq, lookup_upd_eq, sessions_sent, sessions_manual_world,
    down_agent_world.
  rewrite sessions_add_event, sessions_console_logged, Hs. reflexivity.
Qed.

Hypothesis Hpolicy : policy_up env.

Lemma down_yes_price message w s txt :
  sessions w !! from_id message = Some s ->
  Session.step s = Some confirming_price ->
  getContentType message = CText ->
  text message = Some txt ->
  guessDecision txt = yes ->
  let w' := snd (handleWebhook env message w) in
  (exists item,
      sessions w' !! from_id message
      = Some (Session.nextStep
                (Session.nextStep
                   (Session.addToConversationHistory item RoleAssistant s))))
  /\ policy_event (from_id message) ∈ events w'.
Proof.
  intros Hs Hst Hct Htxt Hyes. cbv zeta.
  destruct (down_yes message w s confirming_price (confirming_price_config env)
              txt Hs Hst eq_refl Hct Htxt Hyes)
    as (messages & _ & ->).
  rewrite price_accept_run.
  rewrite sendPolicy_delivered by apply Hpolicy.
  cbn [snd]. split.
  - exists (successMessage messages).
    rewrite !lookup_upd_eq, sessions_add_event, lookup_upd_eq, lookup_upd_eq,
      sessions_sent, sessions_manual_world, down_agent_world.
    rewrite sessions_add_event, sessions_console_logged, Hs. reflexivity.
  - autorewrite with events_db. set_solver.
Qed.

End Degraded.

Lemma truthy_nonempty t : t <> "" -> truthy t = true.
Proof.
  intros H. unfold truthy. destruct (String.eqb_spec t ""); [contradiction |].
  reflexivity.
Qed.

Lemma textMessage_content chat_id t :
  t <> "" -> getContentType (textMessage chat_id t) = CText.
Proof.
  intros H. unfold getContentType, textMessage. cbn.
  rewrite (truthy_nonempty _ H). reflexivity.
Qed.

Lemma guessDecision_nonempty t : guessDecision t = yes -> t <> "".
Proof. intros H ->. discriminate H. Qed.

Lemma photoMessage_url env chat_id url :
  tg_getFile env "large" = Some url ->
  fileUrlOf env (photoMessage chat_id)
    (fileTypeOf (getContentType (photoMessage chat_id))) = Some url.
Proof.
  intros H. unfold fileUrlOf, getFileUrl, fetchFileUrl. cbn.
  rewrite H. reflexivity.
Qed.

Ltac at_step :=
  apply step_is; autorewrite with session_db; cbn; reflexivity.

(** X15. Completion without the AI services.  With the agent and the
    extraction service both out of reach, but the transport and the
    renderer working, a new user who sends a command, a passport photo,
    the passport data as text, a "yes", a licence photo, the licence data
    as text and two more "yes" ends at [completed]: both documents are
    stored as the raw texts typed, the flag is lowered again, and the
    policy has been delivered. *)
Theorem degraded_mode_completes env chat_id t1 y1 t2 y2 y3 url w :
  services_down env ->
  transport_up env ->
  policy_up env ->
  tg_getFile env "large" = Some url ->
  t1 <> "" -> t2 <> "" ->
  guessDecision y1 = yes -> guessDecision y2 = yes -> guessDecision y3 = yes ->
  sessions w !! chat_id = None ->
  let w' := handleAll (typed_conversation env chat_id t1 y1 t2 y2 y3) w in
  exists s,
    sessions w' !! chat_id = Some s
    /\ Session.step s = Some completed
    /\ Session.documentData passport s = RawText t1
    /\ Session.documentData drivers_license s = RawText t2
    /\ awaitingManualInput s = Some false
    /\ policy_event chat_id ∈ events w'.
Proof.
  intros Hdown Hup Hpolicy Hget Ht1 Ht2 Hy1 Hy2 Hy3 Hnone.
  unfold typed_conversation. cbn [handleAll]. cbv zeta.
  set (w1 := snd (handleWebhook env (startCommand chat_id) w)).
  set (w2 := snd (handleWebhook env (photoMessage chat_id) w1)).
  set (w3 := snd (handleWebhook env (textMessage chat_id t1) w2)).
  set (w4 := snd (handleWebhook env (textMessage chat_id y1) w3)).
  set (w5 := snd (handleWebhook env (photoMessage chat_id) w4)).
  set (w6 := snd (handleWebhook env (textMessage chat_id t2) w5)).
  set (w7 := snd (handleWebhook env (textMessage chat_id y2) w6)).
  set (w8 := snd (handleWebhook env (textMessage chat_id y3) w7)).
  pose proof (photoMessage_url env chat_id url Hget) as Hurl.
  pose proof (guessDecision_nonempty _ Hy1) as Hn1.
  pose proof (guessDecision_nonempty _ Hy2) as Hn2.
  pose proof (guessDecision_nonempty _ Hy3) as Hn3.
  (* the command *)
  assert (sessions w1 !! chat_id = Some (Session.nextStep Session.new)) as H1.
  { subst w1. rewrite (handleWebhook_created env (startCommand chat_id) w Hnone).
    pose proof (start_command_present env (startCommand chat_id)
                  (created chat_id w) Session.new
                  (lookup_created chat_id w) eq_refl eq_refl) as H.
    cbv zeta in H. rewrite Hup in H. apply H. }
  (* the passport photo *)
  pose proof (down_submission env Hdown Hup (photoMessage chat_id) w1 _
                awaiting_passport passport url H1 ltac:(at_step) eq_refl
                (or_introl eq_refl) Hurl) as H2.
  fold w2 in H2.
  (* the passport, typed *)
  pose proof (down_typed env Hup (textMessage chat_id t1) w2 _
                awaiting_passport passport t1 H2 ltac:(at_step) eq_refl
                (textMessage_content chat_id t1 Ht1) eq_refl
                ltac:(autorewrite with session_db; reflexivity)) as H3.
  fold w3 in H3.
  (* yes *)
  destruct (down_yes_document env Hdown Hup (textMessage chat_id y1) w3 _
              confirming_passport passport y1 H3 ltac:(at_step) eq_refl
              (textMessage_content chat_id y1 Hn1) eq_refl Hy1) as [i4 H4].
  fold w4 in H4.
  (* the licence photo *)
  pose proof (down_submission env Hdown Hup (photoMessage chat_id) w4 _
                awaiting_driversId drivers_license url H4 ltac:(at_step) eq_refl
                (or_introl eq_refl) Hurl) as H5.
  fold w5 in H5.
  (* the licence, typed *)
  pose proof (down_typed env Hup (textMessage chat_id t2) w5 _
                awaiting_driversId drivers_license t2 H5 ltac:(at_step) eq_refl
                (textMessage_content chat_id t2 Ht2) eq_refl
                ltac:(autorewrite with session_db; reflexivity)) as H6.
  fold w6 in H6.
  (* yes *)
  destruct (down_yes_document env Hdown Hup (textMessage chat_id y2) w6 _
              confirming_driversId drivers_license y2 H6 ltac:(at_step) eq_refl
              (textMessage_content chat_id y2 Hn2) eq_refl Hy2) as [i7 H7].
  fold w7 in H7.
  (* yes to the price *)
  destruct (down_yes_price env Hdown Hup Hpolicy (textMessage chat_id y3) w7 _
              y3 H7 ltac:(at_step)
              (textMessage_content chat_id y3 Hn3) eq_refl Hy3)
    as [[i8 H8] Hev].
  fold w8 in H8, Hev.
  eexists. split; [exact H8 |].
  split; [at_step |].
  autorewrite with session_db.
  rewrite (setDocumentData_other drivers_license passport) by discriminate.
  autorewrite with session_db.
  repeat split; try reflexivity. exact Hev.
Qed.

Lemma degraded_mode_completes_witness :
  let env := stub true agent_down None in
  let w' := handleAll
              (typed_conversation env 7 "Ada Lovelace, X123, 10.12.1815"
                 "Yes" "Ada Lovelace, DL-42, 10.12.1815" " yes " "YES")
              emptyWorld in
  exists s,
    sessions w' !! 7%Z = Some s
    /\ Session.step s = Some completed
    /\ Session.documentData passport s
       = RawText "Ada Lovelace, X123, 10.12.1815"
    /\ Session.documentData drivers_license s
       = RawText "Ada Lovelace, DL-42, 10.12.1815"
    /\ awaitingManualInput s = Some false
    /\ policy_event 7 ∈ events w'.
Proof.
  cbv zeta.
  apply (degraded_mode_completes (stub true agent_down None) 7
           "Ada Lovelace, X123, 10.12.1815" "Yes"
           "Ada Lovelace, DL-42, 10.12.1815" " yes " "YES"
           "https://files/large" emptyWorld).
  - split; intros; reflexivity.
  - intros ? ?. reflexivity.
  - intros ? ?. reflexivity.
  - reflexivity.
  - discriminate.
  - discriminate.
  - vm_compute. reflexivity.
  - vm_compute. reflexivity.
  - vm_compute. reflexivity.
  - reflexivity.
Defined.

(* ================================================================== *)
(** ** The tools write where their input says *)
(* ================================================================== *)

(** X16. A tool stores what it extracts in the session named by the
    [chat_id] of its input, which nothing compares with the user on whose
    behalf the agent runs: after [promptAgent], for every tool call of
    the run whose extraction succeeded, the session of that identifier
    exists and holds an extracted record for that document; a session
    the call had to create is at [start]. *)
Theorem tool_writes_named_session env chat_id userMessage instruction w tc :
  tc ∈ tool_calls (agentCall env chat_id userMessage instruction
                      (session_of chat_id w)) ->
  is_Some (mindee_extractData env (tc_url tc) (tc_tool tc)) ->
  let w' := snd (promptAgent env chat_id userMessage instruction w) in
  exists s' fields,
    sessions w' !! tc_chat_id tc = Some s'
    /\ Session.documentData (tc_tool tc) s' = Structured fields
    /\ (sessions w !! tc_chat_id tc = None ->
        tc_chat_id tc <> chat_id ->
        Session.step s' = Some start).
Proof.
  intros Hin Hex. cbv zeta.
  rewrite promptAgent_world.
  set (out := agentCall env chat_id userMessage instruction
                (session_of chat_id w)) in *.
  destruct (after_tools_stored env (tool_calls out)
              (add_event (RunAgent chat_id userMessage) w)
              (tc_chat_id tc) (tc_tool tc)) as (s1 & fields & H1 & D1).
  { exists tc. auto. }
  fold (agent_world env chat_id userMessage instruction w) in H1.
  assert (sessions w !! tc_chat_id tc = None -> Session.step s1 = Some start)
    as Hnew.
  { intros Hnone.
    destruct (after_tools_frame env (tool_calls out)
                (add_event (RunAgent chat_id userMessage) w))
      as [_ Hframe].
    destruct (Hframe (tc_chat_id tc)) as [_ Hcreated].
    fold (agent_world env chat_id userMessage instruction w) in Hcreated.
    destruct (Hcreated Hnone) as [E | (s2 & E & Fi & _)]; [congruence |].
    apply step_is. assert (s2 = s1) as -> by congruence. exact Fi. }
  destruct (agentReply out) as [[reply h] |]; cbn [snd].
  - destruct (decide (tc_chat_id tc = chat_id)) as [E | Hne].
    + exists (Session.setConversation h s1), fields.
      split; [rewrite E in H1 |- *; apply lookup_upd_some; exact H1 |].
      split; [autorewrite with session_db; exact D1 | intros _ Hc; contradiction].
    + exists s1, fields.
      split; [rewrite lookup_upd_ne by congruence; exact H1 |].
      split; [exact D1 | intros Hnone _; apply Hnew, Hnone].
  - exists s1, fields. split; [exact H1 |].
    split; [exact D1 | intros Hnone _; apply Hnew, Hnone].
Qed.

Lemma tool_writes_named_session_witness :
  let env := misaddressing_agent in
  let tc := {| tc_tool := passport; tc_url := "https://files/large";
               tc_chat_id := 8 |} in
  let w := world_awaiting_passport in
  let w' := snd (promptAgent env 7 "hello" None w) in
  sessions w !! 8%Z = None
  /\ exists s' fields,
       sessions w' !! 8%Z = Some s'
       /\ Session.documentData passport s' = Structured fields
       /\ (sessions w !! 8%Z = None -> 8%Z <> 7%Z ->
           Session.step s' = Some start).
Proof.
  cbv zeta.
  split; [vm_compute; reflexivity |].
  apply (tool_writes_named_session misaddressing_agent 7 "hello" None
           world_awaiting_passport
           {| tc_tool := passport; tc_url := "https://files/large";
              tc_chat_id := 8 |}).
  - simpl. constructor.
  - simpl. eexists. reflexivity.
Defined.

(* ================================================================== *)
(** ** The session class and its storage *)
(* ================================================================== *)

Lemma iter_nextStep_index n s :
  (_stepIndex s <= 7)%nat ->
  _stepIndex (Nat.iter n Session.nextStep s) = Nat.min (_stepIndex s + n) 7.
Proof.
  intros Hle. induction n as [| n IH]; simpl.
  - lia.
  - rewrite nextStep_index, IH.
    destruct (Nat.ltb_spec (Nat.min (_stepIndex s + n) 7) 7); lia.
Qed.

Lemma iter_prevStep_index n s :
  _stepIndex (Nat.iter n Session.prevStep s) = (_stepIndex s - n)%nat.
Proof.
  induction n as [| n IH]; simpl.
  - lia.
  - rewrite prevStep_index, IH. lia.
Qed.

Lemma iter_step_fields (f : UserSession -> UserSession) n s :
  (forall x, _conversation (f x) = _conversation x
             /\ awaitingManualInput (f x) = awaitingManualInput x
             /\ forall ty, Session.documentData ty (f x)
                           = Session.documentData ty x) ->
  _conversation (Nat.iter n f s) = _conversation s
  /\ awaitingManualInput (Nat.iter n f s) = awaitingManualInput s
  /\ forall ty, Session.documentData ty (Nat.iter n f s)
                = Session.documentData ty s.
Proof.
  intros Hf. induction n as [| n (IHc & IHf & IHd)]; simpl; [auto |].
  destruct (Hf (Nat.iter n f s)) as (Hc & Hfl & Hd).
  repeat split; [congruence | congruence |].
  intros ty. rewrite Hd. apply IHd.
Qed.

(** X17. Repeated [nextStep] saturates at [completed] and repeated
    [prevStep] at [start]: after [n] calls the index is [min (i + n) 7],
    respectively [i - n], so seven calls reach the end from anywhere; the
    transcript, the flag and the documents are not touched. *)
Theorem steps_saturate n s :
  (_stepIndex s < length STEPS)%nat ->
  let up := Nat.iter n Session.nextStep s in
  let down := Nat.iter n Session.prevStep s in
  _stepIndex up = Nat.min (_stepIndex s + n) 7
  /\ _stepIndex down = (_stepIndex s - n)%nat
  /\ ((7 <= n)%nat -> Session.step up = Some completed
                      /\ Session.step down = Some start)
  /\ (_conversation up = _conversation s
      /\ awaitingManualInput up = awaitingManualInput s
      /\ forall ty, Session.documentData ty up = Session.documentData ty s)
  /\ (_conversation down = _conversation s
      /\ awaitingManualInput down = awaitingManualInput s
      /\ forall ty, Session.documentData ty down = Session.documentData ty s).
Proof.
  intros Hlt. cbv zeta. rewrite STEPS_length in Hlt.
  pose proof (iter_nextStep_index n s ltac:(lia)) as Hup.
  pose proof (iter_prevStep_index n s) as Hdown.
  split; [exact Hup |]. split; [exact Hdown |].
  split; [| split].
  - intros Hn. split; apply step_is; simpl; lia.
  - apply iter_step_fields. intros x.
    autorewrite with session_db. repeat split.
    intros ty. apply nextStep_document.
  - apply iter_step_fields. intros x.
    autorewrite with session_db. repeat split.
    intros ty. apply prevStep_document.
Qed.

Lemma steps_saturate_witness :
  let s := session_of 7 world_confirming_passport in
  let up := Nat.iter 9 Session.nextStep s in
  let down := Nat.iter 9 Session.prevStep s in
  (_stepIndex s < length STEPS)%nat
  /\ _stepIndex up = Nat.min (_stepIndex s + 9) 7
  /\ _stepIndex down = (_stepIndex s - 9)%nat
  /\ ((7 <= 9)%nat -> Session.step up = Some completed
                      /\ Session.step down = Some start)
  /\ (_conversation up = _conversation s
      /\ awaitingManualInput up = awaitingManualInput s
      /\ forall ty, Session.documentData ty up = Session.documentData ty s)
  /\ (_conversation down = _conversation s
      /\ awaitingManualInput down = awaitingManualInput s
      /\ forall ty, Session.documentData ty down = Session.documentData ty s).
Proof.
  cbv zeta.
  assert (_stepIndex (session_of 7 world_confirming_passport) < length STEPS)%nat
    as Hlt by (vm_compute; lia).
  split; [exact Hlt |].
  exact (steps_saturate 9 (session_of 7 world_confirming_passport) Hlt).
Defined.

(** X18. [nextStep] and [prevStep] undo each other everywhere but at the
    ends of the flow: stepping forward and back returns the very same
    session unless it was at [completed], where only the step back takes
    effect; stepping back and forward returns it unless it was at
    [start], where only the step forward does. *)
Theorem next_prev_round_trip s :
  (_stepIndex s < length STEPS)%nat ->
  (Session.step s <> Some completed ->
   Session.prevStep (Session.nextStep s) = s)
  /\ (Session.step s <> Some start ->
      Session.nextStep (Session.prevStep s) = s)
  /\ (Session.step s = Some completed ->
      Session.step (Session.prevStep (Session.nextStep s)) = Some sending_policy)
  /\ (Session.step s = Some start ->
      Session.step (Session.nextStep (Session.prevStep s))
      = Some awaiting_passport).
Proof.
  intros Hlt. rewrite STEPS_length in Hlt.
  assert (forall i, (i < 8)%nat ->
                    i = 0 \/ i = 1 \/ i = 2 \/ i = 3 \/ i = 4 \/ i = 5
                    \/ i = 6 \/ i = 7)%nat as Hcases by (intros; lia).
  destruct s as [i c p d f]. cbn [_stepIndex] in Hlt.
  unfold Session.step, Session.nextStep, Session.prevStep.
  cbn [_stepIndex _conversation _passportData _driversIdData
       awaitingManualInput].
  destruct (Hcases i Hlt) as [-> | [-> | [-> | [-> | [-> | [-> | [-> | ->]]]]]]];
    cbn; repeat split; intros H; try reflexivity; try contradiction;
    try discriminate H.
Qed.

Lemma next_prev_round_trip_witness :
  let s := session_of 7 world_confirming_passport in
  (_stepIndex s < length STEPS)%nat
  /\ Session.step s <> Some completed
  /\ Session.step s <> Some start
  /\ Session.prevStep (Session.nextStep s) = s
  /\ Session.nextStep (Session.prevStep s) = s.
Proof.
  cbv zeta.
  assert (_stepIndex (session_of 7 world_confirming_passport) < length STEPS)%nat
    as Hlt by (vm_compute; lia).
  assert (Session.step (session_of 7 world_confirming_passport) <> Some completed)
    as Hc by (vm_compute; discriminate).
  assert (Session.step (session_of 7 world_confirming_passport) <> Some start)
    as Hs by (vm_compute; discriminate).
  destruct (next_prev_round_trip (session_of 7 world_confirming_passport) Hlt)
    as (H1 & H2 & _).
  split; [exact Hlt |]. split; [exact Hc |]. split; [exact Hs |].
  split; [exact (H1 Hc) | exact (H2 Hs)].
Defined.

(** X19. [SessionStorage.get] returns the stored session as it is, or
    stores a new one at [start] with an empty transcript; the entries of
    all other users and the record of events are left alone; a second
    [get] for the same user changes nothing, and [get]s for two users
    commute. *)
Theorem storage_get_or_create chat_id w :
  let w' := snd (sessionStorage_get chat_id w) in
  sessions w' !! chat_id = Some (default Session.new (sessions w !! chat_id))
  /\ (forall k, k <> chat_id -> sessions w' !! k = sessions w !! k)
  /\ events w' = events w
  /\ sessionStorage_get chat_id w' = (Ret tt, w')
  /\ forall k,
       snd (sessionStorage_get k w')
       = snd (sessionStorage_get chat_id (snd (sessionStorage_get k w))).
Proof.
  cbv zeta. unfold sessionStorage_get.
  destruct (sessions w !! chat_id) as [s |] eqn:Hs; cbn [snd sessions events].
  - split; [exact Hs |]. split; [reflexivity |]. split; [reflexivity |].
    split; [rewrite Hs; reflexivity |].
    intros k. destruct (sessions w !! k) as [sk |] eqn:Hk; cbn [snd sessions].
    + rewrite Hs. reflexivity.
    + destruct (decide (k = chat_id)) as [-> | Hne]; [congruence |].
      rewrite lookup_insert_ne by congruence. rewrite Hs. reflexivity.
  - split; [apply lookup_insert_eq |].
    split; [intros k Hk; apply lookup_insert_ne; congruence |].
    split; [reflexivity |].
    split; [rewrite lookup_insert_eq; reflexivity |].
    intros k. destruct (decide (k = chat_id)) as [-> | Hne].
    + rewrite lookup_insert_eq, Hs. cbn [snd sessions].
      rewrite lookup_insert_eq. reflexivity.
    + rewrite lookup_insert_ne by congruence.
      destruct (sessions w !! k) as [sk |] eqn:Hk; cbn [snd sessions].
      * rewrite Hs. reflexivity.
      * rewrite lookup_insert_ne by congruence. rewrite Hs.
        cbn [snd sessions events]. f_equal. apply insert_insert_ne. congruence.
Qed.

(* ================================================================== *)
(** ** Classifying the content of a message *)
(* ================================================================== *)

(** X20. [getContentType] looks at the fields in a fixed order: a photo
    list wins over everything else (even when it is empty), then a
    document, then a leading [bot_command] entity, then a non-empty
    text.  So content is a text only when the message has a non-empty
    text, which is what the handlers rely on when they read
    [message.text!]; and content is unsupported exactly when the message
    has none of the four. *)
Theorem content_type_priority message :
  (is_Some (photo message) -> getContentType message = CPhoto)
  /\ (photo message = None -> is_Some (document message) ->
      getContentType message = CDocument)
  /\ (getContentType message = CCommand
      <-> photo message = None /\ document message = None
          /\ leading_command message = true)
  /\ (getContentType message = CText
      <-> photo message = None /\ document message = None
          /\ leading_command message = false
          /\ exists t, text message = Some t /\ t <> "")
  /\ (getContentType message = CUnsupported
      <-> photo message = None /\ document message = None
          /\ leading_command message = false
          /\ (text message = None \/ text message = Some "")).
Proof.
  unfold getContentType, leading_command, truthy.
  destruct (photo message) as [photos |]; cbn.
  { split; [reflexivity |]. split; [discriminate |].
    repeat split; try discriminate; intros (H & _); discriminate H. }
  split; [intros [? [=]] |].
  destruct (document message) as [d |]; cbn.
  { split; [reflexivity |].
    repeat split; try discriminate; intros (_ & H & _); discriminate H. }
  split; [intros _ [? [=]] |].
  set (cmd := match entities message with
              | Some (ty :: _) => String.eqb ty "bot_command"
              | _ => false
              end).
  destruct cmd.
  { repeat split; try discriminate; intros (_ & _ & H & _); discriminate H. }
  destruct (text message) as [t |]; cbn;
    [destruct (String.eqb_spec t "") as [-> | Hne]; cbn |];
    (split; [split; [discriminate | intros (_ & _ & H); discriminate H] |]).
  - split.
    + split; [discriminate |].
      intros (_ & _ & _ & t' & [= <-] & Hne). contradiction.
    + split; auto.
  - split.
    + split; [| reflexivity]. intros _. repeat split. exists t. auto.
    + split; [discriminate |].
      intros (_ & _ & _ & [H | H]); [discriminate H | congruence].
  - split.
    + split; [discriminate | intros (_ & _ & _ & t' & [=] & _)].
    + split; auto.
Qed.

Lemma content_type_priority_witness :
  let message :=
    {| from_id := 7; text := Some "my passport"; entities := None;
       document := None; photo := Some [] |} in
  is_Some (photo message) /\ getContentType message = CPhoto.
Proof.
  cbv zeta.
  assert (is_Some (photo {| from_id := 7; text := Some "my passport";
                            entities := None; document := None;
                            photo := Some [] |})) as Hphoto
    by (simpl; eexists; reflexivity).
  split; [exact Hphoto |].
  exact (proj1 (content_type_priority _) Hphoto).
Defined.


(* ================================================================== *)
(** ** When a step handler raises *)
(* ================================================================== *)

Lemma content_photo message :
  getContentType message = CPhoto -> is_Some (photo message).
Proof.
  unfold getContentType.
  destruct (photo message); [intros _; eexists; reflexivity |].
  destruct (document message); cbn; [discriminate |].
  destruct (entities message) as [[| ty rest] |]; cbn;
    try destruct (String.eqb ty "bot_command");
    destruct (text message) as [t |]; cbn;
    try destruct (truthy t); discriminate.
Qed.

Lemma content_document message :
  getContentType message = CDocument ->
  photo message = None /\ is_Some (document message).
Proof.
  unfold getContentType.
  destruct (photo message); cbn; [discriminate |].
  destruct (document message); [intros _; split; [| eexists]; reflexivity |].
  cbn.
  destruct (entities message) as [[| ty rest] |]; cbn;
    try destruct (String.eqb ty "bot_command");
    destruct (text message) as [t |]; cbn;
    try destruct (truthy t); discriminate.
Qed.

Lemma getFileUrl_returns env message w :
  getContentType message = CPhoto \/ getContentType message = CDocument ->
  photo message <> Some [] ->
  exists result,
    fst (getFileUrl env message (fileTypeOf (getContentType message)) w)
    = Ret result.
Proof.
  intros Hct Hphoto. unfold getFileUrl, fetchFileUrl, logError.
  destruct Hct as [Hct | Hct]; rewrite Hct.
  - change (fileTypeOf CPhoto) with CPhoto.
    destruct (decide (CPhoto = CPhoto)) as [_ | Hne]; [| contradiction].
    destruct (content_photo message Hct) as [photos Hp]. rewrite Hp.
    destruct (last photos) as [q |] eqn:Hlast.
    + repeat match goal with
        | |- context [if ?b then _ else _] => destruct b
        | |- context [match ?x with _ => _ end] => destruct x
        end; eexists; reflexivity.
    + apply last_None in Hlast. congruence.
  - change (fileTypeOf CDocument) with CDocument.
    destruct (decide (CDocument = CPhoto)) as [E | _]; [discriminate E |].
    destruct (content_document message Hct) as [_ [d Hd]]. rewrite Hd.
    repeat match goal with
      | |- context [if ?b then _ else _] => destruct b
      | |- context [match ?x with _ => _ end] => destruct x
      end; eexists; reflexivity.
Qed.

Lemma tiers_return env chat_id config url w :
  transport_up env -> fst (tiers env chat_id config url w) = Ret tt.
Proof.
  intros Hup. unfold tiers. rewrite Hup.
  rewrite tier1_agent_run. cbv zeta.
  assert (forall W,
             fst (match tier2_mindee env chat_id config url W with
                  | (Ret true, w2) => (Ret tt, w2)
                  | (Ret false, w2) => tier3_manual env chat_id config w2
                  | (Throw, w2) => (Throw, w2)
                  end) = Ret tt) as Hfall.
  { intros W. rewrite tier2_mindee_run. cbv zeta.
    destruct (mindee_extractData env url (documentType config));
      rewrite ?Hup; [reflexivity |].
    rewrite tier3_manual_run. cbv zeta. rewrite Hup. reflexivity. }
  destruct (agentReply _) as [[reply h] |]; [| apply Hfall].
  rewrite Hup. reflexivity.
Qed.

Lemma processDocument_returns env chat_id message config w :
  transport_up env ->
  Session.manualInputPending (session_of chat_id w)
    && bool_decide (getContentType message = CText) = true
  \/ getContentType message = CPhoto \/ getContentType message = CDocument ->
  photo message <> Some [] ->
  fst (processDocument env chat_id (getContentType message) message config w)
  = Ret tt.
Proof.
  intros Hup Hcontent Hphoto.
  destruct (Session.manualInputPending (session_of chat_id w)
              && bool_decide (getContentType message = CText)) eqn:Hshort.
  { unfold processDocument. rewrite bind_run, readSession_run, Hshort.
    rewrite handleManualInput_run. cbv zeta. rewrite Hup. reflexivity. }
  destruct Hcontent as [H | Hct]; [discriminate H |].
  destruct (getFileUrl_returns env message w Hct Hphoto) as [result Hres].
  destruct result as [url | refusal].
  - rewrite (processDocument_run _ _ _ _ _ _ url Hshort).
    + apply tiers_return, Hup.
    + unfold fileUrlOf. rewrite <- (getFileUrl_fst env message _ w), Hres.
      reflexivity.
  - unfold processDocument. rewrite bind_run, readSession_run, Hshort.
    fold (fileTypeOf (getContentType message)). rewrite bind_run.
    destruct (getFileUrl env message (fileTypeOf (getContentType message)) w)
      as [r w0]. cbn [fst] in Hres. subst r.
    rewrite sendMessage_run, Hup. reflexivity.
Qed.

Lemma handleConfirmation_returns env message w s st config :
  transport_up env ->
  sessions w !! from_id message = Some s ->
  Session.step s = Some st ->
  confirmation_config env st = Some config ->
  fst (handleConfirmation env (from_id message) CText message config w) = Ret tt.
Proof.
  intros Hup Hs Hst Hcfg.
  assert (forall d m W,
             fst (resolve_decision env config (from_id message) d m W) = Ret tt)
    as Hres.
  { intros d m W. unfold resolve_decision. rewrite Hup.
    destruct d;
      [apply (acceptPath_returns env st config _ _ Hcfg Hup)
      | apply (rejectPath_returns env st config _ _ Hcfg)]. }
  rewrite handleConfirmation_run. cbv zeta.
  destruct (agentReply _) as [[reply h] |].
  - destruct (endsWith reply "[CONFIRMED]"); [apply Hres |].
    destruct (endsWith reply "[REJECTED]"); [apply Hres |].
    rewrite Hup. reflexivity.
  - destruct (manual_world_session env (from_id message) (text_of message) w
                (from_id message) s Hs) as (sm & Hsm & Fm).
    rewrite (session_of_lookup _ _ _ Hsm).
    rewrite (step_by_index s sm) by apply Fm. rewrite Hst.
    destruct (confirmation_messages env st config Hcfg) as [messages ->].
    destruct (guessDecision (text_of message));
      [apply Hres | apply Hres | rewrite Hup; reflexivity].
Qed.

(** X22. With a transport that delivers, no step handler raises when
    the router calls it, whatever the agent, the extraction service and
    the renderer do, unless the message is a photo whose list of sizes is
    empty: the catch block of the router with its retry prompt stays out
    of play, and what the router answers is what the handler made of the
    message. *)
Theorem handler_raises_only_without_transport env message w s st :
  sessions w !! from_id message = Some s ->
  Session.step s = Some st ->
  isExpectedContent env st message s = true ->
  transport_up env ->
  photo message <> Some [] ->
  handleWebhook env message w
  = handler (stepConfigs env st) (from_id message) (getContentType message)
      message (console_logged s w).
Proof.
  intros Hs Hst Hexp Hup Hphoto. unfold isExpectedContent in Hexp.
  assert (getContentType message <> CUnsupported) as Hsup.
  { intros E. rewrite E in Hexp.
    destruct st; simpl in Hexp; rewrite ?andb_false_r in Hexp;
      discriminate Hexp. }
  rewrite (handleWebhook_dispatch env message w s st Hs Hst Hsup Hexp).
  assert (sessions (console_logged s w) !! from_id message = Some s) as Hs1
    by lookup_solve.
  assert (fst (handler (stepConfigs env st) (from_id message)
                 (getContentType message) message (console_logged s w))
          = Ret tt) as Hret.
  { destruct (awaited_document st) as [ty |] eqn:Hty.
    - rewrite (awaited_handler env st ty Hty).
      apply processDocument_returns; [exact Hup | | exact Hphoto].
      rewrite (session_of_lookup _ _ _ Hs1).
      destruct st; try discriminate Hty; cbn [expectsContent stepConfigs] in Hexp;
        destruct (getContentType message); cbn in Hexp;
        rewrite ?andb_false_r in Hexp; try discriminate Hexp; auto;
        try contradiction; left; rewrite andb_true_r in *; exact Hexp.
    - destruct st; try discriminate Hty; cbn [handler stepConfigs].
      + rewrite bind_run, sendMessage_run, Hup. reflexivity.
      + rewrite (confirmation_content env message s confirming_passport _
                   eq_refl Hexp).
        apply (handleConfirmation_returns env message _ s confirming_passport);
          auto.
      + rewrite (confirmation_content env message s confirming_driversId _
                   eq_refl Hexp).
        apply (handleConfirmation_returns env message _ s confirming_driversId);
          auto.
      + rewrite (confirmation_content env message s confirming_price _
                   eq_refl Hexp).
        apply (handleConfirmation_returns env message _ s confirming_price);
          auto.
      + apply sendPolicy_returns, Hup.
      + rewrite sendMessage_run, Hup. reflexivity. }
  destruct (handler _ _ _ _ _) as [r w1]. cbn [fst] in Hret. subst r.
  reflexivity.
Qed.

Lemma handler_raises_only_without_transport_witness :
  let env := stub true (agent_says "I could not read it. [FAILED]") None in
  let message := photoMessage 7 in
  let w := world_awaiting_passport in
  let s := session_of 7 w in
  isExpectedContent env awaiting_passport message s = true
  /\ handleWebhook env message w
     = handler (stepConfigs env awaiting_passport) 7%Z (getContentType message)
         message (console_logged s w).
Proof.
  cbv zeta.
  split; [vm_compute; reflexivity |].
  apply (handler_raises_only_without_transport
           (stub true (agent_says "I could not read it. [FAILED]") None)
           (photoMessage 7) world_awaiting_passport
           (session_of 7 world_awaiting_passport) awaiting_passport).
  - vm_compute. reflexivity.
  - vm_compute. reflexivity.
  - vm_compute. reflexivity.
  - intros ? ?. reflexivity.
  - discriminate.
Defined.

(* ================================================================== *)
(** ** Escaping for MarkdownV2 *)
(* ================================================================== *)

Lemma is_reserved_backslash : is_reserved backslash = true.
Proof. reflexivity. Qed.

Lemma unreserved_not_backslash c :
  is_reserved c = false -> Ascii.eqb c backslash = false.
Proof.
  intros H. destruct (Ascii.eqb_spec c backslash) as [->|]; [|reflexivity].
  rewrite is_reserved_backslash in H. discriminate.
Qed.

Lemma unescape_escape s : unescape (escapeForMarkdownV2 s) = s.
Proof.
  induction s as [|c s IH]; [reflexivity|].
  cbn [escapeForMarkdownV2]. destruct (is_reserved c) eqn:E.
  - cbn [unescape]. rewrite Ascii.eqb_refl, IH. reflexivity.
  - cbn [unescape]. rewrite (unreserved_not_backslash _ E), IH. reflexivity.
Qed.

Lemma escape_app s t :
  escapeForMarkdownV2 (s +:+ t) = escapeForMarkdownV2 s +:+ escapeForMarkdownV2 t.
Proof.
  induction s as [|c s IH]; [reflexivity|].
  change (String c s +:+ t) with (String c (s +:+ t)).
  cbn [escapeForMarkdownV2]. rewrite IH. destruct (is_reserved c); reflexivity.
Qed.

Lemma escape_length s :
  String.length (escapeForMarkdownV2 s) = (String.length s + count_reserved s)%nat.
Proof.
  induction s as [|c s IH]; [reflexivity|].
  cbn [escapeForMarkdownV2 count_reserved].
  destruct (is_reserved c); cbn [String.length]; rewrite IH; lia.
Qed.

Lemma escape_well_escaped s : well_escaped (escapeForMarkdownV2 s) = true.
Proof.
  induction s as [|c s IH]; [reflexivity|].
  cbn [escapeForMarkdownV2]. destruct (is_reserved c) eqn:E.
  - cbn [well_escaped]. rewrite Ascii.eqb_refl, E, IH. reflexivity.
  - cbn [well_escaped]. rewrite (unreserved_not_backslash _ E), E, IH. reflexivity.
Qed.

Lemma escape_count s :
  count_reserved (escapeForMarkdownV2 s) = (2 * count_reserved s)%nat.
Proof.
  induction s as [|c s IH]; [reflexivity|].
  cbn [escapeForMarkdownV2 count_reserved]. destruct (is_reserved c) eqn:E.
  - cbn [count_reserved]. rewrite is_reserved_backslash, E, IH. lia.
  - cbn [count_reserved]. rewrite E, IH. lia.
Qed.

(** X23. What [escapeForMarkdownV2] does to a text can be undone and
    loses nothing: reading the backslashes back gives the text again, so
    two different texts are never escaped to the same string; and a text
    put together from two parts is escaped part by part. *)
Theorem escape_reversible s :
  unescape (escapeForMarkdownV2 s) = s
  /\ (forall t, escapeForMarkdownV2 s = escapeForMarkdownV2 t -> s = t)
  /\ (forall t, escapeForMarkdownV2 (s +:+ t)
                = escapeForMarkdownV2 s +:+ escapeForMarkdownV2 t).
Proof.
  split; [apply unescape_escape|]. split; [|apply escape_app].
  intros t H. rewrite <- (unescape_escape s), <- (unescape_escape t), H.
  reflexivity.
Qed.

(** X24. The escaped text is well formed for MarkdownV2: every reserved
    character in it stands right after a backslash put there for it.  It
    is longer than the text by one character for each reserved character,
    so it is the text itself exactly when the text has none; and as the
    backslash is reserved too, escaping a text twice escapes the
    backslashes of the first round again. *)
Theorem escape_output s :
  well_escaped (escapeForMarkdownV2 s) = true
  /\ String.length (escapeForMarkdownV2 s)
     = (String.length s + count_reserved s)%nat
  /\ (escapeForMarkdownV2 s = s <-> count_reserved s = 0%nat)
  /\ String.length (escapeForMarkdownV2 (escapeForMarkdownV2 s))
     = (String.length s + 3 * count_reserved s)%nat.
Proof.
  split; [apply escape_well_escaped|]. split; [apply escape_length|].
  split.
  - split.
    + intros H. pose proof (escape_length s) as L. rewrite H in L. lia.
    + induction s as [|c s IH]; [reflexivity|].
      cbn [count_reserved escapeForMarkdownV2].
      destruct (is_reserved c); [discriminate|].
      intros H. rewrite IH; [reflexivity|exact H].
  - rewrite escape_length, escape_length, escape_count. lia.
Qed.

(* ================================================================== *)
(** ** The environment check at start-up *)
(* ================================================================== *)

Lemma sublist_List_filter {A} (f : A -> bool) (l : list A) :
  sublist (List.filter f l) l.
Proof.
  induction l as [|x l IH]; [constructor|].
  cbn [List.filter]. destruct (f x); [apply sublist_skip|apply sublist_cons];
    exact IH.
Qed.

(** X25. [throw_if_missing_env] returns normally exactly when each of the
    seven required variables is set to a non-empty value; otherwise it
    throws a text that starts with the line [Missing env variables] and
    then lists, one per line and in the order of the configuration, the
    required variables that are unset or empty, and only those. *)
Theorem throw_if_missing_env_outcome (process_env : gmap string string) :
  (throw_if_missing_env process_env = None
   <-> forall key, key ∈ REQUIRED_ENV ->
         exists value, process_env !! key = Some value /\ value <> "")
  /\ (forall message, throw_if_missing_env process_env = Some message ->
        exists missing,
          message = "Missing env variables" +:+ nl +:+ join nl missing
          /\ missing <> []
          /\ sublist missing REQUIRED_ENV
          /\ forall key, key ∈ missing
               <-> (key ∈ REQUIRED_ENV
                    /\ (process_env !! key = None
                        \/ process_env !! key = Some ""))).
Proof.
  assert (Hm : forall key, env_missing process_env key = true
               <-> (process_env !! key = None \/ process_env !! key = Some "")).
  { intros key. unfold env_missing. destruct (process_env !! key) as [v|].
    - destruct v as [|c v]; cbn; split; intros H; try discriminate; auto.
      + destruct H as [H|H]; discriminate.
    - split; auto. }
  unfold throw_if_missing_env. cbv zeta.
  set (missing := List.filter (env_missing process_env) REQUIRED_ENV).
  assert (Hin : forall key, key ∈ missing
                <-> (key ∈ REQUIRED_ENV
                     /\ (process_env !! key = None
                         \/ process_env !! key = Some ""))).
  { intros key. unfold missing. rewrite !list_elem_of_In, filter_In, Hm.
    reflexivity. }
  split.
  - destruct missing as [|k0 rest] eqn:E.
    + cbn. split; [|reflexivity]. intros _ key Hk.
      destruct (process_env !! key) as [v|] eqn:Ev.
      * exists v. split; [reflexivity|]. intros ->.
        assert (key ∈ @nil string) as Hf by (apply Hin; auto).
        inversion Hf.
      * assert (key ∈ @nil string) as Hf by (apply Hin; auto).
        inversion Hf.
    + cbn. split; [discriminate|]. intros H. exfalso.
      assert (Hk : k0 ∈ k0 :: rest) by constructor.
      apply Hin in Hk. destruct Hk as [Hk Hv].
      destruct (H k0 Hk) as (v & Hv1 & Hv2).
      destruct Hv as [Hv|Hv]; congruence.
  - intros message H. destruct missing as [|k0 rest] eqn:E; [discriminate|].
    cbn in H. injection H as <-. exists (k0 :: rest).
    split; [reflexivity|]. split; [discriminate|]. split; [|exact Hin].
    rewrite <- E. unfold missing. apply sublist_List_filter.
Qed.

(* ================================================================== *)
(** ** Retrying the start of the server *)
(* ================================================================== *)

Lemma calls_app a b : calls (a ++ b) = (calls a + calls b)%nat.
Proof. unfold calls. rewrite List.filter_app, length_app. reflexivity. Qed.

Lemma error_lines_app a b : error_lines (a ++ b) = error_lines a ++ error_lines b.
Proof. apply omap_app. Qed.

Lemma retry_lines_app a b : retry_lines (a ++ b) = retry_lines a ++ retry_lines b.
Proof. apply omap_app. Qed.

Lemma retry_loop_returns errs rest attempt lastError :
  let run := retry_loop (map Rejects errs ++ Resolves :: rest) attempt lastError in
  run = retry_loop (map Rejects errs ++ [Resolves]) attempt lastError
  /\ run.2 = true
  /\ calls run.1 = S (length errs)
  /\ retry_lines run.1 = map retryLine (seq attempt (S (length errs)))
  /\ error_lines run.1 = changes lastError errs.
Proof.
  cbv zeta. revert attempt lastError.
  induction errs as [|err errs IH]; intros attempt lastError.
  - cbn. repeat split; reflexivity.
  - cbn [map app retry_loop].
    destruct (IH (S attempt) (errorText err)) as (H0 & H1 & H2 & H3 & H4).
    rewrite <- H0.
    destruct (retry_loop (map Rejects errs ++ Resolves :: rest) (S attempt)
                (errorText err)) as [later returned].
    cbn [fst snd] in *. split; [reflexivity|]. split; [exact H1|].
    cbn [changes]. rewrite <- H4.
    change (seq attempt (S (length (err :: errs))))
      with (attempt :: seq (S attempt) (S (length errs))).
    cbn [map]. rewrite <- H3.
    destruct (String.eqb (errorText err) lastError);
      cbn [app]; rewrite ?calls_app, ?error_lines_app, ?retry_lines_app;
      cbn; unfold calls in H2 |- *; cbn; rewrite ?H2; auto.
Qed.

Lemma retry_loop_goes_on errs attempt lastError :
  let run := retry_loop (map Rejects errs) attempt lastError in
  run.2 = false
  /\ calls run.1 = length errs
  /\ error_lines run.1 = changes lastError errs.
Proof.
  cbv zeta. revert attempt lastError.
  induction errs as [|err errs IH]; intros attempt lastError.
  - cbn. repeat split; reflexivity.
  - cbn [map retry_loop].
    destruct (IH (S attempt) (errorText err)) as (H1 & H2 & H4).
    destruct (retry_loop (map Rejects errs) (S attempt) (errorText err))
      as [later returned].
    cbn [fst snd] in *. split; [exact H1|].
    cbn [changes]. rewrite <- H4.
    destruct (String.eqb (errorText err) lastError);
      cbn [app]; rewrite ?calls_app, ?error_lines_app;
      cbn; unfold calls in H2 |- *; cbn; rewrite ?H2; auto.
Qed.

Lemma changes_constant text errs lastError :
  Forall (fun err => errorText err = text) errs ->
  changes lastError errs
  = match errs with
    | [] => []
    | err :: _ => if String.eqb text lastError then [] else [err]
    end.
Proof.
  intros H. destruct H as [|err errs He Hrest]; [reflexivity|].
  cbn [changes]. rewrite He.
  assert (Hnil : changes text errs = []).
  { induction Hrest as [|e es He' _ IH]; [reflexivity|].
    cbn [changes]. rewrite He', String.eqb_refl. exact IH. }
  rewrite Hnil, app_nil_r. reflexivity.
Qed.

(** X26. [retryForever] returns at the first call of [fn] that resolves,
    and not before: after [n] failing calls followed by a successful one
    it has called [fn] exactly [n + 1] times, announced the attempts
    [1 .. n + 1] in this order, and what [fn] would have done on later
    calls plays no part.  As long as every call fails the loop has not
    returned, however many calls that is. *)
Theorem retryForever_returns_at_first_success errs rest initialError :
  let run := retryForever (map Rejects errs ++ Resolves :: rest) initialError in
  run = retryForever (map Rejects errs ++ [Resolves]) initialError
  /\ run.2 = true
  /\ calls run.1 = S (length errs)
  /\ retry_lines run.1 = map retryLine (seq 1 (S (length errs)))
  /\ (retryForever (map Rejects errs) initialError).2 = false
  /\ calls (retryForever (map Rejects errs) initialError).1 = length errs.
Proof.
  cbv zeta. unfold retryForever.
  destruct (retry_loop_returns errs rest 1 (errorText initialError))
    as (H0 & H1 & H2 & H3 & _).
  destruct (retry_loop_goes_on errs 1 (errorText initialError))
    as (G1 & G2 & _).
  auto 10.
Qed.

(** X27. [retryForever] writes an error to the console only when its text
    differs from that of the failure before it (for the first failure:
    from the text of [initialError]).  So while [fn] keeps failing with
    one and the same text, which is not that of [initialError], the error
    is written once, at the first failure, however long the loop runs. *)
Theorem retryForever_logs_changes errs initialError first text :
  Forall (fun err => errorText err = text) (first :: errs) ->
  text <> errorText initialError ->
  error_lines (retryForever (map Rejects (first :: errs)) initialError).1
  = [first]
  /\ error_lines
       (retryForever (map Rejects (first :: errs) ++ [Resolves]) initialError).1
     = [first].
Proof.
  intros Hall Hne. unfold retryForever.
  destruct (retry_loop_goes_on (first :: errs) 1 (errorText initialError))
    as (_ & _ & G).
  destruct (retry_loop_returns (first :: errs) [] 1 (errorText initialError))
    as (_ & _ & _ & _ & R).
  rewrite G, R, (changes_constant text _ _ Hall).
  destruct (String.eqb_spec text (errorText initialError)); [contradiction|].
  split; reflexivity.
Qed.

Lemma retryForever_logs_changes_witness :
  let down := ErrorObject "connect ECONNREFUSED" in
  Forall (fun err => errorText err = "connect ECONNREFUSED") [down; down; down]
  /\ "connect ECONNREFUSED" <> errorText (OtherValue "null")
  /\ error_lines
       (retryForever (map Rejects [down; down; down] ++ [Resolves])
          (OtherValue "null")).1
     = [down].
Proof.
  cbv zeta. split; [repeat constructor|]. split; [discriminate|].
  apply (retryForever_logs_changes
           [ErrorObject "connect ECONNREFUSED"; ErrorObject "connect ECONNREFUSED"]
           (OtherValue "null") (ErrorObject "connect ECONNREFUSED")
           "connect ECONNREFUSED").
  - repeat constructor.
  - discriminate.
Defined.
